(** * sub2md: a shallow embedding of the fetch / extract / persist pipeline

    The development follows the Python sources module by module:

    - [PyStr]:   the string primitives of Python the code relies on
                 ([str.strip], [str.split], [str.startswith], [int]);
    - [Dom]:     the traversable document the code obtains from BeautifulSoup;
    - [Url]:     the [netloc] component computed by [urllib.parse.urlparse]
                 and [SubstackScraper._extract_main_part];
    - [Fs]:      the file system, with [pathlib] paths;
    - [Cache]:   [sub2md/Cache.py];
    - [Generator]: [ContentGenerator.load_posts], the two listings and
                 [Generator._generate_files] of [sub2md/Generator.py];
    - [Scraper]: [sub2md/Scraper.py];
    - [Fixture]: concrete documents, services and worlds.

    Python [str] values are modelled by [string]; one [ascii] stands for one
    code point below 256.  Exceptions are modelled by the type [exn] and
    fallible code returns a [result]; code with effects is a function of the
    [world] (file system, network, request log and the mutable attributes of
    the scraper).  Logging and the progress bar are left out.  The properties
    come after the definitions, in the second part. *)

From Stdlib Require Import ZArith Ascii String List Lia.
From stdpp Require Import base option list gmap strings pretty.

Set Default Proof Using "Type".

(** ** Exceptions and results *)

(** The classes of [sub2md/utils/Exceptions.py], followed by the built-in
    and third-party exceptions the code can meet. *)
Inductive exn : Type :=
  | NetworkError
  | ContentError
  | CacheError
  | FileSystemError
  | ConfigurationError
  | ValidationError
  | ValueError
  | KeyError
  | TypeError
  | AttributeError
  | OSError
  | ClientError.

#[global] Instance exn_eq_dec : EqDecision exn.
Proof. solve_decision. Defined.

Inductive result (A : Type) : Type :=
  | Ok (a : A)
  | Raise (e : exn).

Arguments Ok {A} a.
Arguments Raise {A} e.

Definition is_ok {A} (r : result A) : bool :=
  match r with Ok _ => true | Raise _ => false end.

(** ** Python string primitives *)

Module PyStr.

Definition code (c : ascii) : nat := nat_of_ascii c.

(** [str.isspace] on one code point below 256. *)
Definition isspace (c : ascii) : bool :=
  let n := code c in
  ((9 <=? n) && (n <=? 13)) || ((28 <=? n) && (n <=? 32))
  || (n =? 133) || (n =? 160).

Definition isdigit (c : ascii) : bool :=
  let n := code c in (48 <=? n) && (n <=? 57).

Definition isascii (c : ascii) : bool := code c <? 128.

Definition isalpha_ascii (c : ascii) : bool :=
  let n := code c in
  ((65 <=? n) && (n <=? 90)) || ((97 <=? n) && (n <=? 122)).

Definition digit_value (c : ascii) : Z := Z.of_nat (code c - 48).

Fixpoint lstrip_with (p : ascii -> bool) (s : string) : string :=
  match s with
  | EmptyString => EmptyString
  | String c s' => if p c then lstrip_with p s' else s
  end.

(** [s.lstrip(...)] above and [s.rstrip(...)] below, for the characters
    satisfying [p]. *)
Fixpoint rstrip_with (p : ascii -> bool) (s : string) : string :=
  match s with
  | EmptyString => EmptyString
  | String c s' =>
      match rstrip_with p s' with
      | EmptyString => if p c then EmptyString else String c EmptyString
      | r => String c r
      end
  end.

(** [s.strip()] *)
Definition strip (s : string) : string :=
  rstrip_with isspace (lstrip_with isspace s).

(** [s.split(sep)] for a one-character separator: never the empty list. *)
Fixpoint split (sep : ascii) (s : string) : list string :=
  match s with
  | EmptyString => [EmptyString]
  | String c s' =>
      if Ascii.eqb c sep then EmptyString :: split sep s'
      else match split sep s' with
           | [] => [String c EmptyString]
           | h :: t => String c h :: t
           end
  end.

(** [c in s] for a character [c]. *)
Fixpoint contains (c : ascii) (s : string) : bool :=
  match s with
  | EmptyString => false
  | String d s' => Ascii.eqb c d || contains c s'
  end.

(** [s.replace(c, "")] for a character [c]. *)
Fixpoint remove_char (p : ascii -> bool) (s : string) : string :=
  match s with
  | EmptyString => EmptyString
  | String c s' => if p c then remove_char p s' else String c (remove_char p s')
  end.

(** The longest prefix of [s] whose characters all fail [p], and the rest. *)
Fixpoint break_at (p : ascii -> bool) (s : string) : string * string :=
  match s with
  | EmptyString => (EmptyString, EmptyString)
  | String c s' =>
      if p c then (EmptyString, s)
      else let '(a, b) := break_at p s' in (String c a, b)
  end.

Fixpoint forall_chars (p : ascii -> bool) (s : string) : bool :=
  match s with
  | EmptyString => true
  | String c s' => p c && forall_chars p s'
  end.

Fixpoint map_chars (f : ascii -> ascii) (s : string) : string :=
  match s with
  | EmptyString => EmptyString
  | String c s' => String (f c) (map_chars f s')
  end.

(** [sub in s] *)
Fixpoint issubstr (sub s : string) : bool :=
  String.prefix sub s
  || match s with
     | EmptyString => false
     | String _ s' => issubstr sub s'
     end.

(** What a file opened in text mode hands to [read]: every carriage return
    followed by a line feed, and every other carriage return, is a line
    feed. *)
Fixpoint universal_newlines (s : string) : string :=
  match s with
  | EmptyString => EmptyString
  | String c rest =>
      if Ascii.eqb c "013" then
        match rest with
        | String d s' =>
            if Ascii.eqb d "010" then String "010" (universal_newlines s')
            else String "010" (universal_newlines rest)
        | EmptyString => String "010" EmptyString
        end
      else String c (universal_newlines rest)
  end.

(** [a.startswith(b)] *)
Definition startswith (a b : string) : bool := String.prefix b a.

(** [a.endswith(b)] *)
Fixpoint endswith (a b : string) : bool :=
  String.eqb a b
  || match a with
     | EmptyString => false
     | String _ a' => endswith a' b
     end.

(** *** [int(s)] in base ten

    CPython accepts optional surrounding whitespace, an optional sign, and
    decimal digits in which single underscores may separate digits; anything
    else is a [ValueError] ([None] here).  The limit newer interpreters put
    on the number of digits (4300 by default) is not modelled. *)

(** Digits after at least one digit has been read: [acc] is the value so
    far, [us] tells that the previous character was an underscore. *)
Fixpoint int_digits (acc : Z) (us : bool) (s : string) : option Z :=
  match s with
  | EmptyString => if us then None else Some acc
  | String c s' =>
      if isdigit c then int_digits (10 * acc + digit_value c) false s'
      else if Ascii.eqb c "_" then
             if us then None else int_digits acc true s'
      else None
  end.

Definition int_unsigned (s : string) : option Z :=
  match s with
  | EmptyString => None
  | String c s' => if isdigit c then int_digits (digit_value c) false s' else None
  end.

Definition int (s : string) : option Z :=
  match strip s with
  | EmptyString => None
  | String c s' =>
      if Ascii.eqb c "+" then int_unsigned s'
      else if Ascii.eqb c "-" then Z.opp <$> int_unsigned s'
      else int_unsigned (String c s')
  end.

End PyStr.

(** ** Documents

    The code consumes parsed HTML through BeautifulSoup: a tree of text nodes
    and elements, searched in document order by tag name and class, read with
    [.text], pruned with [decompose()] and serialized with [str].  The tree
    and its traversals are defined here; parsing and serialization belong to
    the library and are taken from the class [Bs4] below.  An element
    carries its tag name and the values of its [class] attribute; the root of
    a parsed document is an element as well.  An element is always true as
    a Python condition. *)

Module Dom.

#[warnings="-register-all"]
Inductive node : Type :=
  | Text (s : string)
  | Elem (name : string) (classes : list string) (children : list node).

(** The first [Some] among the images of a list, left to right. *)
Definition first_some {A B : Type} (f : A -> option B) : list A -> option B :=
  fix go (l : list A) : option B :=
    match l with
    | [] => None
    | a :: l' => match f a with Some b => Some b | None => go l' end
    end.

Definition children (n : node) : list node :=
  match n with Text _ => [] | Elem _ _ cs => cs end.

(** The first node satisfying [p] among [n] and its descendants, in
    document order. *)
Fixpoint find_self (p : node -> bool) (n : node) : option node :=
  if p n then Some n
  else match n with
       | Text _ => None
       | Elem _ _ cs => first_some (find_self p) cs
       end.

(** [n.find(...)]: the first descendant of [n] satisfying [p]. *)
Definition find (p : node -> bool) (n : node) : option node :=
  first_some (find_self p) (children n).

(** [n.find_all(...)]: the descendants of [n] satisfying [p], in document
    order. *)
Fixpoint collect_self (p : node -> bool) (n : node) : list node :=
  (if p n then [n] else [])
  ++ match n with
     | Text _ => []
     | Elem _ _ cs => concat (map (collect_self p) cs)
     end.

Definition find_all (p : node -> bool) (n : node) : list node :=
  concat (map (collect_self p) (children n)).

(** The criterion of [find(name)]. *)
Definition is_tag (name : string) (n : node) : bool :=
  match n with
  | Text _ => false
  | Elem nm _ _ => String.eqb nm name
  end.

(** The criterion of [find(name, class_=cls)]. *)
Definition is_tag_class (name cls : string) (n : node) : bool :=
  match n with
  | Text _ => false
  | Elem nm cl _ => String.eqb nm name && bool_decide (cls ∈ cl)
  end.

(** [n.text]: the strings below [n], concatenated in document order. *)
Fixpoint text (n : node) : string :=
  match n with
  | Text s => s
  | Elem _ _ cs => String.concat "" (map text cs)
  end.

(** [for e in n.find_all(...): e.decompose()]: every descendant satisfying
    [p] is removed with its subtree. *)
Fixpoint prune (p : node -> bool) (n : node) : node :=
  match n with
  | Text _ => n
  | Elem nm cl cs =>
      Elem nm cl
        ((fix go (l : list node) : list node :=
            match l with
            | [] => []
            | c :: l' => if p c then go l' else prune p c :: go l'
            end) cs)
  end.

End Dom.

(** ** JSON values

    The index written by the scraper is an array of objects whose members are
    strings, integers and booleans; [jobject] models an object with scalar
    members and [json_read] the outcome of [json.load] on an index file that
    is either such an array or not JSON at all. *)

Inductive jvalue : Type :=
  | JNull
  | JBool (b : bool)
  | JNum (n : Z)
  | JStr (s : string).

#[global] Instance jvalue_eq_dec : EqDecision jvalue.
Proof. solve_decision. Defined.

Abbreviation jobject := (gmap string jvalue).

Inductive json_read : Type :=
  | JDecodeError
  | JArray (l : list jobject).

(** ** Services the code obtains from outside the repository

    One class for each library: [md5_hex] is
    [hashlib.md5(u.encode()).hexdigest()]; [parse] is
    [BeautifulSoup(text, parser)] and [to_str] is [str(soup)]; [resolve] is
    [Path.resolve] on an absolute path and [cwd] the current directory;
    [netloc_checks] stands for the
    validation [urllib.parse.urlsplit] applies to a bracketed or non-ASCII
    network location; [json_loads] and [json_dumps] are the codec of the
    [json] module. *)

Inductive parser : Type := HtmlParser | Lxml | Xml.

(** A path is the list of its components below the root, as [pathlib]
    keeps it. *)
Abbreviation path := (list string).

Class Hashlib : Type := { md5_hex : string -> string }.

Class Bs4 : Type := {
  parse : parser -> string -> Dom.node;
  to_str : Dom.node -> string;
}.

Class Pathlib : Type := {
  resolve : path -> path;
  cwd : path;
}.

Class Urllib : Type := { netloc_checks : string -> bool }.

Class Json : Type := {
  json_loads : string -> json_read;
  json_dumps : list jobject -> string;
}.

Module Url.

(** Characters allowed in a scheme: letters, digits and [+-.]. *)
Definition scheme_char (c : ascii) : bool :=
  PyStr.isalpha_ascii c || PyStr.isdigit c
  || Ascii.eqb c "+" || Ascii.eqb c "-" || Ascii.eqb c ".".

(** C0 control characters and space, stripped from the left of a URL. *)
Definition c0_or_space (c : ascii) : bool := PyStr.code c <=? 32.

(** Tab, carriage return and line feed are removed from a URL. *)
Definition unsafe_byte (c : ascii) : bool :=
  Ascii.eqb c "009" || Ascii.eqb c "013" || Ascii.eqb c "010".

Definition is_colon (c : ascii) : bool := Ascii.eqb c ":".

(** The scheme is split off when the text before the first colon is not
    empty, starts with an ASCII letter and holds scheme characters only. *)
Definition drop_scheme (url : string) : string :=
  if PyStr.contains ":" url then
    let '(pre, post) := PyStr.break_at is_colon url in
    match pre, post with
    | String c _, String _ rest =>
        if PyStr.isascii c && PyStr.isalpha_ascii c
           && PyStr.forall_chars scheme_char pre
        then rest else url
    | _, _ => url
    end
  else url.

Definition netloc_delim (c : ascii) : bool :=
  Ascii.eqb c "/" || Ascii.eqb c "?" || Ascii.eqb c "#".

Section Netloc.
Context `{Urllib}.

(** [urlparse(url).netloc]; [Raise ValueError] where [urlsplit] raises. *)
Definition netloc (url : string) : result string :=
  let url := PyStr.lstrip_with c0_or_space url in
  let url := PyStr.remove_char unsafe_byte url in
  let url := drop_scheme url in
  match url with
  | String "/" (String "/" rest) =>
      let loc := fst (PyStr.break_at netloc_delim rest) in
      let lb := PyStr.contains "[" loc in
      let rb := PyStr.contains "]" loc in
      if xorb lb rb then Raise ValueError
      else if ((lb && rb) || negb (PyStr.forall_chars PyStr.isascii loc))
              && negb (netloc_checks loc)
           then Raise ValueError
           else Ok loc
  | _ => Ok EmptyString
  end.

(** [SubstackScraper._extract_main_part]: every exception of the body is
    turned into a [ValidationError]. *)
Definition _extract_main_part (url : string) : result string :=
  match netloc url with
  | Raise _ => Raise ValidationError
  | Ok loc =>
      let parts := PyStr.split "." loc in
      match parts with
      | [] => Raise ValidationError
      | _ =>
          let middle_index := Nat.div (length parts) 2 in
          match parts !! middle_index with
          | Some p => Ok p
          | None => Raise ValidationError
          end
      end
  end.

End Netloc.
End Url.

(** ** Configuration constants ([sub2md/utils/Config.py]) *)

Module Config.

Definition CONTENT_DIV_CLASSES : list string := ["body"; "post-content"].
Definition TITLE_TAG : string := "h1".
Definition SUBTITLE_TAG : string := "h2".
Definition DATE_TAG : string := "time".
Definition LIKE_COUNT_CLASS : string := "like-count".
Definition PAID_CONTENT_CLASS : string := "paid-content".
Definition REMOVE_ELEMENTS : list string := ["script"; "style"; "iframe"].

Definition EXCLUDED_KEYWORDS : list string := ["about"; "archive"; "podcast"].
Definition SITEMAP_PATH : string := "/sitemap.xml".
Definition FEED_PATH : string := "/feed".
Definition POST_PATH_PREFIX : string := "/p/".

Definition VALID_MODES : list string := ["both"; "md"; "html"].
Definition DEFAULT_MODE : string := "both".
Definition MARKDOWN_EXTENSION : string := ".md".
Definition HTML_EXTENSION : string := ".html".
Definition DEFAULT_LOG_FILE : string := "sub2md.log".

End Config.

(** ** The file system

    Files hold text; directories are a set of paths.  [unwritable] and
    [unreadable] list the paths on which the operating system refuses the
    corresponding operation (permissions, a missing parent, a full disk):
    the code guards each access with [try], so both outcomes matter.
    Paths are absolute POSIX paths.  The file the logger appends to,
    [Scraper.log_file], is left out: no operation below reads or writes it,
    and what the properties say of files is said of the other files. *)

Module Fs.

Record t : Type := mk {
  files : gmap path string;
  dirs : gset path;
  unwritable : gset path;
  unreadable : gset path;
}.

Definition empty : t :=
  {| files := ∅; dirs := ∅; unwritable := ∅; unreadable := ∅ |}.

(** [Path.exists()], for a path whose directory can be searched. *)
Definition exists_ (fs : t) (p : path) : bool :=
  bool_decide (is_Some (files fs !! p)) || bool_decide (p ∈ dirs fs).

(** [open(p, 'r').read()]: the file is opened in text mode, so the text
    read is the text stored with its line ends translated. *)
Definition read_text (fs : t) (p : path) : result string :=
  if bool_decide (p ∈ unreadable fs) then Raise OSError
  else match files fs !! p with
       | Some c => Ok (PyStr.universal_newlines c)
       | None => Raise OSError
       end.

Definition with_file (fs : t) (p : path) (c : string) : t :=
  {| files := <[p := c]> (files fs); dirs := dirs fs;
     unwritable := unwritable fs; unreadable := unreadable fs |}.

Definition with_dir (fs : t) (p : path) : t :=
  {| files := files fs; dirs := {[p]} ∪ dirs fs;
     unwritable := unwritable fs; unreadable := unreadable fs |}.

(** [open(p, 'w')] followed by the writes of the [with] block; on a POSIX
    system the text is stored as it is written. *)
Definition write_text (fs : t) (p : path) (c : string) : result t :=
  if bool_decide (p ∈ unwritable fs) || bool_decide (p ∈ dirs fs)
  then Raise OSError
  else Ok (with_file fs p c).

(** [p.mkdir(parents=True, exist_ok=True)]; of the directories created,
    only [p] is recorded. *)
Definition mkdir (fs : t) (p : path) : result t :=
  if bool_decide (p ∈ unwritable fs) || bool_decide (is_Some (files fs !! p))
  then Raise OSError
  else Ok (with_dir fs p).

(** [p.unlink()]: removing needs the same permission as writing. *)
Definition unlink (fs : t) (p : path) : result t :=
  if bool_decide (p ∈ unwritable fs) then Raise OSError
  else match files fs !! p with
       | Some _ =>
           Ok {| files := delete p (files fs); dirs := dirs fs;
                 unwritable := unwritable fs; unreadable := unreadable fs |}
       | None => Raise OSError
       end.

(** [a / b] of [pathlib] for a segment [b] that holds no separator and is
    neither ["."] nor [".."]: the empty segment leaves [a] unchanged. *)
Definition joinpath (a : path) (b : string) : path :=
  match b with
  | EmptyString => a
  | _ => a ++ [b]
  end.

(** [str(p)] for an absolute path. *)
Definition path_str (p : path) : string := "/" +:+ String.concat "/" p.

(** [str(p)] for a relative path that is not empty. *)
Definition rel_str (p : path) : string := String.concat "/" p.

(** The components of [Path(s)]: empty segments and ["."] are dropped. *)
Definition components (s : string) : path :=
  filter (fun c => c <> "" /\ c <> ".") (PyStr.split "/" s).

End Fs.

Infix "//" := Fs.joinpath (at level 40, left associativity).

(** ** The world a run acts on

    [net] is what a GET of a URL answers; [requests] logs the URLs fetched,
    oldest first; [processed_urls] and [results] are the two mutable
    attributes of the scraper object that the pipeline reads or updates. *)

Inductive http_result : Type :=
  | Response (status : nat) (body : string)
  | TransportFailure.

Record PostData : Type := mkPostData {
  title : string;
  subtitle : string;
  date : string;
  like_count : Z;
  is_paid : bool;
  content : string;
  file_link : option string;
  html_link : option string;
}.

#[global] Instance PostData_eq_dec : EqDecision PostData.
Proof. solve_decision. Defined.

Record world : Type := mkWorld {
  fs : Fs.t;
  net : string -> http_result;
  requests : list string;
  processed_urls : gset string;
  results : list PostData;
}.

Definition set_fs (w : world) (f : Fs.t) : world :=
  {| fs := f; net := net w; requests := requests w;
     processed_urls := processed_urls w; results := results w |}.

Definition log_request (w : world) (u : string) : world :=
  {| fs := fs w; net := net w; requests := requests w ++ [u];
     processed_urls := processed_urls w; results := results w |}.

Definition push_result (w : world) (r : PostData) : world :=
  {| fs := fs w; net := net w; requests := requests w;
     processed_urls := processed_urls w; results := results w ++ [r] |}.

(** ** Computations: state passing with exceptions

    A failing computation keeps the state reached when the exception was
    raised, as effects performed before a Python [raise] persist. *)

Definition io (A : Type) : Type := world -> result A * world.

Definition ret {A} (a : A) : io A := fun w => (Ok a, w).

Definition raise {A} (e : exn) : io A := fun w => (Raise e, w).

Definition bind {A B} (m : io A) (k : A -> io B) : io B :=
  fun w => match m w with
           | (Ok a, w') => k a w'
           | (Raise e, w') => (Raise e, w')
           end.

(** [try: m except Exception as e: h e] *)
Definition try_except {A} (m : io A) (h : exn -> io A) : io A :=
  fun w => match m w with
           | (Ok a, w') => (Ok a, w')
           | (Raise e, w') => h e w'
           end.

Definition lift {A} (r : result A) : io A := fun w => (r, w).

(** A file-system operation run on the current state. *)
Definition fs_update (op : Fs.t -> result Fs.t) : io unit :=
  fun w => match op (fs w) with
           | Ok f => (Ok tt, set_fs w f)
           | Raise e => (Raise e, w)
           end.

Definition fs_query {A} (q : Fs.t -> A) : io A := fun w => (Ok (q (fs w)), w).

(** A computation that leaves the set of processed URLs as it found it. *)
Definition keeps_processed {A} (m : io A) : Prop :=
  forall w, processed_urls (snd (m w)) = processed_urls w.

(** A computation that raises no exception outside [S]. *)
Definition raises_only {A} (S : exn -> Prop) (m : io A) : Prop :=
  forall w e, fst (m w) = Raise e -> S e.

(** A computation that changes, of the world, the file system at most, and
    of the file system only files and directories at paths satisfying [P]. *)
Definition writes_within {A} (P : path -> Prop) (m : io A) : Prop :=
  forall w,
    let w' := snd (m w) in
    net w' = net w /\ processed_urls w' = processed_urls w
    /\ results w' = results w
    /\ Fs.unwritable (fs w') = Fs.unwritable (fs w)
    /\ Fs.unreadable (fs w') = Fs.unreadable (fs w)
    /\ forall p, ~ P p ->
         Fs.files (fs w') !! p = Fs.files (fs w) !! p
         /\ (p ∈ Fs.dirs (fs w') <-> p ∈ Fs.dirs (fs w)).

Notation "x <- m ;; k" := (bind m (fun x => k))
  (at level 100, m at next level, right associativity).
Notation "m ;;; k" := (bind m (fun _ => k))
  (at level 100, right associativity).

(** The same for plain results. *)
Definition rbind {A B} (r : result A) (k : A -> result B) : result B :=
  match r with
  | Ok a => k a
  | Raise e => Raise e
  end.

Notation "x <-- r ;; k" := (rbind r (fun x => k))
  (at level 100, r at next level, right associativity).

(** ** [sub2md/Cache.py] *)

Module Cache.
Section Cache.
Context `{Hashlib} `{Bs4}.

(** [self.cache_dir] *)
Variable cache_dir : path.

Definition _get_cache_key (url : string) : string := md5_hex url.

Definition _get_cache_path (cache_key : string) : path :=
  cache_dir // (cache_key +:+ ".cache").

(** [Cache.get_cached_soup]: a failing read is reported on the console and
    answered by [None]. *)
Definition get_cached_soup (url : string) : io (option Dom.node) :=
  let cache_key := _get_cache_key url in
  let cache_path := _get_cache_path cache_key in
  present <- fs_query (fun f => Fs.exists_ f cache_path) ;;
  if present then
    try_except
      (html_content <- (fun w => (Fs.read_text (fs w) cache_path, w)) ;;
       ret (Some (parse Lxml html_content)))
      (fun _ => ret None)
  else ret None.

(** [Cache.save_cached_soup]: a failing write is reported on the console and
    otherwise ignored. *)
Definition save_cached_soup (url : string) (soup : Dom.node) : io unit :=
  let cache_key := _get_cache_key url in
  let html_content := to_str soup in
  let cache_path := _get_cache_path cache_key in
  try_except
    (fs_update (fun f => Fs.write_text f cache_path html_content))
    (fun _ => ret tt).

(** The entries [self.cache_dir.glob("*.cache")] yields that are files:
    those directly in the cache directory whose name ends with [.cache].
    A directory of such a name is yielded too, but cannot be unlinked. *)
Definition is_cache_file (p : path) : bool :=
  bool_decide (take (length cache_dir) p = cache_dir)
  && match drop (length cache_dir) p with
     | [name] => PyStr.endswith name ".cache"
     | _ => false
     end.

Definition glob_cache (f : Fs.t) : list path :=
  filter (fun p => is_cache_file p = true) (elements (dom (Fs.files f))).

(** [Cache.clear_cache]: every entry is unlinked in turn; a failure is
    reported on the console and the loop goes on. *)
Definition clear_cache : io unit :=
  fun w =>
    (Ok tt,
     set_fs w
       (foldr (fun p f => match Fs.unlink f p with
                          | Ok f' => f'
                          | Raise _ => f
                          end)
              (fs w) (glob_cache (fs w)))).

End Cache.
End Cache.

(** ** Path validation

    [_validate_path] is written three times, with the same body, in
    [SubstackScraper], [ContentGenerator] and [Generator]. *)

Section ValidatePath.
Context `{Pathlib}.

Definition _validate_path (output_dir : path) (p : path) : result unit :=
  let p := resolve p in
  if negb (PyStr.startswith (Fs.path_str p) (Fs.path_str output_dir))
  then Raise ValidationError
  else Ok tt.

End ValidatePath.

(** The line feed written [\n] in the Python literals. *)
Definition nl : string := String "010" EmptyString.

(** ** [sub2md/Generator.py] *)

(** The literal text of the HTML listing: the page up to the list of posts
    (with the theme style sheet), one article, and the end of the page (with
    the theme script). *)
Class Templates : Type := {
  html_page_head : string -> string;
  html_article :
    forall (href title : string) (premium : bool) (subtitle date likes : string),
      string;
  html_page_tail : string;
}.

Module Generator.

(** The [Post] dataclass.  Python does not enforce the annotations of its
    fields: each holds whatever value the index entry carries. *)
Record Post : Type := mkPost {
  title : jvalue;
  date : jvalue;
  like_count : jvalue;
  subtitle : jvalue;
  is_paid : jvalue;
  file_link : jvalue;
  html_link : jvalue;
}.

(** Truth value of a Python object. *)
Definition truthy (v : jvalue) : bool :=
  match v with
  | JNull => false
  | JBool b => b
  | JNum n => negb (n =? 0)%Z
  | JStr s => negb (String.eqb s "")
  end.

(** [str(v)], as an f-string renders a value. *)
Definition py_str (v : jvalue) : string :=
  match v with
  | JNull => "None"
  | JBool true => "True"
  | JBool false => "False"
  | JNum n => pretty n
  | JStr s => s
  end.

(** [Post.is_paid_post] *)
Definition is_paid_post (p : Post) : bool :=
  if truthy (is_paid p) then true else false.

(** [Post.paid_indicator_md] *)
Definition paid_indicator_md (p : Post) : string :=
  if is_paid_post p then "🔒 Premium Article" else "".

(** [post[key]] *)
Definition getitem (post : jobject) (key : string) : result jvalue :=
  match post !! key with
  | Some v => Ok v
  | None => Raise KeyError
  end.

(** [post.get(key, default)] *)
Definition get (post : jobject) (key : string) (dflt : jvalue) : jvalue :=
  default dflt (post !! key).

Definition required_keys : list string := ["title"; "date"; "like_count"].

(** [all(key in post for key in ['title', 'date', 'like_count'])] *)
Definition has_required_keys (post : jobject) : bool :=
  forallb (fun key => bool_decide (is_Some (post !! key))) required_keys.

(** The call [Post(title=post['title'], ...)] of the comprehension. *)
Definition make_post (post : jobject) : result Post :=
  t <-- getitem post "title" ;;
  d <-- getitem post "date" ;;
  l <-- getitem post "like_count" ;;
  Ok {| title := t; date := d; like_count := l;
        subtitle := get post "subtitle" (JStr "");
        is_paid := get post "is_paid" (JBool false);
        file_link := get post "file_link" JNull;
        html_link := get post "html_link" JNull |}.

(** The list comprehension of [load_posts]. *)
Fixpoint posts_of_data (data : list jobject) : result (list Post) :=
  match data with
  | [] => Ok []
  | post :: rest =>
      if has_required_keys post then
        p <-- make_post post ;;
        ps <-- posts_of_data rest ;;
        Ok (p :: ps)
      else posts_of_data rest
  end.

(** *** [self.posts.sort(key=lambda x: x.date, reverse=True)]

    Strings compare with strings, numbers and booleans with each other;
    sorting two or more posts whose dates are not all of one such kind is a
    [TypeError].  The sort is stable. *)

Definition is_str (v : jvalue) : bool :=
  match v with JStr _ => true | _ => false end.

Definition is_num (v : jvalue) : bool :=
  match v with JNum _ | JBool _ => true | _ => false end.

Definition as_int (v : jvalue) : Z :=
  match v with
  | JNum n => n
  | JBool true => 1
  | _ => 0
  end.

(** [a < b] on values of one kind. *)
Definition key_ltb (a b : jvalue) : bool :=
  match a, b with
  | JStr x, JStr y => String.ltb x y
  | _, _ => (as_int a <? as_int b)%Z
  end.

(** [x] goes before the first post whose date is not greater than its own. *)
Fixpoint insert_desc (x : Post) (l : list Post) : list Post :=
  match l with
  | [] => [x]
  | y :: l' =>
      if key_ltb (date x) (date y) then y :: insert_desc x l'
      else x :: l
  end.

Definition sort_desc (l : list Post) : list Post := foldr insert_desc [] l.

Definition sort_by_date (l : list Post) : result (list Post) :=
  if (length l <=? 1)
     || forallb (fun p => is_str (date p)) l
     || forallb (fun p => is_num (date p)) l
  then Ok (sort_desc l)
  else Raise TypeError.

(** The posts of a decoded index: the comprehension, then the sort. *)
Definition posts_of_index (data : list jobject) : result (list Post) :=
  posts <-- posts_of_data data ;;
  sort_by_date posts.

(** No post is followed directly by one of a greater date. *)
Definition descending (l : list Post) : Prop :=
  forall i a b,
    l !! i = Some a -> l !! S i = Some b ->
    key_ltb (date a) (date b) = false.

(** [Path(s).name]: the last component, empty and ["."] components being
    dropped by [pathlib]. *)
Definition path_name (s : string) : string :=
  List.last
    (filter (fun c => c <> "" /\ c <> ".") (PyStr.split "/" s))
    "".

Section ContentGenerator.
Context `{Pathlib} `{Json} `{Templates}.

(** [self.author_name] and [self.output_dir] (already resolved). *)
Variable author_name : string.
Variable output_dir : path.

(** The index read by [load_posts]: of the two file names, the first that
    exists; nothing when there is none.  No exception is handled here. *)
Definition load_data : io (list jobject) :=
  let json_paths :=
    [ output_dir // "data" // (author_name +:+ "_essays.json");
      output_dir // "data" // (author_name +:+ ".json") ] in
  found <- fs_query (fun f => List.find (Fs.exists_ f) json_paths) ;;
  match found with
  | None => ret []
  | Some json_path =>
      lift (_validate_path output_dir json_path) ;;;
      txt <- (fun w => (Fs.read_text (fs w) json_path, w)) ;;
      match json_loads txt with
      | JDecodeError => raise ValueError
      | JArray data => ret data
      end
  end.

(** [ContentGenerator.load_posts]; the posts are returned instead of being
    stored in [self.posts], which is empty when no index file exists. *)
Definition load_posts : io (list Post) :=
  data <- load_data ;;
  lift (posts_of_index data).

(** [p.split('/')[-1]] on a link that is true: only a string has [split]. *)
Definition last_segment (v : jvalue) : result string :=
  match v with
  | JStr s => Ok (List.last (PyStr.split "/" s) "")
  | _ => Raise AttributeError
  end.

(** [Path(p).name] on a link that is true: only a string is a path. *)
Definition link_name (v : jvalue) : result string :=
  match v with
  | JStr s => Ok (path_name s)
  | _ => Raise TypeError
  end.

(** The name of the file a link points to, [None] for a link that is not
    true. *)
Definition filename_of (name : jvalue -> result string) (link : jvalue)
  : result (option string) :=
  if truthy link then n <-- name link ;; Ok (Some n) else Ok None.

Definition nonempty (o : option string) : bool :=
  match o with
  | Some s => negb (String.eqb s "")
  | None => false
  end.

(** A post with a link to show: the one test both listings make. *)
Definition has_link (post : Post) : bool :=
  truthy (file_link post) || truthy (html_link post).

(** One section of the Markdown listing. *)
Definition markdown_section (post : Post) : result string :=
  if negb (truthy (file_link post)) && negb (truthy (html_link post))
  then Ok ""
  else
    md_filename <-- filename_of last_segment (file_link post) ;;
    html_filename <-- filename_of last_segment (html_link post) ;;
    Ok ("### " +:+ py_str (title post) +:+ nl +:+ nl
        +:+ (if nonempty md_filename
             then "[Markdown](" +:+ default "" md_filename +:+ ")  " +:+ nl else "")
        +:+ (if nonempty html_filename
             then "[HTML](" +:+ default "" html_filename +:+ ")  " +:+ nl else "")
        +:+ (if truthy (subtitle post)
             then "_" +:+ py_str (subtitle post) +:+ "_" +:+ nl +:+ nl else "")
        +:+ "**Date:** " +:+ py_str (date post) +:+ "  " +:+ nl
        +:+ "**Likes:** " +:+ py_str (like_count post) +:+ "  " +:+ nl
        +:+ (if is_paid_post post
             then "**" +:+ paid_indicator_md post +:+ "**  " +:+ nl else "")
        +:+ nl +:+ "---" +:+ nl +:+ nl).

Fixpoint concat_sections (f : Post -> result string) (posts : list Post)
  : result string :=
  match posts with
  | [] => Ok ""
  | post :: rest =>
      s <-- f post ;;
      r <-- concat_sections f rest ;;
      Ok (s +:+ r)
  end.

(** [ContentGenerator.generate_markdown_content] *)
Definition generate_markdown_content (posts : list Post) : result string :=
  body <-- concat_sections markdown_section posts ;;
  Ok ("# " +:+ author_name +:+ "'s Blog" +:+ nl +:+ nl +:+ "## Posts" +:+ nl +:+ nl +:+ body).

(** One article of the HTML listing. *)
Definition html_section (post : Post) : result string :=
  if negb (truthy (file_link post)) && negb (truthy (html_link post))
  then Ok ""
  else
    md_filename <-- filename_of link_name (file_link post) ;;
    html_filename <-- filename_of link_name (html_link post) ;;
    let md_relative_path :=
      if nonempty md_filename
      then Some ("../substack_md_files/" +:+ author_name +:+ "/"
                 +:+ default "" md_filename)
      else None in
    let html_relative_path :=
      if nonempty html_filename
      then Some ("./" +:+ default "" html_filename)
      else None in
    let title_link_href :=
      match html_relative_path with
      | Some h => h
      | None => default "None" md_relative_path
      end in
    Ok (html_article title_link_href (py_str (title post)) (is_paid_post post)
          (py_str (subtitle post)) (py_str (date post))
          (py_str (like_count post))).

(** [ContentGenerator.generate_html_content] *)
Definition generate_html_content (posts : list Post) : result string :=
  body <-- concat_sections html_section posts ;;
  Ok (html_page_head author_name +:+ body +:+ html_page_tail).

End ContentGenerator.

Section Generator.
Context `{Pathlib} `{Json} `{Templates}.

(** [self.author_name] and [self.output_dir] of the [Generator] object; its
    [ContentGenerator] resolves the directory once more. *)
Variable author_name : string.
Variable output_dir : path.

(** [Generator._generate_files]: both listings are rendered from the posts
    loaded once. *)
Definition _generate_files : io unit :=
  posts <- load_posts author_name (resolve output_dir) ;;
  let html_dir := output_dir // "substack_html_pages" // author_name in
  fs_update (fun f => Fs.mkdir f html_dir) ;;;
  lift (_validate_path output_dir html_dir) ;;;
  html_content <- lift (generate_html_content author_name posts) ;;
  fs_update (fun f => Fs.write_text f (html_dir // "index.html") html_content) ;;;
  let md_dir := output_dir // "substack_md_files" // author_name in
  fs_update (fun f => Fs.mkdir f md_dir) ;;;
  lift (_validate_path output_dir md_dir) ;;;
  md_content <- lift (generate_markdown_content author_name posts) ;;
  fs_update (fun f => Fs.write_text f (md_dir // "index.md") md_content).

End Generator.

(** [Generator.generate]: the output directory is resolved first. *)
Definition generate `{Pathlib} `{Json} `{Templates}
    (author_name : string) (output_dir : path) : io unit :=
  _generate_files author_name (resolve output_dir).

End Generator.

(** ** [sub2md/Scraper.py] *)

Module Scraper.

(** The attributes of a [SubstackScraper] fixed by its constructor. *)
Record t : Type := mk {
  base_substack_url : string;
  output_dir : path;
  debug : bool;
  output_mode : string;
  writer_name : string;
}.

Definition md_save_dir (self : t) : path := output_dir self // "substack_md_files".
Definition html_save_dir (self : t) : path := output_dir self // "substack_html_pages".
Definition cache_dir (self : t) : path := output_dir self // "cache".
Definition data_dir (self : t) : path := output_dir self // "data".

(** The file the logger of the scraper appends its lines to. *)
Definition log_file (self : t) : path := output_dir self // Config.DEFAULT_LOG_FILE.

(** The character class of the file-name rule: the less-than and
    greater-than signs, the colon, the double quote, the slash, the
    backslash, the vertical bar, the question mark and the asterisk. *)
Definition reserved (c : ascii) : bool :=
  existsb (Ascii.eqb c)
    ["<"; ">"; ":"; "034"; "/"; "092"; "|"; "?"; "*"]%char.

Definition replace_reserved (c : ascii) : ascii :=
  if reserved c then "_"%char else c.

(** [re.sub] of that class by an underscore. *)
Definition sanitize (filename : string) : string :=
  PyStr.map_chars replace_reserved filename.

(** The file name of a post: [f"{date}_{title}{extension}"], sanitized. *)
Definition post_filename (post_data : PostData) (extension : string) : string :=
  sanitize (date post_data +:+ "_" +:+ title post_data +:+ extension).

(** [str(b)] for a boolean. *)
Definition bool_str (b : bool) : string := if b then "True" else "False".

(** The text written to the Markdown file of a post. *)
Definition markdown_text (post_data : PostData) : string :=
  "# " +:+ title post_data +:+ nl +:+ nl
  +:+ (if negb (String.eqb (subtitle post_data) "")
       then "## " +:+ subtitle post_data +:+ nl +:+ nl else "")
  +:+ "Date: " +:+ date post_data +:+ nl
  +:+ "Likes: " +:+ pretty (like_count post_data) +:+ nl
  +:+ "Paid: " +:+ bool_str (is_paid post_data) +:+ nl +:+ nl
  +:+ content post_data.

(** The text written to the HTML file of a post. *)
Definition html_text (post_data : PostData) : string :=
  "<!DOCTYPE html>" +:+ nl +:+ "<html>" +:+ nl +:+ "<head>" +:+ nl
  +:+ "<title>" +:+ title post_data +:+ "</title>" +:+ nl
  +:+ "</head>" +:+ nl +:+ "<body>" +:+ nl
  +:+ "<h1>" +:+ title post_data +:+ "</h1>" +:+ nl
  +:+ (if negb (String.eqb (subtitle post_data) "")
       then "<h2>" +:+ subtitle post_data +:+ "</h2>" +:+ nl else "")
  +:+ "<p>Date: " +:+ date post_data +:+ "</p>" +:+ nl
  +:+ "<p>Likes: " +:+ pretty (like_count post_data) +:+ "</p>" +:+ nl
  +:+ "<p>Paid: " +:+ bool_str (is_paid post_data) +:+ "</p>" +:+ nl
  +:+ content post_data
  +:+ nl +:+ "</body>" +:+ nl +:+ "</html>".

Definition set_file_link (post_data : PostData) (l : string) : PostData :=
  {| title := title post_data; subtitle := subtitle post_data;
     date := date post_data; like_count := like_count post_data;
     is_paid := is_paid post_data; content := content post_data;
     file_link := Some l; html_link := html_link post_data |}.

Definition set_html_link (post_data : PostData) (l : string) : PostData :=
  {| title := title post_data; subtitle := subtitle post_data;
     date := date post_data; like_count := like_count post_data;
     is_paid := is_paid post_data; content := content post_data;
     file_link := file_link post_data; html_link := Some l |}.

(** *** Index entries *)

(** The dictionary a record is, as [json.dump] sees it. *)
Definition to_dict (post_data : PostData) : jobject :=
  let d : jobject :=
    {[ "title" := JStr (title post_data);
       "subtitle" := JStr (subtitle post_data);
       "date" := JStr (date post_data);
       "like_count" := JNum (like_count post_data);
       "is_paid" := JBool (is_paid post_data);
       "content" := JStr (content post_data) ]} in
  let d := match file_link post_data with
           | Some l => <["file_link" := JStr l]> d
           | None => d
           end in
  match html_link post_data with
  | Some l => <["html_link" := JStr l]> d
  | None => d
  end.

(** The post the generator builds from the entry of a record: a link the
    record lacks is [None]. *)
Definition index_post (post_data : PostData) : Generator.Post :=
  Generator.mkPost
    (JStr (title post_data)) (JStr (date post_data))
    (JNum (like_count post_data)) (JStr (subtitle post_data))
    (JBool (is_paid post_data))
    (from_option JStr JNull (file_link post_data))
    (from_option JStr JNull (html_link post_data)).

(** Python equality identifies a boolean with the integer 0 or 1; two
    dictionaries are equal when they hold the same keys with equal values. *)
Definition canon (v : jvalue) : jvalue :=
  match v with
  | JBool b => JNum (if b then 1 else 0)
  | _ => v
  end.

Definition canon_dict (d : jobject) : jobject := canon <$> d.

Definition dict_eqb (a b : jobject) : bool :=
  bool_decide (canon_dict a = canon_dict b).

(** [data in existing_data] *)
Definition py_in (data : jobject) (existing_data : list jobject) : bool :=
  existsb (dict_eqb data) existing_data.

(** The merge of [save_essays_data_to_json]:
    [existing_data + [data for data in essays_data if data not in existing_data]] *)
Definition merge_index (existing_data essays_data : list jobject) : list jobject :=
  existing_data
  ++ filter (fun data => py_in data existing_data = false) essays_data.

Section Scraper.
Context `{Hashlib} `{Bs4} `{Pathlib} `{Urllib} `{Json} `{Templates}.

(** *** Extraction *)

Definition _find_content_div (soup : Dom.node) : result Dom.node :=
  match Dom.first_some
          (fun class_name => Dom.find (Dom.is_tag_class "div" class_name) soup)
          Config.CONTENT_DIV_CLASSES with
  | Some content_div => Ok content_div
  | None => Raise ContentError
  end.

Definition _extract_title (soup : Dom.node) : string :=
  match Dom.find (Dom.is_tag Config.TITLE_TAG) soup with
  | Some title_elem => PyStr.strip (Dom.text title_elem)
  | None => "Untitled"
  end.

Definition _extract_subtitle (content_div : Dom.node) : string :=
  match Dom.find (Dom.is_tag Config.SUBTITLE_TAG) content_div with
  | Some subtitle_elem => PyStr.strip (Dom.text subtitle_elem)
  | None => ""
  end.

Definition _extract_date (soup : Dom.node) : string :=
  match Dom.find (Dom.is_tag Config.DATE_TAG) soup with
  | Some date_elem => PyStr.strip (Dom.text date_elem)
  | None => ""
  end.

Definition _extract_like_count (soup : Dom.node) : Z :=
  match Dom.find (Dom.is_tag_class "span" Config.LIKE_COUNT_CLASS) soup with
  | Some like_elem =>
      match PyStr.int (PyStr.strip (Dom.text like_elem)) with
      | Some n => n
      | None => 0
      end
  | None => 0
  end.

Definition _check_if_paid (soup : Dom.node) : bool :=
  bool_decide
    (is_Some (Dom.find (Dom.is_tag_class "div" Config.PAID_CONTENT_CLASS) soup)).

Definition is_removed (n : Dom.node) : bool :=
  existsb (fun name => Dom.is_tag name n) Config.REMOVE_ELEMENTS.

Definition is_empty_paragraph (n : Dom.node) : bool :=
  Dom.is_tag "p" n && String.eqb (PyStr.strip (Dom.text n)) "".

(** [_clean_content] changes the container in place; here it returns the
    cleaned container. *)
Definition _clean_content (content_div : Dom.node) : Dom.node :=
  Dom.prune is_empty_paragraph (Dom.prune is_removed content_div).

(** [extract_post_data]: whatever fails, a [ContentError] is raised. *)
Definition extract_post_data (soup : Dom.node) : result PostData :=
  match _find_content_div soup with
  | Raise _ => Raise ContentError
  | Ok content_div =>
      let title := _extract_title soup in
      let subtitle := _extract_subtitle content_div in
      let date := _extract_date soup in
      let like_count := _extract_like_count soup in
      let is_paid := _check_if_paid soup in
      let content_div := _clean_content content_div in
      Ok {| title := title; subtitle := subtitle; date := date;
            like_count := like_count; is_paid := is_paid;
            content := to_str content_div;
            file_link := None; html_link := None |}
  end.

(** *** Persistence *)

Variable self : t.

(** [save_markdown]: the record comes back with its [file_link]; every
    exception of the body leaves as a [FileSystemError]. *)
Definition save_markdown (post_data : PostData) : io PostData :=
  try_except
    (let author_dir := md_save_dir self // writer_name self in
     fs_update (fun f => Fs.mkdir f author_dir) ;;;
     lift (_validate_path (output_dir self) author_dir) ;;;
     let filename := post_filename post_data Config.MARKDOWN_EXTENSION in
     let filepath := author_dir // filename in
     fs_update (fun f => Fs.write_text f filepath (markdown_text post_data)) ;;;
     ret (set_file_link post_data
            (Fs.rel_str (["substack_md_files"] // writer_name self // filename))))
    (fun _ => raise FileSystemError).

(** [save_html], likewise with [html_link]. *)
Definition save_html (post_data : PostData) : io PostData :=
  try_except
    (let author_dir := html_save_dir self // writer_name self in
     fs_update (fun f => Fs.mkdir f author_dir) ;;;
     lift (_validate_path (output_dir self) author_dir) ;;;
     let filename := post_filename post_data Config.HTML_EXTENSION in
     let filepath := author_dir // filename in
     fs_update (fun f => Fs.write_text f filepath (html_text post_data)) ;;;
     ret (set_html_link post_data
            (Fs.rel_str (["substack_html_pages"] // writer_name self // filename))))
    (fun _ => raise FileSystemError).

(** [save_essays_data_to_json]: an index that does not decode counts as
    empty; every other exception leaves as a [FileSystemError]. *)
Definition save_essays_data_to_json (essays_data : list PostData) : io unit :=
  try_except
    (let json_path := data_dir self // (writer_name self +:+ ".json") in
     lift (_validate_path (output_dir self) json_path) ;;;
     present <- fs_query (fun f => Fs.exists_ f json_path) ;;
     existing_data <-
       (if present then
          try_except
            (txt <- (fun w => (Fs.read_text (fs w) json_path, w)) ;;
             match json_loads txt with
             | JDecodeError => ret []
             | JArray l => ret l
             end)
            (fun _ => raise FileSystemError)
        else ret []) ;;
     let essays_data := merge_index existing_data (to_dict <$> essays_data) in
     fs_update (fun f => Fs.write_text f json_path (json_dumps essays_data)))
    (fun _ => raise FileSystemError).

(** The links a record carries once it is saved in the configured mode. *)
Definition linked (post_data : PostData) : PostData :=
  let post_data :=
    if bool_decide (output_mode self ∈ ["both"; "md"])
    then set_file_link post_data
           (Fs.rel_str (["substack_md_files"] // writer_name self
                        // post_filename post_data Config.MARKDOWN_EXTENSION))
    else post_data in
  if bool_decide (output_mode self ∈ ["both"; "html"])
  then set_html_link post_data
         (Fs.rel_str (["substack_html_pages"] // writer_name self
                      // post_filename post_data Config.HTML_EXTENSION))
  else post_data.

(** A file can be saved in an author directory: creating the directory and
    writing the file are not refused, no file stands where the directory
    goes and no directory where the file goes, and the directory passes the
    validation. *)
Definition can_save_in (author_dir : path) (filename : string) (f : Fs.t) : Prop :=
  (author_dir ∉ Fs.unwritable f)
  /\ Fs.files f !! author_dir = None
  /\ _validate_path (output_dir self) author_dir = Ok tt
  /\ (author_dir // filename ∉ Fs.unwritable f)
  /\ (author_dir // filename ∉ Fs.dirs f).

(** The files of a record can be saved: the Markdown file when the output
    mode asks for it, and the HTML file likewise. *)
Definition can_save (post_data : PostData) (f : Fs.t) : Prop :=
  (output_mode self ∈ ["both"; "md"] ->
   can_save_in (md_save_dir self // writer_name self)
     (post_filename post_data Config.MARKDOWN_EXTENSION) f)
  /\ (output_mode self ∈ ["both"; "html"] ->
      can_save_in (html_save_dir self // writer_name self)
        (post_filename post_data Config.HTML_EXTENSION) f).

(** A path lies inside the output directory when the components of the
    directory are the first components of the path. *)
Definition inside_output_dir (p : path) : Prop := output_dir self `prefix_of` p.

(** *** The pipeline *)

(** [self.session.get(url)] and [response.text()]: the request is logged;
    a transport failure is an exception of the HTTP client. *)
Definition http_get (url : string) : io (nat * string) :=
  fun w =>
    let w' := log_request w url in
    match net w url with
    | Response status body => (Ok (status, body), w')
    | TransportFailure => (Raise ClientError, w')
    end.

(** The document of a URL: from the cache when it holds one, from the
    network otherwise; a fetched document is stored in the cache. *)
Definition obtain_soup (url : string) : io Dom.node :=
  cached_soup <- Cache.get_cached_soup (cache_dir self) url ;;
  match cached_soup with
  | Some cached => ret cached
  | None =>
      response <- http_get url ;;
      if negb (fst response =? 200)
      then raise NetworkError
      else
        let soup := parse HtmlParser (snd response) in
        Cache.save_cached_soup (cache_dir self) url soup ;;;
        ret soup
  end.

(** The files written for a record in the configured output mode. *)
Definition save_files (post_data : PostData) : io PostData :=
  post_data <- (if bool_decide (output_mode self ∈ ["both"; "md"])
                then save_markdown post_data else ret post_data) ;;
  if bool_decide (output_mode self ∈ ["both"; "html"])
  then save_html post_data else ret post_data.

(** [_process_single_url]: [None] for a URL already processed and after a
    [NetworkError]; any other exception is logged and raised again. *)
Definition _process_single_url (url : string) : io (option PostData) :=
  fun w =>
    if bool_decide (url ∈ processed_urls w) then (Ok None, w)
    else
      try_except
        (soup <- obtain_soup url ;;
         post_data <- lift (extract_post_data soup) ;;
         post_data <- save_files post_data ;;
         ret (Some post_data))
        (fun e => match e with
                  | NetworkError => ret None
                  | _ => raise e
                  end)
        w.

(** [process_url_batch]: the URLs in turn; an exception is logged and the
    loop goes on.  The records accumulate in [self.results], which is
    returned. *)
Fixpoint process_url_batch (urls : list string) : io (list PostData) :=
  match urls with
  | [] => fun w => (Ok (results w), w)
  | url :: rest =>
      try_except
        (result <- _process_single_url url ;;
         match result with
         | Some r => fun w => (Ok tt, push_result w r)
         | None => ret tt
         end)
        (fun _ => ret tt) ;;;
      process_url_batch rest
  end.

(** *** URL discovery *)

Definition _fetch_urls_from_sitemap : io (list string) :=
  try_except
    (let sitemap_url := base_substack_url self +:+ Config.SITEMAP_PATH in
     response <- http_get sitemap_url ;;
     if fst response =? 200 then
       let soup := parse Xml (snd response) in
       let urls := Dom.text <$> Dom.find_all (Dom.is_tag "loc") soup in
       ret (filter (fun url => PyStr.issubstr Config.POST_PATH_PREFIX url = true) urls)
     else ret [])
    (fun _ => ret []).

Definition _fetch_urls_from_feed : io (list string) :=
  try_except
    (let feed_url := base_substack_url self +:+ Config.FEED_PATH in
     response <- http_get feed_url ;;
     if fst response =? 200 then
       let soup := parse Xml (snd response) in
       ret (Dom.text <$> Dom.find_all (Dom.is_tag "link") soup)
     else ret [])
    (fun _ => ret []).

Definition _filter_urls (urls keywords : list string) : list string :=
  filter
    (fun url => forallb (fun keyword => negb (PyStr.issubstr keyword url)) keywords = true)
    urls.

(** [get_all_post_urls], called with the session open, as [scrape_posts]
    calls it: the branch that opens one is not taken. *)
Definition get_all_post_urls : io (list string) :=
  urls <- _fetch_urls_from_sitemap ;;
  urls <- (match urls with
           | [] => _fetch_urls_from_feed
           | _ => ret urls
           end) ;;
  ret (_filter_urls urls Config.EXCLUDED_KEYWORDS).

(** *** The run *)

(** The order in which [asyncio.as_completed] delivers the tasks created for
    a list of URLs.  Each task is taken to run from start to end without
    being interleaved with another. *)
Variable schedule : list string -> list string.

(** The loop [for coro in asyncio.as_completed(tasks)]: an exception of a
    task leaves the loop. *)
Fixpoint gather (tasks : list string) (essays_data : list PostData)
  : io (list PostData) :=
  match tasks with
  | [] => ret essays_data
  | url :: rest =>
      result <- _process_single_url url ;;
      gather rest
        (match result with
         | Some r => essays_data ++ [r]
         | None => essays_data
         end)
  end.

(** [post_urls[:n]] *)
Definition slice_to (n : Z) (l : list string) : list string :=
  if (0 <=? n)%Z then take (Z.to_nat n) l
  else take (Z.to_nat (Z.of_nat (length l) + n)) l.

(** [scrape_posts]; setting up the signal handlers, opening and closing
    the session have no effect on the world. *)
Definition scrape_posts (num_posts_to_scrape : Z) : io unit :=
  post_urls <- get_all_post_urls ;;
  let urls_to_process :=
    if (num_posts_to_scrape =? 0)%Z then post_urls
    else slice_to num_posts_to_scrape post_urls in
  match urls_to_process with
  | [] => ret tt
  | _ =>
      essays_data <- gather (schedule urls_to_process) [] ;;
      save_essays_data_to_json essays_data ;;;
      Generator.generate (writer_name self) (output_dir self)
  end.

(** *** The constructor

    The logger it installs is not modelled. *)
Definition __init__ (base_substack_url output_dir : string) (debug : bool)
    (output_mode : string) : io t :=
  if String.eqb base_substack_url "" then raise ValidationError
  else if String.eqb output_dir "" then raise ValidationError
  else if negb (bool_decide (output_mode ∈ Config.VALID_MODES))
  then raise ValidationError
  else
    let out :=
      resolve (if PyStr.startswith output_dir "/"
               then Fs.components output_dir
               else cwd ++ Fs.components output_dir) in
    fs_update (fun f => Fs.mkdir f (out // "cache")) ;;;
    try_except
      (fs_update (fun f => Fs.mkdir f out) ;;;
       fs_update (fun f => Fs.mkdir f (out // "substack_md_files")) ;;;
       fs_update (fun f => Fs.mkdir f (out // "substack_html_pages")) ;;;
       fs_update (fun f => Fs.mkdir f (out // "cache")) ;;;
       fs_update (fun f => Fs.mkdir f (out // "data")))
      (fun _ => raise FileSystemError) ;;;
    writer <- lift (Url._extract_main_part base_substack_url) ;;
    (fun w => (Ok tt, {| fs := fs w; net := net w; requests := requests w;
                         processed_urls := ∅; results := [] |})) ;;;
    ret {| base_substack_url := PyStr.rstrip_with (Ascii.eqb "/") base_substack_url;
           output_dir := out; debug := debug; output_mode := output_mode;
           writer_name := writer |}.

End Scraper.
End Scraper.

(** ** Fixtures

    Concrete documents, services and worlds on which the definitions are
    run. *)

Module Fixture.

Definition dq : string := String "034" EmptyString.

(** The serialization used by the fixtures: the root carries no tags of its
    own. *)
Fixpoint render (n : Dom.node) : string :=
  match n with
  | Dom.Text s => s
  | Dom.Elem name classes cs =>
      let inner := String.concat "" (map render cs) in
      if String.eqb name "[document]" then inner
      else "<" +:+ name
           +:+ (match classes with
                | [] => ""
                | _ => " class=" +:+ dq +:+ String.concat " " classes +:+ dq
                end)
           +:+ ">" +:+ inner +:+ "</" +:+ name +:+ ">"
  end.

Definition document (cs : list Dom.node) : Dom.node := Dom.Elem "[document]" [] cs.

Definition page (body : list Dom.node) : Dom.node :=
  document [Dom.Elem "html" [] [Dom.Elem "body" [] body]].

(** A post with a title, a date, a like count and a content container that
    holds a script and an empty paragraph. *)
Definition good_doc : Dom.node :=
  page [ Dom.Elem "h1" [] [Dom.Text "Hello"];
         Dom.Elem "time" [] [Dom.Text "2024-01-01"];
         Dom.Elem "span" ["like-count"] [Dom.Text " 12 "];
         Dom.Elem "div" ["body"; "markup"]
           [ Dom.Elem "h2" [] [Dom.Text "World"];
             Dom.Elem "script" [] [Dom.Text "track()"];
             Dom.Elem "p" [] [Dom.Text "  "];
             Dom.Elem "p" [] [Dom.Text "Text: 1/2"] ] ].

(** The record extracted from [good_doc]. *)
Definition good_record : PostData :=
  {| title := "Hello"; subtitle := "World"; date := "2024-01-01";
     like_count := 12; is_paid := false;
     content := "<div class=" +:+ dq +:+ "body markup" +:+ dq
                +:+ "><h2>World</h2><p>Text: 1/2</p></div>";
     file_link := None; html_link := None |}.

(** A page without a content container. *)
Definition bad_doc : Dom.node :=
  page [ Dom.Elem "h1" [] [Dom.Text "Moved"];
         Dom.Elem "div" ["notice"] [Dom.Text "Nothing here"] ].

(** A post whose like counter shows a negative number. *)
Definition negative_likes_doc : Dom.node :=
  page [ Dom.Elem "span" ["like-count"] [Dom.Text "-5"];
         Dom.Elem "div" ["body"] [Dom.Elem "p" [] [Dom.Text "Text"]] ].

Definition base_url : string := "https://blog.example.com".
Definition good_url : string := "https://blog.example.com/p/good".
Definition bad_url : string := "https://blog.example.com/p/bad".
Definition down_url : string := "https://blog.example.com/p/down".

Definition sitemap_of (urls : list string) : Dom.node :=
  document [Dom.Elem "urlset" []
              (map (fun u => Dom.Elem "url" [] [Dom.Elem "loc" [] [Dom.Text u]]) urls)].

(** A fragment, as [html.parser] hands it over: no [html] element around
    it. *)
Definition fragment_doc : Dom.node :=
  document [Dom.Elem "p" [] [Dom.Text "hi"]].

Definition documents : list Dom.node :=
  [ good_doc; bad_doc; negative_likes_doc; fragment_doc;
    sitemap_of [bad_url; good_url]; sitemap_of [good_url; good_url];
    sitemap_of [down_url; good_url] ].

(** The parser of the fixtures knows the serializations of [documents];
    any other text is a document made of that text. *)
Definition parse_text (s : string) : Dom.node :=
  match List.find (fun d => String.eqb (render d) s) documents with
  | Some d => d
  | None => document [Dom.Text s]
  end.

Definition hex_digit (n : nat) : ascii :=
  nth n ["0"; "1"; "2"; "3"; "4"; "5"; "6"; "7";
         "8"; "9"; "a"; "b"; "c"; "d"; "e"; "f"]%char "0"%char.

(** A stand-in for the digest: two hexadecimal digits for each character. *)
Fixpoint hex (s : string) : string :=
  match s with
  | EmptyString => EmptyString
  | String c s' =>
      String (hex_digit (Nat.div (PyStr.code c) 16))
        (String (hex_digit (Nat.modulo (PyStr.code c) 16)) (hex s'))
  end.

Definition hashlib : Hashlib := {| md5_hex := hex |}.
Definition bs4 : Bs4 := {| parse := fun _ => parse_text; to_str := render |}.
(** [lxml] builds a whole page around a fragment. *)
Definition wrap_page (d : Dom.node) : Dom.node :=
  match d with
  | Dom.Elem _ _ [Dom.Elem "html" _ _] => d
  | Dom.Elem _ _ cs => page cs
  | Dom.Text _ => d
  end.

Definition bs4_lxml_wraps : Bs4 :=
  {| parse := fun m s =>
       match m with
       | Lxml => wrap_page (parse_text s)
       | _ => parse_text s
       end;
     to_str := render |}.

(** A listing template that keeps the link target and the title. *)
Definition templates : Templates :=
  {| html_page_head := fun author => "<h1>" +:+ author +:+ "</h1>";
     html_article := fun href title _ _ _ _ =>
       "<a href=" +:+ dq +:+ href +:+ dq +:+ ">" +:+ title +:+ "</a>";
     html_page_tail := "" |}.

Definition pathlib : Pathlib := {| resolve := fun p => p; cwd := ["home"] |}.

(** A [resolve] that removes [..] with the component before it, as
    [Path.resolve] does where no component is a link. *)
Definition normalize (p : path) : path :=
  rev (fold_left
         (fun acc c =>
            if String.eqb c ".." then tail acc else c :: acc)
         p []).

Definition pathlib_dots : Pathlib := {| resolve := normalize; cwd := ["home"] |}.
Definition urllib : Urllib := {| netloc_checks := fun _ => true |}.

(** A file system in which [link] is a symbolic link to [target]. *)
Definition pathlib_with_link (link target : path) : Pathlib :=
  {| resolve := fun p =>
       if bool_decide (take (length link) p = link)
       then target ++ drop (length link) p
       else p;
     cwd := ["home"] |}.

(** The server: a sitemap at the root and three posts. *)
Definition server (sitemap : list string) (url : string) : http_result :=
  if String.eqb url (base_url +:+ "/sitemap.xml")
  then Response 200 (render (sitemap_of sitemap))
  else if String.eqb url good_url then Response 200 (render good_doc)
  else if String.eqb url bad_url then Response 200 (render bad_doc)
  else if String.eqb url down_url then Response 500 "Internal Server Error"
  else Response 404 "Not Found".

Definition world_of (f : Fs.t) (sitemap : list string) : world :=
  {| fs := f; net := server sitemap; requests := [];
     processed_urls := ∅; results := [] |}.

(** Index entries: two records as the scraper writes them, and an entry of
    an older index that holds no date. *)
Definition record_a : PostData :=
  {| title := "Hello"; subtitle := "World"; date := "2024-01-01";
     like_count := 12; is_paid := false; content := "<div>Text</div>";
     file_link := Some "substack_md_files/example/2024-01-01_Hello.md";
     html_link := Some "substack_html_pages/example/2024-01-01_Hello.html" |}.

Definition record_b : PostData :=
  {| title := "Again"; subtitle := ""; date := "2024-02-01";
     like_count := 3; is_paid := true; content := "<div>More</div>";
     file_link := Some "substack_md_files/example/2024-02-01_Again.md";
     html_link := None |}.

Definition entry_a : jobject := Scraper.to_dict record_a.
Definition entry_b : jobject := Scraper.to_dict record_b.

Definition legacy_entry : jobject :=
  {[ "title" := JStr "Old"; "like_count" := JNum 3;
     "file_link" := JStr "substack_md_files/example/Old.md" ]}.

(** The cache file of a URL below [/out/cache]. *)
Definition cache_file (url : string) : path :=
  @Cache._get_cache_path ["out"; "cache"] (@Cache._get_cache_key hashlib url).

(** A file system that refuses to write the cache file of [good_url]. *)
Definition read_only_cache : Fs.t :=
  {| Fs.files := ∅; Fs.dirs := ∅;
     Fs.unwritable := {[ cache_file good_url ]}; Fs.unreadable := ∅ |}.

Definition scraper (mode : string) : Scraper.t :=
  {| Scraper.base_substack_url := base_url;
     Scraper.output_dir := ["out"];
     Scraper.debug := false;
     Scraper.output_mode := mode;
     Scraper.writer_name := "example" |}.

(** A stand-in for the JSON codec: the encoder writes the entries in the
    order of their keys; the decoder knows the texts of [indexes] and
    rejects any other text. *)
Definition json_value (v : jvalue) : string :=
  match v with
  | JNull => "null"
  | JBool true => "true"
  | JBool false => "false"
  | JNum n => pretty n
  | JStr s => dq +:+ s +:+ dq
  end.

Definition json_object (o : jobject) : string :=
  "{" +:+ String.concat ", "
            ((fun kv => dq +:+ fst kv +:+ dq +:+ ": " +:+ json_value (snd kv))
               <$> map_to_list o)
  +:+ "}".

Definition json_text (l : list jobject) : string :=
  "[" +:+ String.concat ", " (json_object <$> l) +:+ "]".

Definition indexes : list (list jobject) :=
  [ []; [entry_a]; [entry_a; entry_b] ].

Definition json : Json :=
  {| json_loads := fun s =>
       match List.find (fun l => String.eqb (json_text l) s) indexes with
       | Some l => JArray l
       | None => JDecodeError
       end;
     json_dumps := json_text |}.

(** The index file of the fixture scraper, and a file system that holds
    the given text there. *)
Definition index_file : path := ["out"; "data"; "example.json"].

Definition with_index (txt : string) : Fs.t :=
  Fs.with_file Fs.empty index_file txt.


(** A cache directory with the cache file of [good_url], next to a saved
    post. *)
Definition cached_and_saved : Fs.t :=
  Fs.with_file
    (Fs.with_file Fs.empty (cache_file good_url) (render good_doc))
    ["out"; "substack_md_files"; "example"; "2024-01-01_Hello.md"] "# Hello".

(** Two records of one date whose titles differ in a reserved character. *)
Definition slash_record : PostData :=
  {| title := "Q/A"; subtitle := ""; date := "2024-03-01";
     like_count := 1; is_paid := false; content := "<div>first</div>";
     file_link := None; html_link := None |}.

Definition colon_record : PostData :=
  {| title := "Q:A"; subtitle := ""; date := "2024-03-01";
     like_count := 2; is_paid := false; content := "<div>second</div>";
     file_link := None; html_link := None |}.

End Fixture.

(** * Properties *)

(** ** Python strings and URLs *)

Example strip_ex : PyStr.strip "  12 " = "12".
Proof. reflexivity. Qed.

Example split_ex : PyStr.split "." "a.b..c" = ["a"; "b"; ""; "c"].
Proof. reflexivity. Qed.

Example int_ex :
  PyStr.int "1_000" = Some 1000%Z /\ PyStr.int "-5" = Some (-5)%Z /\
  PyStr.int "" = None /\ PyStr.int "1__0" = None /\ PyStr.int "12a" = None /\
  PyStr.int "+7" = Some 7%Z /\ PyStr.int "- 7" = None /\ PyStr.int "007" = Some 7%Z.
Proof. repeat split; reflexivity. Qed.

Example netloc_ex `{Urllib} :
  Url.netloc "https://user@blog.example.com:80/p/x?y#z" = Ok "user@blog.example.com:80".
Proof. reflexivity. Qed.

Example init_ex :
  fst (@Scraper.__init__ Fixture.pathlib Fixture.urllib
         "https://blog.example.com/" "out" false "both"
         (Fixture.world_of Fs.empty []))
  = Ok {| Scraper.base_substack_url := "https://blog.example.com";
          Scraper.output_dir := ["home"; "out"];
          Scraper.debug := false;
          Scraper.output_mode := "both";
          Scraper.writer_name := "example" |}.
Proof. vm_compute. reflexivity. Qed.

Example extract_ex :
  @Scraper.extract_post_data Fixture.bs4 Fixture.good_doc = Ok Fixture.good_record.
Proof. vm_compute. reflexivity. Qed.

(** C2, at the URLs named by the specification and by the repository's
    own test: the
    writer name is the segment of the dot-split network location at index
    [len(parts) // 2]; for [https://blog.example.com] this is ["example"],
    but for [https://example.substack.com] it is ["substack"] and for
    [https://example.com] it is ["com"], where
    [tests/test_scraper.py] expects ["example"] in all three cases. *)
Theorem extract_main_part_substack `{Urllib} :
  Url._extract_main_part "https://blog.example.com" = Ok "example"
  /\ Url._extract_main_part "https://example.substack.com" = Ok "substack"
  /\ Url._extract_main_part "https://example.com" = Ok "com".
Proof. repeat split; reflexivity. Qed.

(** The segment returned is always the one at the middle index. *)
Lemma extract_main_part_middle `{Urllib} (url p : string) :
  Url._extract_main_part url = Ok p ->
  exists loc, Url.netloc url = Ok loc
    /\ PyStr.split "." loc !! (Nat.div (length (PyStr.split "." loc)) 2) = Some p.
Proof.
  unfold Url._extract_main_part.
  destruct (Url.netloc url) as [loc|e]; [|discriminate].
  destruct (PyStr.split "." loc) as [|h t] eqn:Hs; [discriminate|].
  destruct ((h :: t) !! _) eqn:Hl; [|discriminate].
  intros [= <-]. exists loc. split; [reflexivity|]. rewrite Hs. exact Hl.
Qed.

(** ** File names *)




Lemma sanitize_length (s : string) :
  String.length (Scraper.sanitize s) = String.length s.
Proof. induction s as [|c s IH]; simpl; [reflexivity|]. f_equal. exact IH. Qed.


Example post_filename_ex :
  Scraper.post_filename
    {| title := "Why? A/B: <tests>"; subtitle := ""; date := "2024-01-01";
       like_count := 0; is_paid := false; content := "";
       file_link := None; html_link := None |} ".md"
  = "2024-01-01_Why_ A_B_ _tests_.md".
Proof. reflexivity. Qed.

(** ** Like counts *)

Lemma digit_value_nonneg (c : ascii) : (0 <= PyStr.digit_value c)%Z.
Proof. unfold PyStr.digit_value. lia. Qed.

Lemma int_digits_nonneg (s : string) :
  forall acc us n, (0 <= acc)%Z -> PyStr.int_digits acc us s = Some n -> (0 <= n)%Z.
Proof.
  induction s as [|c s IH]; intros acc us n Hacc; simpl.
  - destruct us; [discriminate|]. intros [= <-]. exact Hacc.
  - destruct (PyStr.isdigit c).
    + apply IH. pose proof (digit_value_nonneg c). lia.
    + destruct (Ascii.eqb c "_"); [|discriminate].
      destruct us; [discriminate|]. apply IH. exact Hacc.
Qed.

Lemma int_unsigned_nonneg (s : string) (n : Z) :
  PyStr.int_unsigned s = Some n -> (0 <= n)%Z.
Proof.
  destruct s as [|c s]; simpl; [discriminate|].
  destruct (PyStr.isdigit c); [|discriminate].
  apply int_digits_nonneg, digit_value_nonneg.
Qed.

Lemma rstrip_with_idem (p : ascii -> bool) (s : string) :
  PyStr.rstrip_with p (PyStr.rstrip_with p s) = PyStr.rstrip_with p s.
Proof.
  induction s as [|c s IH]; [reflexivity|]. simpl.
  destruct (PyStr.rstrip_with p s) as [|d r] eqn:Hr.
  - destruct (p c) eqn:Hc; simpl; [reflexivity|]. rewrite Hc. reflexivity.
  - simpl in IH |- *. rewrite IH. reflexivity.
Qed.

Lemma lstrip_with_head (p : ascii -> bool) (s : string) :
  match PyStr.lstrip_with p s with
  | EmptyString => True
  | String c _ => p c = false
  end.
Proof.
  induction s as [|c s IH]; simpl; [exact I|].
  destruct (p c) eqn:Hc; [exact IH | exact Hc].
Qed.

Lemma rstrip_with_head (p : ascii -> bool) (c : ascii) (s : string) :
  p c = false -> exists r, PyStr.rstrip_with p (String c s) = String c r.
Proof.
  intros Hc. simpl. destruct (PyStr.rstrip_with p s) as [|d r].
  - rewrite Hc. eauto.
  - eauto.
Qed.

(** Stripping a stripped string changes nothing. *)
Lemma strip_idem (s : string) : PyStr.strip (PyStr.strip s) = PyStr.strip s.
Proof.
  unfold PyStr.strip.
  pose proof (lstrip_with_head PyStr.isspace s) as Hh.
  destruct (PyStr.lstrip_with PyStr.isspace s) as [|c t] eqn:Hl; [reflexivity|].
  destruct (rstrip_with_head PyStr.isspace c t Hh) as [r Hr].
  rewrite Hr. cbn [PyStr.lstrip_with]. rewrite Hh.
  rewrite <- Hr. apply rstrip_with_idem.
Qed.

(** What [int] accepts with a negative value is a minus sign followed by
    an unsigned numeral. *)
Lemma int_negative (s : string) (n : Z) :
  PyStr.int s = Some n -> (n < 0)%Z ->
  exists digits m,
    PyStr.strip s = String "-" digits /\ PyStr.int_unsigned digits = Some m
    /\ n = (- m)%Z /\ (0 < m)%Z.
Proof.
  unfold PyStr.int. destruct (PyStr.strip s) as [|c t]; [discriminate|].
  destruct (Ascii.eqb c "+") eqn:Hplus.
  { intros Hn Hneg. apply int_unsigned_nonneg in Hn. lia. }
  destruct (Ascii.eqb c "-") eqn:Hminus.
  - apply Ascii.eqb_eq in Hminus. subst c.
    destruct (PyStr.int_unsigned t) as [m|] eqn:Hm; [|discriminate].
    intros [= <-] Hneg. exists t, m.
    split; [reflexivity|]. split; [exact Hm|]. split; [reflexivity | lia].
  - intros Hn Hneg. apply int_unsigned_nonneg in Hn. lia.
Qed.

Section LikeCount.
Context `{Bs4}.

(** C8 (amended): for every document from which a record is extracted, the
    like count of the record is the integer parse of the stripped text of the
    first [span] of class [like-count] when there is one and the parse
    succeeds, and 0 otherwise; it is at least 0 unless that text is a minus
    sign followed by a numeral of positive value, in which case the like
    count is that negative number. *)
Theorem like_count_spec (soup : Dom.node) (r : PostData) :
  Scraper.extract_post_data soup = Ok r ->
  let like_elem := Dom.find (Dom.is_tag_class "span" Config.LIKE_COUNT_CLASS) soup in
  like_count r
    = default 0%Z (like_elem ≫= fun e => PyStr.int (PyStr.strip (Dom.text e)))
  /\ ((0 <= like_count r)%Z
      \/ exists e digits m,
           like_elem = Some e
           /\ PyStr.strip (Dom.text e) = String "-" digits
           /\ PyStr.int_unsigned digits = Some m
           /\ like_count r = (- m)%Z /\ (0 < m)%Z).
Proof.
  unfold Scraper.extract_post_data.
  destruct (Scraper._find_content_div soup) as [content_div|e]; [|discriminate].
  intros [= <-]. cbn [like_count]. unfold Scraper._extract_like_count.
  destruct (Dom.find _ soup) as [e|]; cbn [mbind option_bind default].
  - destruct (PyStr.int (PyStr.strip (Dom.text e))) as [n|] eqn:Hn;
      cbn [default]; (split; [reflexivity|]); [|left; lia].
    destruct (Z.lt_ge_cases n 0) as [Hneg|Hpos]; [right | left; exact Hpos].
    destruct (int_negative _ _ Hn Hneg) as (digits & m & Hs & Hm & -> & Hlt).
    rewrite strip_idem in Hs. exists e, digits, m. auto.
  - split; [reflexivity | left; lia].
Qed.

End LikeCount.

(** Counterexample to C8 as the specification states it: a like counter
    showing [-5] gives a record whose like count is negative. *)
Lemma like_count_negative :
  exists r, @Scraper.extract_post_data Fixture.bs4 Fixture.negative_likes_doc = Ok r
            /\ (like_count r < 0)%Z.
Proof. eexists. split; [vm_compute; reflexivity | reflexivity]. Qed.

Lemma like_count_spec_witness :
  exists r, @Scraper.extract_post_data Fixture.bs4 Fixture.good_doc = Ok r
            /\ like_count r = 12%Z.
Proof.
  eexists. split; [vm_compute; reflexivity|].
  refine (proj1 (@like_count_spec Fixture.bs4 Fixture.good_doc _ _)).
  vm_compute. reflexivity.
Defined.

(** ** The index merge *)

Lemma dict_eqb_refl (d : jobject) : Scraper.dict_eqb d d = true.
Proof. unfold Scraper.dict_eqb. apply bool_decide_eq_true_2. reflexivity. Qed.

Lemma py_in_spec (d : jobject) (l : list jobject) :
  Scraper.py_in d l = true <-> Scraper.canon_dict d ∈ Scraper.canon_dict <$> l.
Proof.
  unfold Scraper.py_in. rewrite existsb_exists, list_elem_of_fmap.
  split.
  - intros (x & Hx & Heq). exists x. split.
    + unfold Scraper.dict_eqb in Heq. apply bool_decide_eq_true_1 in Heq. exact Heq.
    + apply list_elem_of_In. exact Hx.
  - intros (x & Heq & Hx). exists x. split.
    + apply list_elem_of_In. exact Hx.
    + unfold Scraper.dict_eqb. apply bool_decide_eq_true_2. exact Heq.
Qed.

Lemma py_in_app (d : jobject) (l1 l2 : list jobject) :
  Scraper.py_in d (l1 ++ l2) = Scraper.py_in d l1 || Scraper.py_in d l2.
Proof. unfold Scraper.py_in. apply existsb_app. Qed.

Lemma py_in_self (d : jobject) (l : list jobject) :
  d ∈ l -> Scraper.py_in d l = true.
Proof.
  intros Hd. apply py_in_spec, list_elem_of_fmap. exists d. auto.
Qed.

(** Every record handed to the merge is in the merged index. *)
Lemma merge_index_covers (existing_data essays_data : list jobject) (d : jobject) :
  d ∈ essays_data ->
  Scraper.py_in d (Scraper.merge_index existing_data essays_data) = true.
Proof.
  intros Hd. unfold Scraper.merge_index. rewrite py_in_app.
  destruct (Scraper.py_in d existing_data) eqn:He; [reflexivity|].
  apply py_in_self, list_elem_of_filter. auto.
Qed.

Lemma filter_none {A} (P : A -> Prop) `{forall x, Decision (P x)} (l : list A) :
  Forall (fun x => ~ P x) l -> filter P l = [].
Proof.
  induction 1 as [|x l Hx _ IH]; [reflexivity|].
  rewrite filter_cons_False by exact Hx. exact IH.
Qed.

(** Merging the same records again adds nothing. *)
Lemma merge_index_idempotent (existing_data essays_data : list jobject) :
  Scraper.merge_index (Scraper.merge_index existing_data essays_data) essays_data
  = Scraper.merge_index existing_data essays_data.
Proof.
  set (once := Scraper.merge_index existing_data essays_data).
  unfold Scraper.merge_index at 1.
  replace (filter _ essays_data) with (@nil jobject); [apply app_nil_r|].
  symmetry. apply filter_none, Forall_forall. intros d Hd.
  unfold once. rewrite merge_index_covers by exact Hd. discriminate.
Qed.

Lemma merge_index_NoDup (existing_data essays_data : list jobject) :
  NoDup (Scraper.canon_dict <$> existing_data) ->
  NoDup (Scraper.canon_dict <$> essays_data) ->
  NoDup (Scraper.canon_dict <$> Scraper.merge_index existing_data essays_data).
Proof.
  intros He Hn. unfold Scraper.merge_index. rewrite fmap_app.
  apply NoDup_app. split; [exact He|]. split.
  - intros k Hk Hk'. apply list_elem_of_fmap in Hk' as (d & -> & Hd).
    apply list_elem_of_filter in Hd as [Hd _].
    apply py_in_spec in Hk. congruence.
  - eapply sublist_NoDup; [exact Hn|].
    apply fmap_sublist, sublist_filter.
Qed.

(** C4 (amended): merging a record list into an index and merging the same
    list again gives the index of the first merge; it starts with the
    existing entries in their original order, every entry after them is a
    record of the list that was not in the existing index by full-value
    equality, and every record of the list is present; when neither the
    existing index nor the list holds two equal entries, no entry of the
    result appears twice. *)
Theorem merge_index_twice (existing_data essays_data : list jobject) :
  let once := Scraper.merge_index existing_data essays_data in
  let twice := Scraper.merge_index once essays_data in
  twice = once
  /\ take (length existing_data) twice = existing_data
  /\ Forall (fun d => d ∈ essays_data /\ Scraper.py_in d existing_data = false)
        (drop (length existing_data) twice)
  /\ Forall (fun d => Scraper.py_in d twice = true) essays_data
  /\ (NoDup (Scraper.canon_dict <$> existing_data) ->
      NoDup (Scraper.canon_dict <$> essays_data) ->
      NoDup (Scraper.canon_dict <$> twice)).
Proof.
  intros once twice.
  assert (Htw : twice = once) by apply merge_index_idempotent.
  rewrite Htw. unfold once.
  split; [reflexivity|].
  split; [unfold Scraper.merge_index; apply take_app_length|].
  split.
  { unfold Scraper.merge_index. rewrite drop_app_length.
    apply Forall_forall. intros d Hd.
    apply list_elem_of_filter in Hd as [Hin Hd]. auto. }
  split.
  { apply Forall_forall. intros d Hd. apply merge_index_covers, Hd. }
  apply merge_index_NoDup.
Qed.

(** Counterexample to C4 as the specification states it: a record that
    comes twice in the list merged into an empty index is in the result
    twice, also after the second merge. *)
Lemma merge_index_keeps_list_duplicates :
  ~ NoDup (Scraper.merge_index
             (Scraper.merge_index [] [Fixture.entry_a; Fixture.entry_a])
             [Fixture.entry_a; Fixture.entry_a]).
Proof.
  rewrite merge_index_idempotent.
  change (Scraper.merge_index [] [Fixture.entry_a; Fixture.entry_a])
    with [Fixture.entry_a; Fixture.entry_a].
  intros Hnd. apply NoDup_cons in Hnd as [Hnotin _].
  apply Hnotin. left.
Qed.

Lemma merge_index_twice_witness :
  NoDup (Scraper.canon_dict <$>
           Scraper.merge_index
             (Scraper.merge_index [Fixture.entry_a] [Fixture.entry_a; Fixture.entry_b])
             [Fixture.entry_a; Fixture.entry_b]).
Proof.
  refine (proj2 (proj2 (proj2 (proj2
    (merge_index_twice [Fixture.entry_a] [Fixture.entry_a; Fixture.entry_b])))) _ _).
  - apply NoDup_singleton.
  - apply (bool_decide_unpack _). vm_compute. reflexivity.
Defined.

(** ** The listing generator *)

Lemma make_post_ok (post : jobject) :
  Generator.has_required_keys post = true ->
  exists p, Generator.make_post post = Ok p.
Proof.
  unfold Generator.has_required_keys, Generator.required_keys. simpl.
  rewrite !andb_true_iff, !bool_decide_eq_true.
  intros ([t Ht] & [d Hd] & [l Hl] & _).
  unfold Generator.make_post, Generator.getitem.
  rewrite Ht, Hd, Hl. simpl. eauto.
Qed.

Lemma posts_of_data_filter (data : list jobject) :
  Generator.posts_of_data
    (filter (fun post => Generator.has_required_keys post = true) data)
  = Generator.posts_of_data data.
Proof.
  induction data as [|post data IH]; [reflexivity|].
  destruct (Generator.has_required_keys post) eqn:Hk.
  - rewrite filter_cons_True by exact Hk. simpl. rewrite Hk, IH. reflexivity.
  - rewrite filter_cons_False by (rewrite Hk; discriminate).
    simpl. rewrite Hk. exact IH.
Qed.

Lemma posts_of_data_ok (data : list jobject) :
  exists posts,
    Generator.posts_of_data data = Ok posts
    /\ Forall2 (fun post p => Generator.make_post post = Ok p)
         (filter (fun post => Generator.has_required_keys post = true) data) posts.
Proof.
  induction data as [|post data (posts & Hposts & Hall)].
  - exists []. split; [reflexivity | constructor].
  - destruct (Generator.has_required_keys post) eqn:Hk.
    + destruct (make_post_ok post Hk) as [p Hp].
      exists (p :: posts). simpl. rewrite Hk, Hp, Hposts. simpl.
      split; [reflexivity|].
      rewrite filter_cons_True by exact Hk. constructor; assumption.
    + exists posts. simpl. rewrite Hk.
      split; [exact Hposts|].
      rewrite filter_cons_False by (rewrite Hk; discriminate). exact Hall.
Qed.

Lemma insert_desc_perm (x : Generator.Post) (l : list Generator.Post) :
  Generator.insert_desc x l ≡ₚ x :: l.
Proof.
  induction l as [|y l IH]; simpl; [reflexivity|].
  destruct (Generator.key_ltb _ _); [|reflexivity].
  rewrite IH. apply Permutation_swap.
Qed.

Lemma sort_desc_perm (l : list Generator.Post) : Generator.sort_desc l ≡ₚ l.
Proof.
  induction l as [|x l IH]; simpl; [reflexivity|].
  rewrite insert_desc_perm, IH. reflexivity.
Qed.

Lemma sort_by_date_perm (l sorted : list Generator.Post) :
  Generator.sort_by_date l = Ok sorted -> sorted ≡ₚ l.
Proof.
  unfold Generator.sort_by_date. destruct (_ || _); [|discriminate].
  intros [= <-]. apply sort_desc_perm.
Qed.

(** [load_posts] hands the decoded index to the comprehension and the
    sort, and does nothing else. *)
Lemma load_posts_of_index `{Pathlib} `{Json} (author : string) (out : path)
    (w w' : world) (data : list jobject) :
  Generator.load_data author out w = (Ok data, w') ->
  Generator.load_posts author out w = (Generator.posts_of_index data, w').
Proof.
  intros E. unfold Generator.load_posts, bind, lift. rewrite E. reflexivity.
Qed.

Section Listings.
Context `{Templates}.

(** C10: the comprehension of [load_posts] never fails on an index and
    builds its posts from exactly the entries that hold the three keys
    [title], [date] and [like_count], in order; the posts handed to the
    listings, and with them the HTML and the Markdown listing of any author,
    are those obtained from the index without the other entries, and each
    post listed comes from an entry holding the three keys. *)
Theorem load_posts_skips_incomplete (data : list jobject) :
  let complete :=
    filter (fun post => Generator.has_required_keys post = true) data in
  (exists posts,
     Generator.posts_of_data data = Ok posts
     /\ Forall2 (fun post p => Generator.make_post post = Ok p) complete posts)
  /\ Generator.posts_of_index data = Generator.posts_of_index complete
  /\ (forall author,
        rbind (Generator.posts_of_index data)
          (Generator.generate_html_content author)
        = rbind (Generator.posts_of_index complete)
            (Generator.generate_html_content author)
        /\ rbind (Generator.posts_of_index data)
             (Generator.generate_markdown_content author)
           = rbind (Generator.posts_of_index complete)
               (Generator.generate_markdown_content author))
  /\ (forall listed,
        Generator.posts_of_index data = Ok listed ->
        Forall (fun p => exists post,
                  post ∈ complete /\ Generator.make_post post = Ok p) listed).
Proof.
  intros complete.
  destruct (posts_of_data_ok data) as (posts & Hposts & Hall).
  assert (Hsame : Generator.posts_of_index data = Generator.posts_of_index complete).
  { unfold Generator.posts_of_index, complete.
    rewrite posts_of_data_filter. reflexivity. }
  split; [eauto|]. split; [exact Hsame|]. split.
  - intros author. rewrite Hsame. split; reflexivity.
  - intros listed. unfold Generator.posts_of_index. rewrite Hposts. simpl.
    intros Hs%sort_by_date_perm. apply Forall_forall. intros p Hp.
    rewrite Hs in Hp. apply list_elem_of_lookup in Hp as [i Hi].
    destruct (Forall2_lookup_r _ _ _ _ _ Hall Hi) as (post & Hpost & Hmk).
    exists post. split; [|exact Hmk].
    apply list_elem_of_lookup. eauto.
Qed.

End Listings.

Lemma load_posts_skips_incomplete_witness :
  exists listed,
    Generator.posts_of_index
      [Fixture.entry_a; Fixture.legacy_entry; Fixture.entry_b] = Ok listed
    /\ length listed = 2
    /\ Forall (fun p => exists post,
                 post ∈ filter (fun post => Generator.has_required_keys post = true)
                          [Fixture.entry_a; Fixture.legacy_entry; Fixture.entry_b]
                 /\ Generator.make_post post = Ok p) listed.
Proof.
  eexists. split; [vm_compute; reflexivity|]. split; [reflexivity|].
  apply (proj2 (proj2 (proj2 (@load_posts_skips_incomplete Fixture.templates
    [Fixture.entry_a; Fixture.legacy_entry; Fixture.entry_b])))).
  vm_compute. reflexivity.
Defined.

(** ** Paths *)

Lemma string_app_length (a b : string) :
  String.length (a +:+ b) = String.length a + String.length b.
Proof. induction a as [|c a IH]; simpl; [reflexivity|]. rewrite IH. reflexivity. Qed.

Lemma string_app_inv_tail (a b t : string) : a +:+ t = b +:+ t -> a = b.
Proof.
  revert b. induction a as [|c a IH]; intros [|d b] E; simpl in E.
  - reflexivity.
  - apply (f_equal String.length) in E.
    rewrite !string_app_length in E. simpl in E. lia.
  - apply (f_equal String.length) in E.
    rewrite !string_app_length in E. simpl in E. lia.
  - change (String c (a +:+ t) = String d (b +:+ t)) in E.
    injection E as -> E. f_equal. apply IH, E.
Qed.

Lemma string_app_nonempty_r (a b : string) : b <> "" -> a +:+ b <> "".
Proof.
  intros Hb E. apply (f_equal String.length) in E.
  rewrite string_app_length in E. destruct b; [congruence | simpl in E; lia].
Qed.

Lemma joinpath_nonempty (a : path) (b : string) : b <> "" -> a // b = a ++ [b].
Proof. destruct b; [congruence | reflexivity]. Qed.

Lemma post_filename_nonempty (r : PostData) (ext : string) :
  Scraper.post_filename r ext <> "".
Proof.
  intros E. apply (f_equal String.length) in E.
  unfold Scraper.post_filename in E.
  rewrite sanitize_length, !string_app_length in E. simpl in E. lia.
Qed.

Lemma cache_file_nonempty (key : string) : key +:+ ".cache" <> "".
Proof. apply string_app_nonempty_r. discriminate. Qed.

(** ** File-system steps *)

Lemma write_text_ok (f : Fs.t) (p : path) (c : string) :
  p ∉ Fs.unwritable f -> p ∉ Fs.dirs f ->
  Fs.write_text f p c = Ok (Fs.with_file f p c).
Proof.
  intros Hu Hd. unfold Fs.write_text.
  rewrite (bool_decide_eq_false_2 _ Hu), (bool_decide_eq_false_2 _ Hd).
  reflexivity.
Qed.

Lemma mkdir_ok (f : Fs.t) (p : path) :
  p ∉ Fs.unwritable f -> Fs.files f !! p = None ->
  Fs.mkdir f p = Ok (Fs.with_dir f p).
Proof.
  intros Hu Hf. unfold Fs.mkdir.
  rewrite (bool_decide_eq_false_2 _ Hu), Hf.
  rewrite bool_decide_eq_false_2 by (intros [? ?]; discriminate).
  reflexivity.
Qed.

Lemma exists_false (f : Fs.t) (p : path) :
  Fs.files f !! p = None -> p ∉ Fs.dirs f -> Fs.exists_ f p = false.
Proof.
  intros Hf Hd. unfold Fs.exists_. rewrite Hf.
  rewrite (bool_decide_eq_false_2 _ Hd).
  rewrite bool_decide_eq_false_2 by (intros [? ?]; discriminate).
  reflexivity.
Qed.

Lemma exists_false_inv (f : Fs.t) (p : path) :
  Fs.exists_ f p = false -> Fs.files f !! p = None /\ p ∉ Fs.dirs f.
Proof.
  unfold Fs.exists_. rewrite orb_false_iff, !bool_decide_eq_false.
  intros [Hf Hd]. split; [|exact Hd].
  destruct (Fs.files f !! p) eqn:E; [|reflexivity]. exfalso. apply Hf. eauto.
Qed.

(** ** Steps of the pipeline *)

Section Pipeline.
Context `{Hashlib} `{Bs4} `{Pathlib}.
Variable self : Scraper.t.

Lemma get_cached_soup_miss (cache_dir : path) (url : string) (w : world) :
  Fs.exists_ (fs w) (Cache._get_cache_path cache_dir (Cache._get_cache_key url)) = false ->
  Cache.get_cached_soup cache_dir url w = (Ok None, w).
Proof.
  intros E. unfold Cache.get_cached_soup, bind, fs_query. rewrite E. reflexivity.
Qed.

(** A response other than 200 ends the fetch with a [NetworkError]; only
    the request log has changed. *)
Lemma obtain_soup_network_error (url : string) (w : world) (st : nat) (body : string) :
  Fs.exists_ (fs w)
    (Cache._get_cache_path (Scraper.cache_dir self) (Cache._get_cache_key url)) = false ->
  net w url = Response st body -> st <> 200 ->
  Scraper.obtain_soup self url w = (Raise NetworkError, log_request w url).
Proof.
  intros Hmiss Hnet Hst. unfold Scraper.obtain_soup, bind.
  rewrite get_cached_soup_miss by exact Hmiss.
  unfold Scraper.http_get. rewrite Hnet. cbn [fst snd].
  apply Nat.eqb_neq in Hst. rewrite Hst. reflexivity.
Qed.

(** The failing URL gives no record and raises nothing. *)
Lemma process_network_error (url : string) (w : world) (st : nat) (body : string) :
  url ∉ processed_urls w ->
  Fs.exists_ (fs w)
    (Cache._get_cache_path (Scraper.cache_dir self) (Cache._get_cache_key url)) = false ->
  net w url = Response st body -> st <> 200 ->
  Scraper._process_single_url self url w = (Ok None, log_request w url).
Proof.
  intros Hp Hmiss Hnet Hst. unfold Scraper._process_single_url.
  rewrite (bool_decide_eq_false_2 _ Hp). unfold try_except, bind.
  rewrite (obtain_soup_network_error url w st body Hmiss Hnet Hst).
  reflexivity.
Qed.

(** A response 200 on a cache miss: the parsed body is stored in the cache
    and returned. *)
Lemma obtain_soup_fetch (url : string) (w : world) (body : string) :
  let cache_path :=
    Cache._get_cache_path (Scraper.cache_dir self) (Cache._get_cache_key url) in
  let soup := parse HtmlParser body in
  Fs.exists_ (fs w) cache_path = false ->
  cache_path ∉ Fs.unwritable (fs w) ->
  net w url = Response 200 body ->
  Scraper.obtain_soup self url w
  = (Ok soup, set_fs (log_request w url) (Fs.with_file (fs w) cache_path (to_str soup))).
Proof.
  intros cache_path soup Hmiss Hw Hnet. unfold Scraper.obtain_soup, bind.
  rewrite get_cached_soup_miss by exact Hmiss.
  unfold Scraper.http_get. rewrite Hnet. cbn [fst snd Nat.eqb negb].
  unfold Cache.save_cached_soup, try_except, fs_update. cbn [fs log_request].
  fold cache_path. fold soup.
  rewrite write_text_ok; [reflexivity | exact Hw |].
  apply exists_false_inv in Hmiss. apply Hmiss.
Qed.

Lemma save_markdown_ok (r : PostData) (w : world) :
  let author_dir := Scraper.md_save_dir self // Scraper.writer_name self in
  let filename := Scraper.post_filename r Config.MARKDOWN_EXTENSION in
  let filepath := author_dir // filename in
  author_dir ∉ Fs.unwritable (fs w) ->
  Fs.files (fs w) !! author_dir = None ->
  _validate_path (Scraper.output_dir self) author_dir = Ok tt ->
  filepath ∉ Fs.unwritable (fs w) ->
  filepath ∉ Fs.dirs (fs w) ->
  filepath <> author_dir ->
  Scraper.save_markdown self r w
  = (Ok (Scraper.set_file_link r
           (Fs.rel_str (["substack_md_files"] // Scraper.writer_name self // filename))),
     set_fs w (Fs.with_file (Fs.with_dir (fs w) author_dir) filepath
                 (Scraper.markdown_text r))).
Proof.
  intros author_dir filename filepath Hdu Hdf Hval Hfu Hfd Hne.
  unfold Scraper.save_markdown, try_except, bind, fs_update, lift.
  fold author_dir. rewrite (mkdir_ok _ _ Hdu Hdf). rewrite Hval.
  cbn [fs set_fs]. fold filename. fold filepath.
  rewrite write_text_ok; [reflexivity | exact Hfu |].
  cbn [Fs.dirs Fs.with_dir]. rewrite elem_of_union, elem_of_singleton.
  intros [E | E]; [exact (Hne E) | exact (Hfd E)].
Qed.

Lemma save_html_ok (r : PostData) (w : world) :
  let author_dir := Scraper.html_save_dir self // Scraper.writer_name self in
  let filename := Scraper.post_filename r Config.HTML_EXTENSION in
  let filepath := author_dir // filename in
  author_dir ∉ Fs.unwritable (fs w) ->
  Fs.files (fs w) !! author_dir = None ->
  _validate_path (Scraper.output_dir self) author_dir = Ok tt ->
  filepath ∉ Fs.unwritable (fs w) ->
  filepath ∉ Fs.dirs (fs w) ->
  filepath <> author_dir ->
  Scraper.save_html self r w
  = (Ok (Scraper.set_html_link r
           (Fs.rel_str (["substack_html_pages"] // Scraper.writer_name self // filename))),
     set_fs w (Fs.with_file (Fs.with_dir (fs w) author_dir) filepath
                 (Scraper.html_text r))).
Proof.
  intros author_dir filename filepath Hdu Hdf Hval Hfu Hfd Hne.
  unfold Scraper.save_html, try_except, bind, fs_update, lift.
  fold author_dir. rewrite (mkdir_ok _ _ Hdu Hdf). rewrite Hval.
  cbn [fs set_fs]. fold filename. fold filepath.
  rewrite write_text_ok; [reflexivity | exact Hfu |].
  cbn [Fs.dirs Fs.with_dir]. rewrite elem_of_union, elem_of_singleton.
  intros [E | E]; [exact (Hne E) | exact (Hfd E)].
Qed.

End Pipeline.

(** ** Processing a URL that answers 200 with a post, on a fresh output tree *)

Lemma joinpath_app (a : path) (b : string) : a // b = a ++ ([] // b).
Proof. destruct b; simpl; [rewrite app_nil_r|]; reflexivity. Qed.

Lemma under_neq (out ta tb : path) (a b : string) :
  a <> b -> out ++ a :: ta <> out ++ b :: tb.
Proof. intros Hab E. apply app_inv_head in E. congruence. Qed.

Lemma snoc_neq (out t : path) (a x : string) :
  out ++ a :: t ++ [x] <> out ++ a :: t.
Proof.
  intros E. apply (f_equal length) in E.
  rewrite !length_app in E. simpl in E. rewrite length_app in E. simpl in E. lia.
Qed.

Lemma mode_cases (m : string) :
  m ∈ Config.VALID_MODES -> m = "both" \/ m = "md" \/ m = "html".
Proof.
  unfold Config.VALID_MODES. rewrite !elem_of_cons, elem_of_nil. tauto.
Qed.

Section Good.
Context `{Hashlib} `{Bs4} `{Pathlib}.
Variable self : Scraper.t.

#[local] Abbreviation out := (Scraper.output_dir self).
#[local] Abbreviation wn := (Scraper.writer_name self).
#[local] Abbreviation cache_path url :=
  (Cache._get_cache_path (Scraper.cache_dir self) (Cache._get_cache_key url)).

Lemma cache_path_shape (url : string) :
  cache_path url = out ++ "cache" :: [md5_hex url +:+ ".cache"].
Proof.
  unfold Cache._get_cache_path, Cache._get_cache_key, Scraper.cache_dir.
  rewrite joinpath_nonempty by apply cache_file_nonempty.
  rewrite joinpath_nonempty by discriminate.
  rewrite <- app_assoc. reflexivity.
Qed.

Lemma md_dir_shape :
  Scraper.md_save_dir self // wn = out ++ "substack_md_files" :: ([] // wn).
Proof.
  unfold Scraper.md_save_dir. rewrite joinpath_app.
  rewrite joinpath_nonempty by discriminate.
  rewrite <- app_assoc. reflexivity.
Qed.

Lemma html_dir_shape :
  Scraper.html_save_dir self // wn = out ++ "substack_html_pages" :: ([] // wn).
Proof.
  unfold Scraper.html_save_dir. rewrite joinpath_app.
  rewrite joinpath_nonempty by discriminate.
  rewrite <- app_assoc. reflexivity.
Qed.

Lemma md_file_shape (r : PostData) :
  Scraper.md_save_dir self // wn // Scraper.post_filename r Config.MARKDOWN_EXTENSION
  = out ++ "substack_md_files"
      :: ([] // wn) ++ [Scraper.post_filename r Config.MARKDOWN_EXTENSION].
Proof.
  rewrite joinpath_nonempty by apply post_filename_nonempty.
  rewrite md_dir_shape, <- app_assoc. reflexivity.
Qed.

Lemma html_file_shape (r : PostData) :
  Scraper.html_save_dir self // wn // Scraper.post_filename r Config.HTML_EXTENSION
  = out ++ "substack_html_pages"
      :: ([] // wn) ++ [Scraper.post_filename r Config.HTML_EXTENSION].
Proof.
  rewrite joinpath_nonempty by apply post_filename_nonempty.
  rewrite html_dir_shape, <- app_assoc. reflexivity.
Qed.

Ltac shapes :=
  rewrite ?cache_path_shape, ?md_file_shape, ?html_file_shape,
    ?md_dir_shape, ?html_dir_shape.

Ltac heads := apply under_neq; discriminate.

Lemma cache_path_neq (a b : string) :
  md5_hex a <> md5_hex b -> cache_path a <> cache_path b.
Proof.
  intros Hk E. rewrite !cache_path_shape in E. apply app_inv_head in E.
  injection E as E. apply string_app_inv_tail in E. exact (Hk E).
Qed.

Lemma exists_after_save (f : Fs.t) (d p : path) (c : string) (q : path) :
  Fs.exists_ f q = false -> q <> d -> q <> p ->
  Fs.exists_ (Fs.with_file (Fs.with_dir f d) p c) q = false.
Proof.
  intros [Hf Hd]%exists_false_inv Hqd Hqp. apply exists_false;
    cbn [Fs.with_file Fs.with_dir Fs.files Fs.dirs].
  - rewrite lookup_insert_ne by congruence. exact Hf.
  - rewrite elem_of_union, elem_of_singleton. intros [E | E]; auto.
Qed.

(** A fetch that answers 200 on a cache miss returns the parsed body; the
    cache file is written, unless writing it is refused. *)
Lemma obtain_soup_fetch_any (url : string) (w : world) (body : string) :
  Fs.exists_ (fs w) (cache_path url) = false ->
  net w url = Response 200 body ->
  exists f1,
    Scraper.obtain_soup self url w
    = (Ok (parse HtmlParser body), set_fs (log_request w url) f1)
    /\ Fs.unwritable f1 = Fs.unwritable (fs w)
    /\ Fs.dirs f1 = Fs.dirs (fs w)
    /\ forall p, p <> cache_path url -> Fs.files f1 !! p = Fs.files (fs w) !! p.
Proof.
  intros Hmiss Hnet. unfold Scraper.obtain_soup, bind.
  rewrite get_cached_soup_miss by exact Hmiss.
  unfold Scraper.http_get. rewrite Hnet. cbn [fst snd Nat.eqb negb].
  unfold Cache.save_cached_soup, try_except, fs_update, Fs.write_text.
  cbn [fs log_request].
  destruct (_ || _).
  - exists (fs w). split; [destruct w; reflexivity|]. auto.
  - eexists. split; [reflexivity|]. cbn [Fs.with_file Fs.unwritable Fs.dirs Fs.files].
    split_and!; try reflexivity. intros p Hp. apply lookup_insert_ne. congruence.
Qed.

(** After the fetch of [url], the files of a record that can be saved are
    written and the record gets its links; a cache entry of another key
    that was absent is still absent. *)
Lemma save_files_after_fetch (url : string) (r0 : PostData) (w : world)
    (f1 : Fs.t) :
  Scraper.can_save self r0 (fs w) ->
  Scraper.output_mode self ∈ Config.VALID_MODES ->
  Fs.unwritable f1 = Fs.unwritable (fs w) ->
  Fs.dirs f1 = Fs.dirs (fs w) ->
  (forall p, p <> cache_path url -> Fs.files f1 !! p = Fs.files (fs w) !! p) ->
  exists f',
    Scraper.save_files self r0 (set_fs (log_request w url) f1)
    = (Ok (Scraper.linked self r0), set_fs (log_request w url) f')
    /\ forall other,
         md5_hex other <> md5_hex url ->
         Fs.exists_ (fs w) (cache_path other) = false ->
         Fs.exists_ f' (cache_path other) = false.
Proof.
  intros [Hsmd Hshtml] Hmode Hun Hdirs Hfiles.
  assert (Hkeep : forall other,
    md5_hex other <> md5_hex url ->
    Fs.exists_ (fs w) (cache_path other) = false ->
    Fs.exists_ f1 (cache_path other) = false).
  { intros other Hk [Hof Hod]%exists_false_inv. apply exists_false.
    - rewrite Hfiles by (apply cache_path_neq, Hk). exact Hof.
    - rewrite Hdirs. exact Hod. }
  set (w1 := set_fs (log_request w url) f1).
  assert (Hmd : Scraper.output_mode self ∈ ["both"; "md"] ->
    Scraper.save_markdown self r0 w1
    = (Ok (Scraper.set_file_link r0
             (Fs.rel_str (["substack_md_files"] // wn
                          // Scraper.post_filename r0 Config.MARKDOWN_EXTENSION))),
       set_fs w1 (Fs.with_file (Fs.with_dir f1 (Scraper.md_save_dir self // wn))
                    (Scraper.md_save_dir self // wn
                     // Scraper.post_filename r0 Config.MARKDOWN_EXTENSION)
                    (Scraper.markdown_text r0)))).
  { intros Hm. destruct (Hsmd Hm) as (Hdu & Hdf & Hval & Hfu & Hfd).
    apply (save_markdown_ok self r0 w1); subst w1; cbn [fs set_fs].
    - rewrite Hun. exact Hdu.
    - rewrite Hfiles by (shapes; heads). exact Hdf.
    - exact Hval.
    - rewrite Hun. exact Hfu.
    - rewrite Hdirs. exact Hfd.
    - shapes. apply snoc_neq. }
  assert (Hhtml : Scraper.output_mode self ∈ ["both"; "html"] ->
    forall (r : PostData) (f : Fs.t),
      Scraper.post_filename r Config.HTML_EXTENSION
      = Scraper.post_filename r0 Config.HTML_EXTENSION ->
      Fs.unwritable f = Fs.unwritable (fs w) ->
      Fs.files f !! (Scraper.html_save_dir self // wn) = None ->
      (Scraper.html_save_dir self // wn
       // Scraper.post_filename r0 Config.HTML_EXTENSION ∉ Fs.dirs f) ->
      Scraper.save_html self r (set_fs w1 f)
      = (Ok (Scraper.set_html_link r
               (Fs.rel_str (["substack_html_pages"] // wn
                            // Scraper.post_filename r0 Config.HTML_EXTENSION))),
         set_fs w1 (Fs.with_file (Fs.with_dir f (Scraper.html_save_dir self // wn))
                      (Scraper.html_save_dir self // wn
                       // Scraper.post_filename r0 Config.HTML_EXTENSION)
                      (Scraper.html_text r)))).
  { intros Hm r f Hname Hunf Hff Hfd'.
    destruct (Hshtml Hm) as (Hdu & _ & Hval & Hfu & _).
    rewrite <- Hname.
    apply (save_html_ok self r (set_fs w1 f)); cbn [fs set_fs]; rewrite ?Hname.
    - rewrite Hunf. exact Hdu.
    - exact Hff.
    - exact Hval.
    - rewrite Hunf. exact Hfu.
    - exact Hfd'.
    - shapes. apply snoc_neq. }
  unfold Scraper.save_files, Scraper.linked, bind. fold w1.
  destruct (mode_cases _ Hmode) as [Em | [Em | Em]].
  - (* both *)
    assert (Hm1 : Scraper.output_mode self ∈ ["both"; "md"])
      by (rewrite Em; apply list_elem_of_here).
    assert (Hm2 : Scraper.output_mode self ∈ ["both"; "html"])
      by (rewrite Em; apply list_elem_of_here).
    rewrite (bool_decide_eq_true_2 _ Hm1), (bool_decide_eq_true_2 _ Hm2).
    rewrite (Hmd Hm1).
    destruct (Hshtml Hm2) as (_ & Hdf & _ & _ & Hfd).
    change (set_fs w1 ?f) with (set_fs w1 f).
    rewrite (Hhtml Hm2 _ (Fs.with_file (Fs.with_dir f1 _) _ _)).
    + eexists. split; [reflexivity|].
      intros other Hk Hmiss.
      apply exists_after_save; [|shapes; heads..].
      apply exists_after_save; [|shapes; heads..].
      apply Hkeep; assumption.
    + reflexivity.
    + exact Hun.
    + cbn [Fs.with_file Fs.with_dir Fs.files].
      rewrite lookup_insert_ne by (shapes; heads).
      rewrite Hfiles by (shapes; heads). exact Hdf.
    + cbn [Fs.with_file Fs.with_dir Fs.dirs].
      rewrite elem_of_union, elem_of_singleton, Hdirs.
      intros [E | E]; revert E; [shapes; heads | exact Hfd].
  - (* md *)
    assert (Hm1 : Scraper.output_mode self ∈ ["both"; "md"])
      by (rewrite Em; apply list_elem_of_further, list_elem_of_here).
    assert (Hm2 : Scraper.output_mode self ∉ ["both"; "html"])
      by (rewrite Em; rewrite !elem_of_cons, elem_of_nil;
          intros [E | [E | []]]; discriminate).
    rewrite (bool_decide_eq_true_2 _ Hm1), (bool_decide_eq_false_2 _ Hm2).
    rewrite (Hmd Hm1). unfold ret.
    eexists. split; [reflexivity|].
    intros other Hk Hmiss.
    apply exists_after_save; [|shapes; heads..].
    apply Hkeep; assumption.
  - (* html *)
    assert (Hm1 : Scraper.output_mode self ∉ ["both"; "md"])
      by (rewrite Em; rewrite !elem_of_cons, elem_of_nil;
          intros [E | [E | []]]; discriminate).
    assert (Hm2 : Scraper.output_mode self ∈ ["both"; "html"])
      by (rewrite Em; apply list_elem_of_further, list_elem_of_here).
    rewrite (bool_decide_eq_false_2 _ Hm1), (bool_decide_eq_true_2 _ Hm2).
    unfold ret.
    destruct (Hshtml Hm2) as (_ & Hdf & _ & _ & Hfd).
    replace w1 with (set_fs w1 f1) at 1 by reflexivity.
    rewrite (Hhtml Hm2 _ f1).
    + eexists. split; [reflexivity|].
      intros other Hk Hmiss.
      apply exists_after_save; [|shapes; heads..].
      apply Hkeep; assumption.
    + reflexivity.
    + exact Hun.
    + rewrite Hfiles by (shapes; heads). exact Hdf.
    + rewrite Hdirs. exact Hfd.
Qed.

(** A URL that is fetched and answers 200 with a document from which a
    record is extracted gives that record with its links when the record can
    be saved, whether or not the cache file could be written. *)
Lemma process_good (url body : string) (r0 : PostData) (w : world) :
  Fs.exists_ (fs w) (cache_path url) = false ->
  Scraper.can_save self r0 (fs w) ->
  url ∉ processed_urls w ->
  Scraper.output_mode self ∈ Config.VALID_MODES ->
  net w url = Response 200 body ->
  Scraper.extract_post_data (parse HtmlParser body) = Ok r0 ->
  exists f',
    Scraper._process_single_url self url w
    = (Ok (Some (Scraper.linked self r0)), set_fs (log_request w url) f')
    /\ forall other,
         md5_hex other <> md5_hex url ->
         Fs.exists_ (fs w) (cache_path other) = false ->
         Fs.exists_ f' (cache_path other) = false.
Proof.
  intros Hmiss Hsave Hproc Hmode Hnet Hext.
  destruct (obtain_soup_fetch_any url w body Hmiss Hnet)
    as (f1 & Hsoup & Hun & Hdirs & Hfiles).
  destruct (save_files_after_fetch url r0 w f1 Hsave Hmode Hun Hdirs Hfiles)
    as (f' & Hsaved & Hframe).
  exists f'. split; [|exact Hframe].
  unfold Scraper._process_single_url.
  rewrite (bool_decide_eq_false_2 _ Hproc). unfold try_except, bind.
  rewrite Hsoup. unfold lift. rewrite Hext, Hsaved. reflexivity.
Qed.

End Good.

(** ** Two URLs, one of which answers with an error status *)

Section NetworkFailure.
Context `{Hashlib} `{Bs4} `{Pathlib}.

(** C7: take two URLs of different cache keys, neither of them in the
    cache, and a run in which one is answered with a status other than 200
    (500, say) and the other with 200 and a document from which a record is
    extracted and can be saved: the author directories the output mode
    asks for can be made and pass the validation, and the files of the
    record can be written there.  Whichever task completes first, the loop
    over the completed tasks ends without an exception and with exactly one
    record, that of the second URL; each URL was requested exactly once.
    Whether the cache file of the page can be written does not matter. *)
Theorem network_failure_isolated (self : Scraper.t) (w : world)
    (bad good : string) (st : nat) (body_bad body_good : string)
    (r0 : PostData) (order : list string) :
  let cache_path url :=
    Cache._get_cache_path (Scraper.cache_dir self) (Cache._get_cache_key url) in
  order = [bad; good] \/ order = [good; bad] ->
  processed_urls w = ∅ ->
  Scraper.output_mode self ∈ Config.VALID_MODES ->
  md5_hex bad <> md5_hex good ->
  Fs.exists_ (fs w) (cache_path bad) = false ->
  Fs.exists_ (fs w) (cache_path good) = false ->
  net w bad = Response st body_bad ->
  st <> 200 ->
  net w good = Response 200 body_good ->
  Scraper.extract_post_data (parse HtmlParser body_good) = Ok r0 ->
  Scraper.can_save self r0 (fs w) ->
  exists w',
    Scraper.gather self order [] w = (Ok [Scraper.linked self r0], w')
    /\ requests w' = requests w ++ order.
Proof.
  intros cache_path Horder Hproc Hmode Hkey Hmb Hmg Hbad Hst Hgood Hext Hsave.
  assert (Hnone : forall u, u ∉ processed_urls w)
    by (intros u; rewrite Hproc; apply not_elem_of_empty).
  destruct Horder as [-> | ->]; cbn [Scraper.gather]; unfold bind at 1.
  - rewrite (process_network_error self bad w st body_bad (Hnone _) Hmb Hbad Hst).
    destruct (process_good self good body_good r0 (log_request w bad))
      as (f' & Hrun & _); try assumption; [apply Hnone|].
    unfold bind. rewrite Hrun. eexists. split; [reflexivity|].
    cbn [requests set_fs log_request]. rewrite <- app_assoc. reflexivity.
  - destruct (process_good self good body_good r0 w)
      as (f' & Hrun & Hframe); try assumption; [apply Hnone|].
    rewrite Hrun. unfold bind.
    rewrite (process_network_error self bad _ st body_bad);
      [ | apply Hnone | apply Hframe; [exact Hkey | exact Hmb]
        | exact Hbad | exact Hst ].
    eexists. split; [reflexivity|].
    cbn [requests set_fs log_request]. rewrite <- app_assoc. reflexivity.
Qed.

End NetworkFailure.

Lemma fixture_can_save (mode : string) (r : PostData) :
  @Scraper.can_save Fixture.pathlib_dots (Fixture.scraper mode) r Fs.empty.
Proof.
  split; intros _; (split_and!;
    [ apply not_elem_of_empty | apply lookup_empty | vm_compute; reflexivity
    | apply not_elem_of_empty | apply not_elem_of_empty ]).
Qed.

Lemma network_failure_isolated_witness :
  exists w',
    @Scraper.gather Fixture.hashlib Fixture.bs4 Fixture.pathlib_dots
      (Fixture.scraper "both") [Fixture.down_url; Fixture.good_url] []
      (Fixture.world_of Fs.empty [Fixture.down_url; Fixture.good_url])
    = (Ok [Scraper.linked (Fixture.scraper "both") Fixture.good_record], w')
    /\ requests w' = [] ++ [Fixture.down_url; Fixture.good_url].
Proof.
  apply (@network_failure_isolated Fixture.hashlib Fixture.bs4
           Fixture.pathlib_dots (Fixture.scraper "both")
           (Fixture.world_of Fs.empty [Fixture.down_url; Fixture.good_url])
           Fixture.down_url Fixture.good_url 500 "Internal Server Error"
           (Fixture.render Fixture.good_doc) Fixture.good_record).
  - left. reflexivity.
  - reflexivity.
  - apply list_elem_of_here.
  - vm_compute. discriminate.
  - vm_compute. reflexivity.
  - vm_compute. reflexivity.
  - vm_compute. reflexivity.
  - discriminate.
  - vm_compute. reflexivity.
  - vm_compute. reflexivity.
  - apply fixture_can_save.
Defined.

(** ** The set of processed URLs *)

Create HintDb keeps discriminated.

Lemma keeps_ret {A} (a : A) : keeps_processed (ret a).
Proof. intros w. reflexivity. Qed.

Lemma keeps_raise {A} (e : exn) : keeps_processed (@raise A e).
Proof. intros w. reflexivity. Qed.

Lemma keeps_lift {A} (r : result A) : keeps_processed (lift r).
Proof. intros w. reflexivity. Qed.

Lemma keeps_bind {A B} (m : io A) (k : A -> io B) :
  keeps_processed m -> (forall a, keeps_processed (k a)) ->
  keeps_processed (bind m k).
Proof.
  intros Hm Hk w. unfold bind. specialize (Hm w).
  destruct (m w) as [[a|e] w']; simpl in *; [|exact Hm].
  rewrite Hk. exact Hm.
Qed.

Lemma keeps_try_except {A} (m : io A) (h : exn -> io A) :
  keeps_processed m -> (forall e, keeps_processed (h e)) ->
  keeps_processed (try_except m h).
Proof.
  intros Hm Hh w. unfold try_except. specialize (Hm w).
  destruct (m w) as [[a|e] w']; simpl in *; [exact Hm|].
  rewrite Hh. exact Hm.
Qed.

Lemma keeps_fs_update (op : Fs.t -> result Fs.t) : keeps_processed (fs_update op).
Proof. intros w. unfold fs_update. destruct (op (fs w)); reflexivity. Qed.

Lemma keeps_fs_query {A} (q : Fs.t -> A) : keeps_processed (fs_query q).
Proof. intros w. reflexivity. Qed.

Lemma keeps_read (p : path) :
  keeps_processed (fun w => (Fs.read_text (fs w) p, w)).
Proof. intros w. reflexivity. Qed.

Lemma keeps_if {A} (b : bool) (m1 m2 : io A) :
  keeps_processed m1 -> keeps_processed m2 ->
  keeps_processed (if b then m1 else m2).
Proof. destruct b; auto. Qed.

#[local] Hint Resolve keeps_ret keeps_raise keeps_lift keeps_fs_update
  keeps_fs_query keeps_read : keeps.
#[local] Hint Extern 2 (keeps_processed (bind _ _)) =>
  apply keeps_bind; [|intros ?] : keeps.
#[local] Hint Extern 2 (keeps_processed (try_except _ _)) =>
  apply keeps_try_except; [|intros ?] : keeps.
#[local] Hint Extern 3 (keeps_processed (if _ then _ else _)) =>
  apply keeps_if : keeps.
#[local] Hint Extern 3 (keeps_processed (match ?x with _ => _ end)) =>
  destruct x : keeps.

Section Processed.
Context `{Hashlib} `{Bs4} `{Pathlib}.
Variable self : Scraper.t.

Lemma keeps_http_get (url : string) : keeps_processed (Scraper.http_get url).
Proof. intros w. unfold Scraper.http_get. destruct (net w url); reflexivity. Qed.

Lemma keeps_get_cached_soup (d : path) (url : string) :
  keeps_processed (Cache.get_cached_soup d url).
Proof. unfold Cache.get_cached_soup. auto 10 with keeps. Qed.

Lemma keeps_save_cached_soup (d : path) (url : string) (soup : Dom.node) :
  keeps_processed (Cache.save_cached_soup d url soup).
Proof. unfold Cache.save_cached_soup. auto with keeps. Qed.

Lemma keeps_obtain_soup (url : string) :
  keeps_processed (Scraper.obtain_soup self url).
Proof.
  unfold Scraper.obtain_soup.
  pose proof keeps_http_get. pose proof keeps_get_cached_soup.
  pose proof keeps_save_cached_soup. auto 10 with keeps.
Qed.

Lemma keeps_save_markdown (r : PostData) :
  keeps_processed (Scraper.save_markdown self r).
Proof. unfold Scraper.save_markdown. auto 10 with keeps. Qed.

Lemma keeps_save_html (r : PostData) :
  keeps_processed (Scraper.save_html self r).
Proof. unfold Scraper.save_html. auto 10 with keeps. Qed.

Lemma keeps_save_files (r : PostData) :
  keeps_processed (Scraper.save_files self r).
Proof.
  unfold Scraper.save_files.
  pose proof keeps_save_markdown. pose proof keeps_save_html.
  auto 10 with keeps.
Qed.

(** Nothing in the processing of a URL records that URL as processed. *)
Lemma process_single_url_keeps_processed (url : string) :
  keeps_processed (Scraper._process_single_url self url).
Proof.
  intros w. unfold Scraper._process_single_url.
  destruct (bool_decide _); [reflexivity|].
  revert w. change (keeps_processed
    (try_except
       (soup <- Scraper.obtain_soup self url ;;
        post_data <- lift (Scraper.extract_post_data soup) ;;
        post_data <- Scraper.save_files self post_data ;;
        ret (Some post_data))
       (fun e => match e with NetworkError => ret None | _ => raise e end))).
  pose proof keeps_obtain_soup. pose proof keeps_save_files.
  auto 10 with keeps.
Qed.

(** The set is still empty after any number of tasks: the test at the head
    of [_process_single_url] never succeeds in a run. *)
Lemma gather_keeps_processed (tasks : list string) (acc : list PostData) :
  keeps_processed (Scraper.gather self tasks acc).
Proof.
  revert acc. induction tasks as [|url tasks IH]; intros acc; simpl.
  - apply keeps_ret.
  - apply keeps_bind; [apply process_single_url_keeps_processed|].
    intros a. apply IH.
Qed.

End Processed.

(** C3, on a sitemap that lists the same post twice: the second occurrence
    is processed like the first and yields a second record; the set of
    processed URLs, which the head of [_process_single_url] consults, is
    still empty at the end of the run. *)
Theorem duplicate_url_processed_twice :
  let self := Fixture.scraper "both" in
  let w := Fixture.world_of Fs.empty [Fixture.good_url; Fixture.good_url] in
  let run := @Scraper.gather Fixture.hashlib Fixture.bs4 Fixture.pathlib self
               [Fixture.good_url; Fixture.good_url] [] w in
  fst run = Ok [Scraper.linked self Fixture.good_record;
                Scraper.linked self Fixture.good_record]
  /\ processed_urls (snd run) = ∅.
Proof.
  split; [vm_compute; reflexivity|].
  rewrite gather_keeps_processed. reflexivity.
Qed.

(** ** Exceptions other than [NetworkError] *)

Section Propagation.
Context `{Hashlib} `{Bs4} `{Pathlib}.
Variable self : Scraper.t.

(** An exception raised by a task leaves the loop of [scrape_posts] at
    once: the tasks that follow are not awaited and the records gathered so
    far are dropped. *)
Lemma gather_propagates (url : string) (rest : list string)
    (acc : list PostData) (w w' : world) (e : exn) :
  Scraper._process_single_url self url w = (Raise e, w') ->
  Scraper.gather self (url :: rest) acc w = (Raise e, w').
Proof. intros E. cbn [Scraper.gather]. unfold bind. rewrite E. reflexivity. Qed.

(** The loop of [process_url_batch] handles every exception of a task and
    always returns. *)
Lemma process_url_batch_total (urls : list string) (w : world) :
  exists rs w', Scraper.process_url_batch self urls w = (Ok rs, w').
Proof.
  revert w. induction urls as [|url urls IH]; intros w.
  - eexists _, _. reflexivity.
  - cbn [Scraper.process_url_batch]. unfold bind at 1, try_except, bind.
    destruct (Scraper._process_single_url self url w) as [[[r|]|e] w1];
      cbn; apply IH.
Qed.

End Propagation.

(** C1, on a sitemap with a page that has no content container and a good
    post: whichever task completes first, [scrape_posts] ends with the
    [ContentError] of the first and the index file is not written, for any
    JSON codec and listing template; [process_url_batch], on the same URLs,
    logs the error and returns the record of the good post. *)
Theorem scrape_posts_aborts_on_content_error `{Json} `{Templates} :
  let self := Fixture.scraper "both" in
  let w := Fixture.world_of Fs.empty [Fixture.bad_url; Fixture.good_url] in
  let index := Scraper.data_dir self // (Scraper.writer_name self +:+ ".json") in
  let run schedule :=
    @Scraper.scrape_posts Fixture.hashlib Fixture.bs4 Fixture.pathlib _ _
      self schedule 0 w in
  fst (run (fun l => l)) = Raise ContentError
  /\ fst (run (@rev string)) = Raise ContentError
  /\ Fs.exists_ (fs (snd (run (fun l => l)))) index = false
  /\ Fs.exists_ (fs (snd (run (@rev string)))) index = false
  /\ fst (@Scraper.process_url_batch Fixture.hashlib Fixture.bs4 Fixture.pathlib
            self [Fixture.bad_url; Fixture.good_url] w)
     = Ok [Scraper.linked self Fixture.good_record].
Proof. repeat split; vm_compute; reflexivity. Qed.

(** ** The content cache *)

Section CacheRoundTrip.
Context `{Hashlib} `{Bs4}.

(** C5 (amended): when the cache file of a URL can be written and read back,
    storing a document under the URL leaves a cache file that holds exactly
    the serialized form of the document, and reading the cache for the URL
    returns the document obtained by parsing with the [lxml] parser the
    text read back, which is that text with every carriage return followed
    by a line feed, and every other carriage return, replaced by a line
    feed; the serialized form of the document returned equals that of the
    document stored, byte for byte, whenever parsing the text read back
    with [lxml] and serializing again gives the serialized form of the
    document stored. *)
Theorem cache_put_get (cache_dir : path) (url : string) (doc : Dom.node) (w : world) :
  let cache_path := Cache._get_cache_path cache_dir (Cache._get_cache_key url) in
  cache_path ∉ Fs.unwritable (fs w) ->
  cache_path ∉ Fs.dirs (fs w) ->
  cache_path ∉ Fs.unreadable (fs w) ->
  let w1 := snd (Cache.save_cached_soup cache_dir url doc w) in
  let read_back := PyStr.universal_newlines (to_str doc) in
  Fs.files (fs w1) !! cache_path = Some (to_str doc)
  /\ Cache.get_cached_soup cache_dir url w1
     = (Ok (Some (parse Lxml read_back)), w1)
  /\ (to_str (parse Lxml read_back) = to_str doc ->
      exists d, fst (Cache.get_cached_soup cache_dir url w1) = Ok (Some d)
                /\ to_str d = to_str doc).
Proof.
  intros cache_path Hw Hd Hr w1 read_back.
  assert (Hw1 : w1 = set_fs w (Fs.with_file (fs w) cache_path (to_str doc))).
  { unfold w1, Cache.save_cached_soup, try_except, fs_update.
    fold cache_path. rewrite (write_text_ok _ _ _ Hw Hd). reflexivity. }
  assert (Hfile : Fs.files (fs w1) !! cache_path = Some (to_str doc)).
  { rewrite Hw1. cbn [fs set_fs Fs.files Fs.with_file]. apply lookup_insert_eq. }
  assert (Hget : Cache.get_cached_soup cache_dir url w1
                 = (Ok (Some (parse Lxml read_back)), w1)).
  { unfold Cache.get_cached_soup, bind, fs_query, try_except.
    fold cache_path. unfold Fs.exists_. rewrite Hfile.
    rewrite (bool_decide_eq_true_2 _ (mk_is_Some _ _ eq_refl)). cbn [orb].
    unfold Fs.read_text. rewrite Hfile.
    rewrite bool_decide_eq_false_2; [reflexivity|].
    rewrite Hw1. exact Hr. }
  split; [exact Hfile|]. split; [exact Hget|].
  intros Hrt. rewrite Hget. eexists. split; [reflexivity | exact Hrt].
Qed.

End CacheRoundTrip.

(** Counterexample to C5 as the specification states it, twice over.  When
    the cache file cannot be written,
    the failure is swallowed and reading the cache returns no document.  And
    the cache parses with [lxml] what the pipeline parsed with [html.parser]:
    for a fragment, around which [lxml] builds a page, the document read
    back does not serialize to the text that was stored. *)
Lemma cache_round_trip_fails :
  (let w := Fixture.world_of Fixture.read_only_cache [] in
   fst (@Cache.get_cached_soup Fixture.hashlib Fixture.bs4 ["out"; "cache"]
          Fixture.good_url
          (snd (@Cache.save_cached_soup Fixture.hashlib Fixture.bs4
                  ["out"; "cache"] Fixture.good_url Fixture.good_doc w)))
   = Ok None)
  /\ (let w := Fixture.world_of Fs.empty [] in
      exists d,
        fst (@Cache.get_cached_soup Fixture.hashlib Fixture.bs4_lxml_wraps
               ["out"; "cache"] Fixture.good_url
               (snd (@Cache.save_cached_soup Fixture.hashlib Fixture.bs4_lxml_wraps
                       ["out"; "cache"] Fixture.good_url Fixture.fragment_doc w)))
        = Ok (Some d)
        /\ @to_str Fixture.bs4_lxml_wraps d
           <> @to_str Fixture.bs4_lxml_wraps Fixture.fragment_doc).
Proof.
  split; [vm_compute; reflexivity|].
  eexists. split; [vm_compute; reflexivity|].
  vm_compute. discriminate.
Qed.

Lemma cache_put_get_witness :
  exists d,
    fst (@Cache.get_cached_soup Fixture.hashlib Fixture.bs4 ["out"; "cache"]
           Fixture.good_url
           (snd (@Cache.save_cached_soup Fixture.hashlib Fixture.bs4
                   ["out"; "cache"] Fixture.good_url Fixture.good_doc
                   (Fixture.world_of Fs.empty []))))
    = Ok (Some d)
    /\ @to_str Fixture.bs4 d = @to_str Fixture.bs4 Fixture.good_doc.
Proof.
  refine (proj2 (proj2
    (@cache_put_get Fixture.hashlib Fixture.bs4 ["out"; "cache"]
       Fixture.good_url Fixture.good_doc (Fixture.world_of Fs.empty [])
       _ _ _)) _).
  - apply not_elem_of_empty.
  - apply not_elem_of_empty.
  - apply not_elem_of_empty.
  - vm_compute. reflexivity.
Defined.

(** ** Path validation *)

(** C6, where the code departs from it.  The validation compares the
    rendered paths as strings, so it accepts [/outside/secret.md] for the
    output directory [/out] although that path is not inside it.  When the
    author directory of the Markdown files is a link that leads to
    [/srv/elsewhere], [save_markdown] creates the directory before it
    validates the path and the error that leaves it is a [FileSystemError],
    not a [ValidationError]; when the link leads to [/outside], the path
    passes the validation and the file is written. *)
Theorem path_validation_defects :
  let self := Fixture.scraper "md" in
  let w := Fixture.world_of Fs.empty [] in
  let author_dir := Scraper.md_save_dir self // Scraper.writer_name self in
  let elsewhere :=
    Fixture.pathlib_with_link ["out"; "substack_md_files"] ["srv"; "elsewhere"] in
  let outside :=
    Fixture.pathlib_with_link ["out"; "substack_md_files"] ["outside"] in
  (@_validate_path Fixture.pathlib ["out"] ["outside"; "secret.md"] = Ok tt
   /\ ~ Scraper.inside_output_dir self ["outside"; "secret.md"])
  /\ (@resolve elsewhere author_dir = ["srv"; "elsewhere"; "example"]
      /\ fst (@Scraper.save_markdown elsewhere self Fixture.good_record w)
         = Raise FileSystemError
      /\ Fs.exists_ (fs w) author_dir = false
      /\ Fs.exists_
           (fs (snd (@Scraper.save_markdown elsewhere self Fixture.good_record w)))
           author_dir = true)
  /\ (@resolve outside author_dir = ["outside"; "example"]
      /\ ~ Scraper.inside_output_dir self (@resolve outside author_dir)
      /\ is_ok (fst (@Scraper.save_markdown outside self Fixture.good_record w))
         = true
      /\ Fs.exists_
           (fs (snd (@Scraper.save_markdown outside self Fixture.good_record w)))
           (author_dir // Scraper.post_filename Fixture.good_record ".md") = true).
Proof.
  assert (Hout : forall t, ~ ["out"] `prefix_of` "outside" :: t).
  { intros t [k Hk]. discriminate Hk. }
  repeat split; try (vm_compute; reflexivity); apply Hout.
Qed.

(** * The rest of the pipeline *)

(** ** URL discovery *)

Lemma filter_urls_elem (urls keywords : list string) (url : string) :
  url ∈ Scraper._filter_urls urls keywords
  <-> url ∈ urls /\ Forall (fun k => PyStr.issubstr k url = false) keywords.
Proof.
  unfold Scraper._filter_urls. rewrite list_elem_of_filter, forallb_forall, Forall_forall.
  split.
  - intros [Hk Hu]. split; [exact Hu|].
    intros k Hin. apply negb_true_iff, Hk, list_elem_of_In, Hin.
  - intros [Hu Hk]. split; [|exact Hu].
    intros k Hin. apply negb_true_iff, Hk, list_elem_of_In, Hin.
Qed.

(** X1: [_filter_urls] keeps, in their order, exactly the URLs that contain
    none of the keywords, and filtering a second time changes nothing. *)
Theorem filter_urls_spec (urls keywords : list string) :
  let kept := Scraper._filter_urls urls keywords in
  kept `sublist_of` urls
  /\ (forall url, url ∈ kept
        <-> url ∈ urls /\ Forall (fun k => PyStr.issubstr k url = false) keywords)
  /\ Scraper._filter_urls kept keywords = kept.
Proof.
  cbv zeta. split; [|split].
  - apply sublist_filter.
  - intros url. apply filter_urls_elem.
  - unfold Scraper._filter_urls. induction urls as [|u urls IH]; [reflexivity|].
    rewrite filter_cons. case_decide as Hu.
    + rewrite filter_cons. rewrite decide_True by exact Hu. now rewrite IH.
    + exact IH.
Qed.

Section Discovery.
Context `{Bs4}.
Variable self : Scraper.t.

Lemma fetch_sitemap_total (w : world) :
  exists urls,
    Scraper._fetch_urls_from_sitemap self w
    = (Ok urls, log_request w (Scraper.base_substack_url self +:+ Config.SITEMAP_PATH)).
Proof.
  unfold Scraper._fetch_urls_from_sitemap, try_except, bind, Scraper.http_get, ret.
  destruct (net w _) as [status body|]; cbn [fst snd]; [|eauto].
  destruct (status =? 200); eauto.
Qed.

Lemma fetch_feed_total (w : world) :
  exists urls,
    Scraper._fetch_urls_from_feed self w
    = (Ok urls, log_request w (Scraper.base_substack_url self +:+ Config.FEED_PATH)).
Proof.
  unfold Scraper._fetch_urls_from_feed, try_except, bind, Scraper.http_get, ret.
  destruct (net w _) as [status body|]; cbn [fst snd]; [|eauto].
  destruct (status =? 200); eauto.
Qed.

(** A run of the discovery: the sitemap, then the feed when the sitemap
    gave nothing, then the filter. *)
Lemma get_all_post_urls_run (w : world) :
  exists urls w',
    Scraper.get_all_post_urls self w
    = (Ok (Scraper._filter_urls urls Config.EXCLUDED_KEYWORDS), w')
    /\ fs w' = fs w /\ net w' = net w
    /\ processed_urls w' = processed_urls w /\ results w' = results w
    /\ let sitemap_url := Scraper.base_substack_url self +:+ Config.SITEMAP_PATH in
       let feed_url := Scraper.base_substack_url self +:+ Config.FEED_PATH in
       (requests w' = requests w ++ [sitemap_url]
        \/ requests w' = requests w ++ [sitemap_url; feed_url]).
Proof.
  unfold Scraper.get_all_post_urls, bind at 1.
  destruct (fetch_sitemap_total w) as [urls ->].
  destruct urls as [|u urls].
  - unfold bind. destruct (fetch_feed_total (log_request w
      (Scraper.base_substack_url self +:+ Config.SITEMAP_PATH))) as [urls ->].
    unfold ret. eexists _, _. split; [reflexivity|].
    cbn. repeat split; try reflexivity. right. now rewrite <- app_assoc.
  - unfold bind, ret. eexists _, _. split; [reflexivity|].
    cbn. repeat split; try reflexivity. now left.
Qed.

(** X2: with the session open, URL discovery never raises, whatever the
    server answers: it yields a list in which no URL contains an excluded
    keyword, it sends the sitemap request and at most the feed request, and
    it leaves the state of the scraper, every directory and every file
    other than the log file as they were. *)
Theorem get_all_post_urls_total (w : world) :
  exists urls w',
    Scraper.get_all_post_urls self w = (Ok urls, w')
    /\ Forall (fun url =>
                 Forall (fun k => PyStr.issubstr k url = false)
                   Config.EXCLUDED_KEYWORDS) urls
    /\ (forall p, p <> Scraper.log_file self ->
          Fs.files (fs w') !! p = Fs.files (fs w) !! p)
    /\ Fs.dirs (fs w') = Fs.dirs (fs w)
    /\ net w' = net w
    /\ processed_urls w' = processed_urls w /\ results w' = results w
    /\ let sitemap_url := Scraper.base_substack_url self +:+ Config.SITEMAP_PATH in
       let feed_url := Scraper.base_substack_url self +:+ Config.FEED_PATH in
       (requests w' = requests w ++ [sitemap_url]
        \/ requests w' = requests w ++ [sitemap_url; feed_url]).
Proof.
  destruct (get_all_post_urls_run w) as (urls & w' & E & Hfs & Hrest).
  eexists _, w'. split; [exact E|]. split.
  { apply Forall_forall. intros u Hu. apply filter_urls_elem in Hu. tauto. }
  rewrite Hfs. split; [reflexivity|]. split; [reflexivity | exact Hrest].
Qed.

End Discovery.

Section NothingFound.
Context `{Hashlib} `{Bs4} `{Pathlib} `{Json} `{Templates}.
Variable self : Scraper.t.
Variable schedule : list string -> list string.

(** X3: when discovery finds no URL, [scrape_posts] returns normally and
    leaves every directory and every file other than the log file as they
    were: no index is written, no listing generated and no record added. *)
Theorem scrape_posts_nothing_found (n : Z) (w : world) :
  fst (Scraper.get_all_post_urls self w) = Ok [] ->
  exists w',
    Scraper.scrape_posts self schedule n w = (Ok tt, w')
    /\ (forall p, p <> Scraper.log_file self ->
          Fs.files (fs w') !! p = Fs.files (fs w) !! p)
    /\ Fs.dirs (fs w') = Fs.dirs (fs w)
    /\ results w' = results w
    /\ processed_urls w' = processed_urls w.
Proof.
  intros Hnone. unfold Scraper.scrape_posts, bind.
  destruct (get_all_post_urls_run self w) as (urls & w' & E & Hfs & _ & Hp & Hr & _).
  rewrite E in Hnone |- *. cbn [fst] in Hnone. injection Hnone as ->.
  exists w'. rewrite Hfs. split; [|auto].
  destruct (n =? 0)%Z; [reflexivity|].
  unfold Scraper.slice_to. destruct (0 <=? n)%Z; rewrite take_nil; reflexivity.
Qed.

End NothingFound.

Lemma scrape_posts_nothing_found_witness :
  let w := Fixture.world_of Fs.empty [] in
  exists w',
    @Scraper.scrape_posts Fixture.hashlib Fixture.bs4 Fixture.pathlib
      Fixture.json Fixture.templates (Fixture.scraper "both") (fun l => l) 5 w = (Ok tt, w')
    /\ (forall p, p <> Scraper.log_file (Fixture.scraper "both") ->
          Fs.files (fs w') !! p = Fs.files (fs w) !! p)
    /\ Fs.dirs (fs w') = Fs.dirs (fs w)
    /\ results w' = results w
    /\ processed_urls w' = processed_urls w.
Proof.
  apply (@scrape_posts_nothing_found Fixture.hashlib Fixture.bs4 Fixture.pathlib
           Fixture.json Fixture.templates (Fixture.scraper "both") (fun l => l) 5
           (Fixture.world_of Fs.empty [])).
  vm_compute. reflexivity.
Defined.

(** ** The writer name *)

Lemma forall_chars_impl (p q : ascii -> bool) (s : string) :
  (forall c, p c = true -> q c = true) ->
  PyStr.forall_chars p s = true -> PyStr.forall_chars q s = true.
Proof.
  intros Hpq. induction s as [|c s IH]; [reflexivity|]. simpl.
  rewrite !andb_true_iff. intros [Hc Hs]. auto.
Qed.

Lemma break_at_fst (p : ascii -> bool) (s : string) :
  PyStr.forall_chars (fun c => negb (p c)) (fst (PyStr.break_at p s)) = true.
Proof.
  induction s as [|c s IH]; [reflexivity|]. simpl.
  destruct (p c) eqn:Hc; [reflexivity|].
  destruct (PyStr.break_at p s) as [a b]. simpl in *. now rewrite Hc.
Qed.

Lemma split_forall (q : ascii -> bool) (sep : ascii) (s : string) :
  PyStr.forall_chars (fun c => Ascii.eqb c sep || q c) s = true ->
  Forall (fun part => PyStr.forall_chars q part = true) (PyStr.split sep s).
Proof.
  induction s as [|c s IH]; simpl.
  - intros _. repeat constructor.
  - rewrite andb_true_iff. intros [Hc Hs]. specialize (IH Hs).
    destruct (Ascii.eqb c sep) eqn:E.
    + constructor; [reflexivity | exact IH].
    + simpl in Hc. destruct (PyStr.split sep s) as [|h t].
      * repeat constructor. simpl. now rewrite Hc.
      * inversion IH as [|? ? Hh Ht]; subst. constructor; [|exact Ht].
        simpl. now rewrite Hc, Hh.
Qed.

(** X4: the writer name [_extract_main_part] derives from a URL holds no
    dot, slash, question mark or number sign, so it is neither [.] nor
    [..] and names nothing outside the directory it is joined to; the only
    exception the function raises is a [ValidationError].  The name can be
    empty, as for a URL without a scheme: the author directory is then the
    directory it is joined to. *)
Theorem extract_main_part_safe `{Urllib} (url : string) :
  match Url._extract_main_part url with
  | Ok name =>
      PyStr.forall_chars
        (fun c => negb (Ascii.eqb c "." || Url.netloc_delim c)) name = true
  | Raise e => e = ValidationError
  end
  /\ Url._extract_main_part "example.substack.com" = Ok ""
  /\ forall dir : path, dir // "" = dir.
Proof.
  split; [|split; reflexivity].
  unfold Url._extract_main_part.
  destruct (Url.netloc url) as [loc|e] eqn:Hloc; [|reflexivity].
  assert (Hsafe : PyStr.forall_chars (fun c => negb (Url.netloc_delim c)) loc = true).
  { unfold Url.netloc in Hloc.
    destruct (Url.drop_scheme _) as [|c1 rest1];
      [injection Hloc as <-; reflexivity|].
    destruct c1 as [[] [] [] [] [] [] [] []];
      try (injection Hloc as <-; reflexivity).
    destruct rest1 as [|c2 rest]; [injection Hloc as <-; reflexivity|].
    destruct c2 as [[] [] [] [] [] [] [] []];
      try (injection Hloc as <-; reflexivity).
    destruct (xorb _ _); [discriminate|].
    destruct (_ && _); [discriminate|].
    injection Hloc as <-. apply break_at_fst. }
  pose proof (split_forall
    (fun c => negb (Ascii.eqb c "." || Url.netloc_delim c)) "." loc) as Hparts.
  destruct (PyStr.split "." loc) as [|h t] eqn:Hsplit; [reflexivity|].
  destruct ((h :: t) !! _) as [p|] eqn:Hp; [|reflexivity].
  rewrite Forall_forall in Hparts. apply Hparts.
  - revert Hsafe. apply forall_chars_impl. intros c Hc.
    destruct (Ascii.eqb c "."); [reflexivity|]. simpl. exact Hc.
  - eapply list_elem_of_lookup_2, Hp.
Qed.

(** ** Path validation *)

Lemma str_prefix_refl (s : string) : String.prefix s s = true.
Proof.
  induction s as [|c s IH]; [reflexivity|]. simpl.
  destruct (ascii_dec c c); [exact IH | congruence].
Qed.

Lemma str_prefix_app (a b c : string) :
  String.prefix (a +:+ b) (a +:+ c) = String.prefix b c.
Proof.
  induction a as [|x a IH]; [reflexivity|].
  change (String.prefix (String x (a +:+ b)) (String x (a +:+ c)) = String.prefix b c).
  simpl. destruct (ascii_dec x x); [exact IH | congruence].
Qed.

Lemma str_prefix_app_r (a c : string) : String.prefix a (a +:+ c) = true.
Proof.
  induction a as [|x a IH]; [destruct c; reflexivity|].
  change (String.prefix (String x a) (String x (a +:+ c)) = true).
  simpl. destruct (ascii_dec x x); [exact IH | congruence].
Qed.

Lemma concat_prefix (sep : string) (a b : path) :
  String.prefix (String.concat sep a) (String.concat sep (a ++ b)) = true.
Proof.
  induction a as [|x [|y a] IH].
  - simpl. destruct (String.concat sep b); reflexivity.
  - destruct b as [|z b]; [apply str_prefix_refl|].
    change (String.prefix x (x +:+ sep +:+ String.concat sep (z :: b)) = true).
    apply str_prefix_app_r.
  - change (String.prefix (x +:+ sep +:+ String.concat sep (y :: a))
              (x +:+ sep +:+ String.concat sep ((y :: a) ++ b)) = true).
    rewrite !str_prefix_app. exact IH.
Qed.

(** X5: [_validate_path] accepts every path that resolves to a path inside
    the output directory. *)
Theorem validate_path_accepts_inside `{Pathlib} (output_dir p below : path) :
  resolve p = output_dir ++ below ->
  _validate_path output_dir p = Ok tt.
Proof.
  intros E. unfold _validate_path, PyStr.startswith, Fs.path_str. rewrite E.
  rewrite str_prefix_app, concat_prefix. reflexivity.
Qed.

Lemma validate_path_accepts_inside_witness :
  @_validate_path Fixture.pathlib ["out"] ["out"; "data"; "example.json"] = Ok tt.
Proof.
  apply (@validate_path_accepts_inside Fixture.pathlib
           ["out"] ["out"; "data"; "example.json"] ["data"; "example.json"]).
  reflexivity.
Defined.

(** ** Documents *)

Lemma node_ind_deep (P : Dom.node -> Prop) :
  (forall s, P (Dom.Text s)) ->
  (forall nm cl cs, Forall P cs -> P (Dom.Elem nm cl cs)) ->
  forall n, P n.
Proof.
  intros Ht He. fix IH 1. intros [s|nm cl cs]; [apply Ht|].
  apply He. induction cs as [|c cs IHcs]; constructor; [apply IH | exact IHcs].
Qed.

Lemma first_some_head (p : Dom.node -> bool) (cs : list Dom.node) :
  Forall (fun c => Dom.find_self p c = head (Dom.collect_self p c)) cs ->
  Dom.first_some (Dom.find_self p) cs
  = head (concat (map (Dom.collect_self p) cs)).
Proof.
  induction 1 as [|c cs Hc _ IH]; [reflexivity|].
  cbn [Dom.first_some map concat]. rewrite Hc.
  destruct (Dom.collect_self p c); [exact IH | reflexivity].
Qed.

Lemma find_self_head (p : Dom.node -> bool) (n : Dom.node) :
  Dom.find_self p n = head (Dom.collect_self p n).
Proof.
  induction n as [s|nm cl cs IH] using node_ind_deep; simpl.
  - destruct (p _); reflexivity.
  - destruct (p _); [reflexivity|]. apply first_some_head, IH.
Qed.

(** [find] is the first result of [find_all]. *)
Lemma find_head (p : Dom.node -> bool) (n : Dom.node) :
  Dom.find p n = head (Dom.find_all p n).
Proof.
  unfold Dom.find, Dom.find_all. apply first_some_head.
  apply Forall_forall. intros c _. apply find_self_head.
Qed.

Lemma find_none (p : Dom.node -> bool) (n : Dom.node) :
  Dom.find p n = None <-> Dom.find_all p n = [].
Proof. rewrite find_head. destruct (Dom.find_all p n); simpl; split; congruence. Qed.

Lemma extract_post_data_raises `{Bs4} (soup : Dom.node) (e : exn) :
  Scraper.extract_post_data soup = Raise e -> e = ContentError.
Proof.
  unfold Scraper.extract_post_data.
  destruct (Scraper._find_content_div soup); [discriminate | congruence].
Qed.

(** X6: [extract_post_data] fails exactly on the documents in which no
    [div] of class [body] or [post-content] occurs, and then with a
    [ContentError]: a missing title, subtitle, date or like counter is no
    failure. *)
Theorem extract_post_data_needs_container `{Bs4} (soup : Dom.node) :
  (is_ok (Scraper.extract_post_data soup) = false
   <-> Dom.find_all (Dom.is_tag_class "div" "body") soup = []
       /\ Dom.find_all (Dom.is_tag_class "div" "post-content") soup = [])
  /\ forall e, Scraper.extract_post_data soup = Raise e -> e = ContentError.
Proof.
  unfold Scraper.extract_post_data, Scraper._find_content_div.
  cbn [Dom.first_some Config.CONTENT_DIV_CLASSES].
  rewrite <- !find_none.
  destruct (Dom.find (Dom.is_tag_class "div" "body") soup) as [d|];
    [|destruct (Dom.find (Dom.is_tag_class "div" "post-content") soup) as [d|]];
    cbn [is_ok]; (split; [split; [try discriminate|]|]); try congruence;
    try (intros [? ?]; congruence); auto.
Qed.

(** X7: the title, the subtitle and the date of an extracted record carry
    no white space at either end, and the record has no links yet. *)
Theorem extract_post_data_fields `{Bs4} (soup : Dom.node) (r : PostData) :
  Scraper.extract_post_data soup = Ok r ->
  PyStr.strip (title r) = title r
  /\ PyStr.strip (subtitle r) = subtitle r
  /\ PyStr.strip (date r) = date r
  /\ file_link r = None /\ html_link r = None.
Proof.
  unfold Scraper.extract_post_data.
  destruct (Scraper._find_content_div soup) as [d|]; [|discriminate].
  intros [= <-]. cbn [title subtitle date file_link html_link].
  unfold Scraper._extract_title, Scraper._extract_subtitle, Scraper._extract_date.
  repeat split.
  - destruct (Dom.find _ soup); [apply strip_idem | reflexivity].
  - destruct (Dom.find _ d); [apply strip_idem | reflexivity].
  - destruct (Dom.find _ soup); [apply strip_idem | reflexivity].
Qed.

Lemma extract_post_data_fields_witness :
  let r := Fixture.good_record in
  PyStr.strip (title r) = title r
  /\ PyStr.strip (subtitle r) = subtitle r
  /\ PyStr.strip (date r) = date r
  /\ file_link r = None /\ html_link r = None.
Proof.
  apply (@extract_post_data_fields Fixture.bs4 Fixture.good_doc Fixture.good_record).
  vm_compute. reflexivity.
Defined.

(** *** Cleaning *)

Lemma prune_Elem (p : Dom.node -> bool) nm cl cs :
  Dom.prune p (Dom.Elem nm cl cs)
  = Dom.Elem nm cl (Dom.prune p <$> filter (fun c => p c = false) cs).
Proof.
  simpl. f_equal. induction cs as [|c cs IH]; [reflexivity|].
  rewrite filter_cons. destruct (p c) eqn:Hc.
  - rewrite decide_False by discriminate. exact IH.
  - rewrite decide_True by reflexivity. rewrite fmap_cons. now rewrite IH.
Qed.

Lemma concat_nil {A} (l : list (list A)) :
  Forall (fun x => x = []) l -> concat l = [].
Proof. induction 1 as [|x l -> _ IH]; [reflexivity | exact IH]. Qed.

Lemma concat_nil_inv {A} (l : list (list A)) :
  concat l = [] -> Forall (fun x => x = []) l.
Proof.
  induction l as [|x l IH]; [constructor|]. simpl.
  intros E. apply app_eq_nil in E as [-> E]. constructor; auto.
Qed.

(** After [prune p], no descendant satisfies [p], when pruning does not
    change whether a node satisfies [p]. *)
Lemma prune_self_free (p : Dom.node -> bool) :
  (forall n, p (Dom.prune p n) = p n) ->
  forall n, p n = false -> Dom.collect_self p (Dom.prune p n) = [].
Proof.
  intros Hst n. induction n as [s|nm cl cs IH] using node_ind_deep; intros Hn.
  - simpl. now rewrite Hn.
  - pose proof (Hst (Dom.Elem nm cl cs)) as Hroot. rewrite prune_Elem in Hroot |- *.
    cbn [Dom.collect_self]. rewrite Hroot, Hn. cbn [app].
    apply concat_nil. rewrite Forall_map, Forall_fmap.
    apply Forall_forall. intros c Hc. apply list_elem_of_filter in Hc as [Hpc Hc].
    rewrite Forall_forall in IH. apply IH; assumption.
Qed.

Lemma prune_find_all (p : Dom.node -> bool) (n : Dom.node) :
  (forall n, p (Dom.prune p n) = p n) ->
  Dom.find_all p (Dom.prune p n) = [].
Proof.
  intros Hst. destruct n as [s|nm cl cs]; [reflexivity|].
  rewrite prune_Elem. unfold Dom.find_all. cbn [Dom.children].
  apply concat_nil. rewrite Forall_map, Forall_fmap.
  apply Forall_forall. intros c Hc. apply list_elem_of_filter in Hc as [Hpc Hc].
  apply prune_self_free; assumption.
Qed.

(** Nodes satisfying [p] do not appear by pruning with another criterion
    that leaves [p] as it is. *)
Lemma prune_keeps_free (p q : Dom.node -> bool) :
  (forall n, p (Dom.prune q n) = p n) ->
  forall n, Dom.collect_self p n = [] -> Dom.collect_self p (Dom.prune q n) = [].
Proof.
  intros Hst n. induction n as [s|nm cl cs IH] using node_ind_deep; intros Hn.
  - exact Hn.
  - pose proof (Hst (Dom.Elem nm cl cs)) as Hroot. rewrite prune_Elem in Hroot |- *.
    cbn [Dom.collect_self] in Hn |- *. rewrite Hroot.
    destruct (p (Dom.Elem nm cl cs)); [discriminate|]. cbn [app] in Hn |- *.
    apply concat_nil_inv in Hn. rewrite Forall_map in Hn.
    apply concat_nil. rewrite Forall_map, Forall_fmap.
    apply Forall_forall. intros c Hc. apply list_elem_of_filter in Hc as [_ Hc].
    rewrite Forall_forall in IH, Hn. cbn. apply IH; [assumption|]. now apply Hn.
Qed.

Lemma prune_keeps_find_all (p q : Dom.node -> bool) (n : Dom.node) :
  (forall n, p (Dom.prune q n) = p n) ->
  Dom.find_all p n = [] -> Dom.find_all p (Dom.prune q n) = [].
Proof.
  intros Hst. destruct n as [s|nm cl cs]; [auto|].
  rewrite prune_Elem. unfold Dom.find_all. cbn [Dom.children]. intros Hn.
  apply concat_nil_inv in Hn. rewrite Forall_map in Hn.
  apply concat_nil. rewrite Forall_map, Forall_fmap.
  apply Forall_forall. intros c Hc. apply list_elem_of_filter in Hc as [_ Hc].
  rewrite Forall_forall in Hn. cbn. apply prune_keeps_free; [assumption|]. now apply Hn.
Qed.

Lemma is_tag_prune (q : Dom.node -> bool) (name : string) (n : Dom.node) :
  Dom.is_tag name (Dom.prune q n) = Dom.is_tag name n.
Proof. destruct n; reflexivity. Qed.

Lemma is_removed_prune (q : Dom.node -> bool) (n : Dom.node) :
  Scraper.is_removed (Dom.prune q n) = Scraper.is_removed n.
Proof.
  unfold Scraper.is_removed. cbn [existsb Config.REMOVE_ELEMENTS].
  now rewrite !is_tag_prune.
Qed.

(** Blank strings: those [strip] empties. *)
Lemma lstrip_with_empty (p : ascii -> bool) (s : string) :
  PyStr.forall_chars p s = true -> PyStr.lstrip_with p s = "".
Proof.
  induction s as [|c s IH]; [reflexivity|]. simpl.
  rewrite andb_true_iff. intros [-> Hs]. auto.
Qed.

Lemma lstrip_with_chars (p : ascii -> bool) (s : string) :
  PyStr.forall_chars p s = false ->
  exists c r, PyStr.lstrip_with p s = String c r /\ p c = false.
Proof.
  induction s as [|c s IH]; [discriminate|]. simpl.
  destruct (p c) eqn:Hc; simpl; [exact IH|]. intros _. eauto.
Qed.

Lemma strip_blank (s : string) :
  String.eqb (PyStr.strip s) "" = PyStr.forall_chars PyStr.isspace s.
Proof.
  unfold PyStr.strip. destruct (PyStr.forall_chars PyStr.isspace s) eqn:E.
  - now rewrite lstrip_with_empty.
  - apply lstrip_with_chars in E as (c & r & -> & Hc).
    destruct (rstrip_with_head PyStr.isspace c r Hc) as [r' ->]. reflexivity.
Qed.

Lemma forall_chars_app (p : ascii -> bool) (a b : string) :
  PyStr.forall_chars p (a +:+ b)
  = PyStr.forall_chars p a && PyStr.forall_chars p b.
Proof.
  induction a as [|c a IH]; [reflexivity|].
  change (p c && PyStr.forall_chars p (a +:+ b)
          = p c && PyStr.forall_chars p a && PyStr.forall_chars p b).
  now rewrite IH, andb_assoc.
Qed.

Lemma forall_chars_concat (p : ascii -> bool) (l : list string) :
  PyStr.forall_chars p (String.concat "" l) = forallb (PyStr.forall_chars p) l.
Proof.
  induction l as [|x [|y l] IH]; [reflexivity| |].
  - simpl. now rewrite andb_true_r.
  - change (String.concat "" (x :: y :: l))
      with (x +:+ "" +:+ String.concat "" (y :: l)).
    rewrite !forall_chars_app, IH. reflexivity.
Qed.

Lemma text_prune_blank (n : Dom.node) :
  PyStr.forall_chars PyStr.isspace (Dom.text (Dom.prune Scraper.is_empty_paragraph n))
  = PyStr.forall_chars PyStr.isspace (Dom.text n).
Proof.
  induction n as [s|nm cl cs IH] using node_ind_deep; [reflexivity|].
  rewrite prune_Elem. cbn [Dom.text]. rewrite !forall_chars_concat.
  induction IH as [|c cs Hc _ IHcs]; [reflexivity|].
  rewrite filter_cons. cbn [map forallb]. case_decide as Hq.
  - rewrite fmap_cons. cbn [map forallb]. now rewrite Hc, IHcs.
  - rewrite IHcs. apply not_false_is_true in Hq.
    unfold Scraper.is_empty_paragraph in Hq. apply andb_true_iff in Hq as [_ Hq].
    rewrite strip_blank in Hq. now rewrite Hq.
Qed.

Lemma is_empty_paragraph_prune (n : Dom.node) :
  Scraper.is_empty_paragraph (Dom.prune Scraper.is_empty_paragraph n)
  = Scraper.is_empty_paragraph n.
Proof.
  unfold Scraper.is_empty_paragraph at 1 3.
  now rewrite is_tag_prune, !strip_blank, text_prune_blank.
Qed.

(** X8: in the cleaned content container no [script], [style] or [iframe]
    element is left, at any depth, and no paragraph whose text is blank. *)
Theorem clean_content_clean (content_div : Dom.node) :
  Dom.find_all Scraper.is_removed (Scraper._clean_content content_div) = []
  /\ Dom.find_all Scraper.is_empty_paragraph
       (Scraper._clean_content content_div) = [].
Proof.
  unfold Scraper._clean_content. split.
  - apply prune_keeps_find_all; [intros n; apply is_removed_prune|].
    apply prune_find_all. intros n. apply is_removed_prune.
  - apply prune_find_all. exact is_empty_paragraph_prune.
Qed.

(** ** The index and the listings *)

Lemma to_dict_post (r : PostData) :
  Generator.has_required_keys (Scraper.to_dict r) = true
  /\ Generator.make_post (Scraper.to_dict r) = Ok (Scraper.index_post r).
Proof.
  unfold Generator.has_required_keys, Generator.make_post, Generator.getitem,
    Generator.get, Generator.required_keys, Scraper.to_dict, Scraper.index_post.
  destruct r as [t s d l p c [fl|] [hl|]]; cbn [forallb rbind from_option
    title subtitle date like_count is_paid content file_link html_link];
    simplify_map_eq; split; reflexivity.
Qed.

Lemma posts_of_data_to_dict (rs : list PostData) :
  Generator.posts_of_data (Scraper.to_dict <$> rs)
  = Ok (Scraper.index_post <$> rs).
Proof.
  induction rs as [|r rs IH]; [reflexivity|].
  rewrite fmap_cons. cbn [Generator.posts_of_data].
  destruct (to_dict_post r) as [-> ->]. cbn [rbind]. now rewrite IH.
Qed.

(** A link as the scraper writes it: a string, or nothing. *)
Lemma filename_of_index_link (name : jvalue -> result string)
    (l : option string) :
  (forall s, exists n, name (JStr s) = Ok n) ->
  exists o, Generator.filename_of name (from_option JStr JNull l) = Ok o.
Proof.
  intros Hname. unfold Generator.filename_of.
  destruct l as [s|]; cbn [from_option Generator.truthy]; [|eauto].
  destruct (negb _); [|eauto].
  destruct (Hname s) as [n ->]. cbn. eauto.
Qed.

Lemma concat_sections_ok (f : Generator.Post -> result string)
    (posts : list Generator.Post) :
  Forall (fun post => exists s, f post = Ok s) posts ->
  exists body, Generator.concat_sections f posts = Ok body.
Proof.
  induction 1 as [|post rest [s Hs] _ [body IH]]; cbn [Generator.concat_sections].
  - eauto.
  - rewrite Hs, IH. cbn. eauto.
Qed.

(** X9: an index made of the entries the scraper produces for records, as
    a save into a missing or undecodable index writes it, is one the
    generator can use: the entries all have the required keys and become
    posts that carry the title, date, subtitle, like count, paid flag and
    links of the records (a link a record lacks is [None]); sorting them
    cannot fail, and both listings are produced without error.  Entries
    kept from an older index are not covered. *)
Theorem scraper_index_lists `{Templates} (author : string)
    (records : list PostData) :
  exists posts md html,
    Generator.posts_of_index (Scraper.to_dict <$> records) = Ok posts
    /\ posts ≡ₚ Scraper.index_post <$> records
    /\ Generator.generate_markdown_content author posts = Ok md
    /\ Generator.generate_html_content author posts = Ok html.
Proof.
  unfold Generator.posts_of_index. rewrite posts_of_data_to_dict. cbn [rbind].
  unfold Generator.sort_by_date.
  assert (Hstr : forallb (fun p => Generator.is_str (Generator.date p))
                   (Scraper.index_post <$> records) = true).
  { apply forallb_forall. intros p Hp. apply list_elem_of_In in Hp.
    apply list_elem_of_fmap in Hp as (r & -> & _). reflexivity. }
  rewrite Hstr, orb_true_r. cbn [orb].
  pose proof (sort_desc_perm (Scraper.index_post <$> records)) as Hperm.
  set (posts := Generator.sort_desc _) in *.
  assert (Hshape : Forall (fun post => exists r, post = Scraper.index_post r) posts).
  { rewrite Hperm. apply Forall_forall. intros p Hp.
    apply list_elem_of_fmap in Hp as (r & -> & _). eauto. }
  assert (Hmd : exists body,
    Generator.concat_sections Generator.markdown_section posts = Ok body).
  { apply concat_sections_ok. eapply Forall_impl; [exact Hshape|].
    intros post [r ->]. unfold Generator.markdown_section.
    destruct (_ && _); [eauto|]. cbn [Generator.file_link Generator.html_link
      Scraper.index_post].
    destruct (filename_of_index_link Generator.last_segment (file_link r))
      as [o1 ->]; [intros s; cbn; eauto|].
    destruct (filename_of_index_link Generator.last_segment (html_link r))
      as [o2 ->]; [intros s; cbn; eauto|].
    cbn [rbind]. eauto. }
  assert (Hhtml : exists body,
    Generator.concat_sections (Generator.html_section author) posts = Ok body).
  { apply concat_sections_ok. eapply Forall_impl; [exact Hshape|].
    intros post [r ->]. unfold Generator.html_section.
    destruct (_ && _); [eauto|]. cbn [Generator.file_link Generator.html_link
      Scraper.index_post].
    destruct (filename_of_index_link Generator.link_name (file_link r))
      as [o1 ->]; [intros s; cbn; eauto|].
    destruct (filename_of_index_link Generator.link_name (html_link r))
      as [o2 ->]; [intros s; cbn; eauto|].
    cbn [rbind]. eauto. }
  destruct Hmd as [md Hmd]. destruct Hhtml as [html Hhtml].
  eexists posts, _, _. split; [reflexivity|]. split; [exact Hperm|].
  unfold Generator.generate_markdown_content, Generator.generate_html_content.
  rewrite Hmd, Hhtml. cbn [rbind]. auto.
Qed.

(** X10: a post without a true [file_link] and without a true [html_link]
    adds nothing to either listing: both are those of the posts that have a
    link. *)
Theorem listings_skip_linkless `{Templates} (author : string)
    (posts : list Generator.Post) :
  let shown := filter (fun post => Generator.has_link post = true) posts in
  Generator.generate_markdown_content author posts
  = Generator.generate_markdown_content author shown
  /\ Generator.generate_html_content author posts
     = Generator.generate_html_content author shown.
Proof.
  cbv zeta.
  assert (Hskip : forall f : Generator.Post -> result string,
    (forall post, Generator.has_link post = false -> f post = Ok "") ->
    Generator.concat_sections f posts
    = Generator.concat_sections f
        (filter (fun post => Generator.has_link post = true) posts)).
  { intros f Hf. induction posts as [|post rest IH]; [reflexivity|].
    rewrite filter_cons. case_decide as Hl.
    - cbn [Generator.concat_sections]. now rewrite IH.
    - apply not_true_is_false in Hl. cbn [Generator.concat_sections].
      rewrite (Hf _ Hl). cbn [rbind]. rewrite <- IH.
      destruct (Generator.concat_sections f rest); reflexivity. }
  unfold Generator.generate_markdown_content, Generator.generate_html_content.
  split; rewrite <- Hskip; try reflexivity.
  - intros post Hl. unfold Generator.has_link in Hl.
    apply orb_false_iff in Hl as [Hf Hh].
    unfold Generator.markdown_section. now rewrite Hf, Hh.
  - intros post Hl. unfold Generator.has_link in Hl.
    apply orb_false_iff in Hl as [Hf Hh].
    unfold Generator.html_section. now rewrite Hf, Hh.
Qed.

Lemma key_ltb_asym (a b : jvalue) :
  Generator.key_ltb a b = true -> Generator.key_ltb b a = false.
Proof.
  assert (Hs : forall x y, String.ltb x y = true -> String.ltb y x = false).
  { intros x y. unfold String.ltb. rewrite (String.compare_antisym y x).
    destruct (String.compare x y); simpl; congruence. }
  unfold Generator.key_ltb.
  destruct a, b; try (intros Hlt; apply Z.ltb_lt in Hlt; apply Z.ltb_ge; lia).
  apply Hs.
Qed.

Lemma insert_desc_descending (x : Generator.Post) (l : list Generator.Post) :
  Generator.descending l -> Generator.descending (Generator.insert_desc x l).
Proof.
  induction l as [|y l IH]; intros Hl.
  - intros [|i] a b; simpl; discriminate.
  - simpl. destruct (Generator.key_ltb _ _) eqn:Hxy.
    + assert (Htail : Generator.descending l).
      { intros i a b Ha Hb. exact (Hl (S i) a b Ha Hb). }
      specialize (IH Htail). intros [|i] a b Ha Hb.
      * injection Ha as <-. cbn in Hb. destruct l as [|z l].
        -- injection Hb as <-. now apply key_ltb_asym.
        -- simpl in Hb. destruct (Generator.key_ltb _ (Generator.date z)).
           ++ injection Hb as <-. exact (Hl 0 y z eq_refl eq_refl).
           ++ injection Hb as <-. now apply key_ltb_asym.
      * exact (IH i a b Ha Hb).
    + intros [|i] a b Ha Hb.
      * injection Ha as <-. injection Hb as <-. exact Hxy.
      * exact (Hl i a b Ha Hb).
Qed.

(** X11: the posts [load_posts] hands to the listings are in descending
    order of date: no post is followed directly by one whose date is
    greater. *)
Theorem posts_of_index_descending (data : list jobject)
    (listed : list Generator.Post) :
  Generator.posts_of_index data = Ok listed ->
  forall i a b,
    listed !! i = Some a -> listed !! S i = Some b ->
    Generator.key_ltb (Generator.date a) (Generator.date b) = false.
Proof.
  unfold Generator.posts_of_index.
  destruct (Generator.posts_of_data data) as [posts|]; [|discriminate].
  cbn [rbind]. unfold Generator.sort_by_date.
  destruct (_ || _); [|discriminate]. intros [= <-].
  change (Generator.descending (Generator.sort_desc posts)).
  induction posts as [|p posts IH].
  - intros i a b; discriminate.
  - apply insert_desc_descending, IH.
Qed.

Lemma posts_of_index_descending_witness :
  exists listed,
    Generator.posts_of_index [Fixture.entry_a; Fixture.entry_b] = Ok listed
    /\ forall i a b,
         listed !! i = Some a -> listed !! S i = Some b ->
         Generator.key_ltb (Generator.date a) (Generator.date b) = false.
Proof.
  eexists. split; [vm_compute; reflexivity|].
  apply (posts_of_index_descending [Fixture.entry_a; Fixture.entry_b]).
  vm_compute. reflexivity.
Defined.

(** ** What the pipeline raises *)

Lemma raises_ret {A} (S : exn -> Prop) (a : A) : raises_only S (ret a).
Proof. intros w e. discriminate. Qed.

Lemma raises_raise {A} (S : exn -> Prop) (e : exn) :
  S e -> raises_only S (@raise A e).
Proof. intros He w e' [= <-]. exact He. Qed.

Lemma raises_lift {A} (S : exn -> Prop) (r : result A) :
  (forall e, r = Raise e -> S e) -> raises_only S (lift r).
Proof. intros Hr w e. apply Hr. Qed.

Lemma raises_bind {A B} (S : exn -> Prop) (m : io A) (k : A -> io B) :
  raises_only S m -> (forall a, raises_only S (k a)) ->
  raises_only S (bind m k).
Proof.
  intros Hm Hk w e. unfold bind. specialize (Hm w).
  destruct (m w) as [[a|e'] w']; [apply Hk|]. cbn in *. intros [= <-]. now apply Hm.
Qed.

Lemma raises_try_except {A} (S S' : exn -> Prop) (m : io A) (h : exn -> io A) :
  raises_only S' m -> (forall e, S' e -> raises_only S (h e)) ->
  raises_only S (try_except m h).
Proof.
  intros Hm Hh w e. unfold try_except. specialize (Hm w).
  destruct (m w) as [[a|e'] w']; [discriminate|]. cbn in Hm |- *.
  apply Hh. now apply Hm.
Qed.

Lemma raises_any {A} (m : io A) : raises_only (fun _ => True) m.
Proof. intros w e _. exact I. Qed.

(** [try: m except Exception: raise e0] raises nothing but [e0]. *)
Lemma raises_wrap {A} (S : exn -> Prop) (m : io A) (e0 : exn) :
  S e0 -> raises_only S (try_except m (fun _ => raise e0)).
Proof.
  intros He. eapply raises_try_except; [apply raises_any|].
  intros e _. now apply raises_raise.
Qed.

(** [try: m except Exception: pass] raises nothing. *)
Lemma raises_swallow {A} (S : exn -> Prop) (m : io A) (a : A) :
  raises_only S (try_except m (fun _ => ret a)).
Proof.
  eapply raises_try_except; [apply raises_any|].
  intros e _. apply raises_ret.
Qed.

Lemma raises_fs_query {A} (S : exn -> Prop) (q : Fs.t -> A) :
  raises_only S (fs_query q).
Proof. intros w e. discriminate. Qed.

Lemma raises_if {A} (S : exn -> Prop) (b : bool) (m1 m2 : io A) :
  raises_only S m1 -> raises_only S m2 ->
  raises_only S (if b then m1 else m2).
Proof. destruct b; auto. Qed.

Section Raises.
Context `{Hashlib} `{Bs4} `{Pathlib} `{Json}.
Variable self : Scraper.t.

Lemma raises_get_cached_soup (S : exn -> Prop) (dir : path) (url : string) :
  raises_only S (Cache.get_cached_soup dir url).
Proof.
  unfold Cache.get_cached_soup. apply raises_bind; [apply raises_fs_query|].
  intros present. apply raises_if; [apply raises_swallow | apply raises_ret].
Qed.

Lemma raises_save_cached_soup (S : exn -> Prop) (dir : path) (url : string)
    (soup : Dom.node) :
  raises_only S (Cache.save_cached_soup dir url soup).
Proof. apply raises_swallow. Qed.

Lemma raises_http_get (S : exn -> Prop) (url : string) :
  S ClientError -> raises_only S (Scraper.http_get url).
Proof.
  intros HS w e. unfold Scraper.http_get.
  destruct (net w url); [discriminate|]. now intros [= <-].
Qed.

Lemma raises_obtain_soup (S : exn -> Prop) (url : string) :
  S ClientError -> S NetworkError ->
  raises_only S (Scraper.obtain_soup self url).
Proof.
  intros Hc Hn. unfold Scraper.obtain_soup.
  apply raises_bind; [apply raises_get_cached_soup|].
  intros [cached|]; [apply raises_ret|].
  apply raises_bind; [now apply raises_http_get|].
  intros response. apply raises_if; [now apply raises_raise|].
  apply raises_bind; [apply raises_save_cached_soup|]. intros _. apply raises_ret.
Qed.

Lemma raises_save_files (S : exn -> Prop) (post_data : PostData) :
  S FileSystemError -> raises_only S (Scraper.save_files self post_data).
Proof.
  intros Hf. unfold Scraper.save_files.
  apply raises_bind.
  - apply raises_if; [now apply raises_wrap | apply raises_ret].
  - intros r. apply raises_if; [now apply raises_wrap | apply raises_ret].
Qed.

(** The exceptions of the steps that are modelled: the [ContentError] of
    the extraction, the [FileSystemError] of the savers and an error of the
    HTTP client. *)
Lemma process_single_url_exceptions (url : string) :
  raises_only
    (fun e => e = ContentError \/ e = FileSystemError \/ e = ClientError)
    (Scraper._process_single_url self url).
Proof.
  assert (Hbody : raises_only
    (fun e => e = ContentError \/ e = FileSystemError \/ e = ClientError)
    (try_except
       (soup <- Scraper.obtain_soup self url ;;
        post_data <- lift (Scraper.extract_post_data soup) ;;
        post_data <- Scraper.save_files self post_data ;;
        ret (Some post_data))
       (fun e => match e with
                 | NetworkError => ret None
                 | _ => raise e
                 end)));
    [|intros w e; unfold Scraper._process_single_url;
      case_bool_decide; [discriminate | apply Hbody]].
  apply raises_try_except with
    (S' := fun e => e = NetworkError \/ e = ContentError
                    \/ e = FileSystemError \/ e = ClientError).
  - apply raises_bind; [apply raises_obtain_soup; auto|].
    intros soup. apply raises_bind.
    + apply raises_lift. intros e He.
      rewrite (extract_post_data_raises soup e He). auto.
    + intros r. apply raises_bind; [apply raises_save_files; auto|].
      intros r'. apply raises_ret.
  - intros e [E|[E|[E|E]]]; subst e;
      [apply raises_ret | apply raises_raise ..]; auto.
Qed.

(** X12: whatever goes wrong while a URL is processed, the exception that
    leaves [_process_single_url] is neither a [NetworkError], which is
    answered with [None], nor a [ValidationError]: a path the validation
    rejects leaves the savers as a [FileSystemError]. *)
Theorem process_single_url_raises (url : string) :
  raises_only (fun e => e <> NetworkError /\ e <> ValidationError)
    (Scraper._process_single_url self url).
Proof.
  intros w e He.
  destruct (process_single_url_exceptions url w e He) as [E|[E|E]];
    subst e; split; discriminate.
Qed.

(** X13: [save_markdown] creates the author directory before it validates
    its path: when the validation rejects the path, the directory exists
    all the same, no file is written, and the exception that leaves is a
    [FileSystemError], not a [ValidationError]. *)
Theorem save_markdown_rejected_path (post_data : PostData) (w : world) (e : exn) :
  let author_dir := Scraper.md_save_dir self // Scraper.writer_name self in
  _validate_path (Scraper.output_dir self) author_dir = Raise e ->
  author_dir ∉ Fs.unwritable (fs w) ->
  Fs.files (fs w) !! author_dir = None ->
  Scraper.save_markdown self post_data w
  = (Raise FileSystemError, set_fs w (Fs.with_dir (fs w) author_dir)).
Proof.
  intros author_dir Hv Hw Hf.
  unfold Scraper.save_markdown, try_except, bind, fs_update, lift, raise.
  fold author_dir. rewrite (mkdir_ok _ _ Hw Hf). rewrite Hv. reflexivity.
Qed.

End Raises.

Lemma save_markdown_rejected_path_witness :
  let self := Fixture.scraper "both" in
  let author_dir := Scraper.md_save_dir self // Scraper.writer_name self in
  let w := Fixture.world_of Fs.empty [] in
  @Scraper.save_markdown
    (Fixture.pathlib_with_link ["out"; "substack_md_files"] ["elsewhere"])
    self Fixture.good_record w
  = (Raise FileSystemError, set_fs w (Fs.with_dir (fs w) author_dir)).
Proof.
  apply (@save_markdown_rejected_path
           (Fixture.pathlib_with_link ["out"; "substack_md_files"] ["elsewhere"])
           (Fixture.scraper "both") Fixture.good_record
           (Fixture.world_of Fs.empty []) ValidationError).
  - vm_compute. reflexivity.
  - vm_compute. set_solver.
  - reflexivity.
Defined.

(** ** Where the pipeline writes *)

Ltac frame_same :=
  split_and!; try reflexivity; intros ? ?; split; reflexivity.

Lemma within_id {A} (P : path -> Prop) (m : io A) :
  (forall w, snd (m w) = w) -> writes_within P m.
Proof. intros Hm w. cbv zeta. rewrite Hm. frame_same. Qed.

Lemma within_ret {A} (P : path -> Prop) (a : A) : writes_within P (ret a).
Proof. now apply within_id. Qed.

Lemma within_raise {A} (P : path -> Prop) (e : exn) : writes_within P (@raise A e).
Proof. now apply within_id. Qed.

Lemma within_lift {A} (P : path -> Prop) (r : result A) : writes_within P (lift r).
Proof. now apply within_id. Qed.

Lemma within_fs_query {A} (P : path -> Prop) (q : Fs.t -> A) :
  writes_within P (fs_query q).
Proof. now apply within_id. Qed.

Lemma within_read (P : path -> Prop) (p : path) :
  writes_within P (fun w => (Fs.read_text (fs w) p, w)).
Proof. now apply within_id. Qed.

Lemma within_trans (P : path -> Prop) (w w1 w2 : world) :
  (net w1 = net w /\ processed_urls w1 = processed_urls w
   /\ results w1 = results w
   /\ Fs.unwritable (fs w1) = Fs.unwritable (fs w)
   /\ Fs.unreadable (fs w1) = Fs.unreadable (fs w)
   /\ forall p, ~ P p ->
        Fs.files (fs w1) !! p = Fs.files (fs w) !! p
        /\ (p ∈ Fs.dirs (fs w1) <-> p ∈ Fs.dirs (fs w))) ->
  (net w2 = net w1 /\ processed_urls w2 = processed_urls w1
   /\ results w2 = results w1
   /\ Fs.unwritable (fs w2) = Fs.unwritable (fs w1)
   /\ Fs.unreadable (fs w2) = Fs.unreadable (fs w1)
   /\ forall p, ~ P p ->
        Fs.files (fs w2) !! p = Fs.files (fs w1) !! p
        /\ (p ∈ Fs.dirs (fs w2) <-> p ∈ Fs.dirs (fs w1))) ->
  net w2 = net w /\ processed_urls w2 = processed_urls w
  /\ results w2 = results w
  /\ Fs.unwritable (fs w2) = Fs.unwritable (fs w)
  /\ Fs.unreadable (fs w2) = Fs.unreadable (fs w)
  /\ forall p, ~ P p ->
       Fs.files (fs w2) !! p = Fs.files (fs w) !! p
       /\ (p ∈ Fs.dirs (fs w2) <-> p ∈ Fs.dirs (fs w)).
Proof.
  intros (N1 & P1 & R1 & U1 & V1 & F1) (N2 & P2 & R2 & U2 & V2 & F2).
  split_and!; try congruence. intros p Hp.
  destruct (F1 p Hp) as [E1 D1]. destruct (F2 p Hp) as [E2 D2].
  split; [congruence | tauto].
Qed.

Lemma within_bind {A B} (P : path -> Prop) (m : io A) (k : A -> io B) :
  writes_within P m -> (forall a, writes_within P (k a)) ->
  writes_within P (bind m k).
Proof.
  intros Hm Hk w. cbv zeta. unfold bind. specialize (Hm w). cbv zeta in Hm.
  destruct (m w) as [[a|e] w1]; cbn [snd] in *; [|exact Hm].
  apply (within_trans P w w1); [exact Hm | apply Hk].
Qed.

Lemma within_try_except {A} (P : path -> Prop) (m : io A) (h : exn -> io A) :
  writes_within P m -> (forall e, writes_within P (h e)) ->
  writes_within P (try_except m h).
Proof.
  intros Hm Hh w. cbv zeta. unfold try_except. specialize (Hm w). cbv zeta in Hm.
  destruct (m w) as [[a|e] w1]; cbn [snd] in *; [exact Hm|].
  apply (within_trans P w w1); [exact Hm | apply Hh].
Qed.

Lemma within_if {A} (P : path -> Prop) (b : bool) (m1 m2 : io A) :
  writes_within P m1 -> writes_within P m2 ->
  writes_within P (if b then m1 else m2).
Proof. destruct b; auto. Qed.

Lemma within_mkdir (P : path -> Prop) (p : path) :
  P p -> writes_within P (fs_update (fun f => Fs.mkdir f p)).
Proof.
  intros Hp w. cbv zeta. unfold fs_update, Fs.mkdir.
  destruct (_ || _); cbn; [frame_same|].
  split_and!; try reflexivity. intros q Hq. split; [reflexivity|].
  rewrite elem_of_union, elem_of_singleton. split; [|tauto].
  intros [->|Hin]; [contradiction | exact Hin].
Qed.

Lemma within_write_text (P : path -> Prop) (p : path) (c : string) :
  P p -> writes_within P (fs_update (fun f => Fs.write_text f p c)).
Proof.
  intros Hp w. cbv zeta. unfold fs_update, Fs.write_text.
  destruct (_ || _); cbn; [frame_same|].
  split_and!; try reflexivity. intros q Hq. split; [|reflexivity].
  apply lookup_insert_ne. congruence.
Qed.

Lemma within_http_get (P : path -> Prop) (url : string) :
  writes_within P (Scraper.http_get url).
Proof.
  intros w. cbv zeta. unfold Scraper.http_get.
  destruct (net w url); cbn; frame_same.
Qed.

Lemma within_weaken {A} (P Q : path -> Prop) (m : io A) :
  (forall p, P p -> Q p) -> writes_within P m -> writes_within Q m.
Proof.
  intros HPQ Hm w. destruct (Hm w) as (N & Pr & R & U & V & F).
  split_and!; try assumption. intros p Hp. apply F. auto.
Qed.

Create HintDb frame discriminated.

#[local] Hint Resolve within_ret within_raise within_lift within_fs_query
  within_read within_http_get : frame.
#[local] Hint Extern 2 (writes_within _ (bind _ _)) =>
  apply within_bind; [|intros ?] : frame.
#[local] Hint Extern 2 (writes_within _ (try_except _ _)) =>
  apply within_try_except; [|intros ?] : frame.
#[local] Hint Extern 3 (writes_within _ (if _ then _ else _)) =>
  apply within_if : frame.
#[local] Hint Extern 3 (writes_within _ (match ?x with _ => _ end)) =>
  destruct x : frame.
#[local] Hint Extern 2 (writes_within _ (fs_update (fun f => Fs.mkdir f _))) =>
  apply within_mkdir : frame.
#[local] Hint Extern 2 (writes_within _ (fs_update (fun f => Fs.write_text f _ _))) =>
  apply within_write_text : frame.

Lemma prefix_joinpath (out p : path) (s : string) :
  out `prefix_of` p -> out `prefix_of` p // s.
Proof.
  intros Hp. destruct s; [exact Hp|]. cbn. now apply prefix_app_r.
Qed.

#[local] Hint Resolve prefix_joinpath : frame.
#[local] Hint Extern 1 (?p `prefix_of` ?p) => reflexivity : frame.

Section Frame.
Context `{Hashlib} `{Bs4} `{Pathlib} `{Json} `{Templates}.
Variable self : Scraper.t.

Lemma within_get_cached_soup (P : path -> Prop) (dir : path) (url : string) :
  writes_within P (Cache.get_cached_soup dir url).
Proof. unfold Cache.get_cached_soup. auto 10 with frame. Qed.

Lemma within_save_cached_soup (P : path -> Prop) (dir : path) (url : string)
    (soup : Dom.node) :
  P (Cache._get_cache_path dir (Cache._get_cache_key url)) ->
  writes_within P (Cache.save_cached_soup dir url soup).
Proof. intros Hp. unfold Cache.save_cached_soup. auto 10 with frame. Qed.

Lemma within_obtain_soup (url : string) :
  writes_within (Scraper.inside_output_dir self) (Scraper.obtain_soup self url).
Proof.
  unfold Scraper.obtain_soup.
  apply within_bind; [apply within_get_cached_soup|]. intros [cached|]; [auto with frame|].
  apply within_bind; [auto with frame|]. intros response.
  apply within_if; [auto with frame|].
  apply within_bind; [|auto with frame].
  apply within_save_cached_soup.
  unfold Scraper.inside_output_dir, Cache._get_cache_path, Scraper.cache_dir.
  auto with frame.
Qed.

Lemma within_save_markdown (post_data : PostData) :
  writes_within (Scraper.inside_output_dir self) (Scraper.save_markdown self post_data).
Proof.
  unfold Scraper.save_markdown, Scraper.inside_output_dir, Scraper.md_save_dir.
  auto 10 with frame.
Qed.

Lemma within_save_html (post_data : PostData) :
  writes_within (Scraper.inside_output_dir self) (Scraper.save_html self post_data).
Proof.
  unfold Scraper.save_html, Scraper.inside_output_dir, Scraper.html_save_dir.
  auto 10 with frame.
Qed.

Lemma within_save_files (post_data : PostData) :
  writes_within (Scraper.inside_output_dir self) (Scraper.save_files self post_data).
Proof.
  unfold Scraper.save_files.
  apply within_bind.
  - apply within_if; [apply within_save_markdown | auto with frame].
  - intros r. apply within_if; [apply within_save_html | auto with frame].
Qed.

Lemma within_process_single_url (url : string) :
  writes_within (Scraper.inside_output_dir self)
    (Scraper._process_single_url self url).
Proof.
  assert (Hbody : writes_within (Scraper.inside_output_dir self)
    (try_except
       (soup <- Scraper.obtain_soup self url ;;
        post_data <- lift (Scraper.extract_post_data soup) ;;
        post_data <- Scraper.save_files self post_data ;;
        ret (Some post_data))
       (fun e => match e with
                 | NetworkError => ret None
                 | _ => raise e
                 end))).
  { apply within_try_except.
    - apply within_bind; [apply within_obtain_soup|]. intros soup.
      apply within_bind; [auto with frame|]. intros r.
      apply within_bind; [apply within_save_files | auto with frame].
    - intros e. destruct e; auto with frame. }
  intros w. unfold Scraper._process_single_url.
  case_bool_decide; [|apply Hbody].
  cbn. frame_same.
Qed.

Lemma within_save_essays (essays_data : list PostData) :
  writes_within (Scraper.inside_output_dir self)
    (Scraper.save_essays_data_to_json self essays_data).
Proof.
  unfold Scraper.save_essays_data_to_json, Scraper.inside_output_dir, Scraper.data_dir.
  apply within_try_except; [|auto with frame].
  apply within_bind; [auto with frame|]. intros _.
  apply within_bind; [auto with frame|]. intros present.
  apply within_bind.
  - apply within_if; [|auto with frame].
    apply within_try_except; [|auto with frame].
    apply within_bind; [auto with frame|]. intros txt.
    destruct (json_loads txt); auto with frame.
  - intros existing. auto with frame.
Qed.

Lemma within_gather (tasks : list string) (acc : list PostData) :
  writes_within (Scraper.inside_output_dir self) (Scraper.gather self tasks acc).
Proof.
  revert acc. induction tasks as [|url rest IH]; intros acc; cbn [Scraper.gather].
  - auto with frame.
  - apply within_bind; [apply within_process_single_url|]. intros r. apply IH.
Qed.

Lemma within_get_all_post_urls (P : path -> Prop) :
  writes_within P (Scraper.get_all_post_urls self).
Proof.
  unfold Scraper.get_all_post_urls, Scraper._fetch_urls_from_sitemap,
    Scraper._fetch_urls_from_feed.
  apply within_bind; [auto 10 with frame|]. intros urls.
  apply within_bind; [|auto with frame].
  destruct urls; auto 10 with frame.
Qed.

Lemma within_generate (author : string) (out : path) :
  writes_within (fun p => resolve out `prefix_of` p) (Generator.generate author out).
Proof.
  unfold Generator.generate, Generator._generate_files, Generator.load_posts,
    Generator.load_data.
  apply within_bind.
  - apply within_bind; [|auto with frame].
    apply within_bind; [auto with frame|]. intros [json_path|]; [|auto with frame].
    apply within_bind; [auto with frame|]. intros _.
    apply within_bind; [auto with frame|]. intros txt.
    destruct (json_loads txt); auto with frame.
  - intros posts. auto 20 with frame.
Qed.

(** X14: a whole run creates or changes no file at a path outside the
    output directory (or the directory it resolves to, where the listings
    go) and makes no directory there, and it leaves the set of processed
    URLs and the list of results as they were.  Paths are compared by
    their components; of the directories [mkdir] creates, the model records
    the one it is called on. *)
Theorem scrape_posts_writes_inside (schedule : list string -> list string)
    (n : Z) :
  writes_within
    (fun p => Scraper.output_dir self `prefix_of` p
              \/ resolve (Scraper.output_dir self) `prefix_of` p)
    (Scraper.scrape_posts self schedule n).
Proof.
  unfold Scraper.scrape_posts.
  apply within_bind; [apply within_get_all_post_urls|]. intros post_urls.
  destruct (if (n =? 0)%Z then post_urls else Scraper.slice_to n post_urls);
    [auto with frame|].
  apply within_bind.
  - eapply within_weaken; [|apply within_gather].
    intros p Hp. left. exact Hp.
  - intros essays. apply within_bind.
    + eapply within_weaken; [|apply within_save_essays].
      intros p Hp. left. exact Hp.
    + intros _. eapply within_weaken; [|apply within_generate].
      intros p Hp. right. exact Hp.
Qed.

End Frame.

(** ** The cache *)

Section CacheUse.
Context `{Hashlib} `{Bs4} `{Pathlib}.

Lemma get_cached_soup_pure (dir : path) (url : string) (w : world) :
  exists cached, Cache.get_cached_soup dir url w = (Ok cached, w).
Proof.
  unfold Cache.get_cached_soup, bind, fs_query, try_except, ret.
  destruct (Fs.exists_ _ _); [|eauto].
  destruct (Fs.read_text _ _); eauto.
Qed.

Lemma get_cached_soup_hit (dir : path) (url : string) (w : world) (txt : string) :
  let cache_path := Cache._get_cache_path dir (Cache._get_cache_key url) in
  Fs.files (fs w) !! cache_path = Some txt ->
  cache_path ∉ Fs.unreadable (fs w) ->
  Cache.get_cached_soup dir url w
  = (Ok (Some (parse Lxml (PyStr.universal_newlines txt))), w).
Proof.
  intros cache_path Hf Hr.
  unfold Cache.get_cached_soup, bind, fs_query, try_except, ret, Fs.exists_,
    Fs.read_text.
  fold cache_path. rewrite Hf.
  rewrite bool_decide_eq_true_2 by eauto. cbn [orb].
  rewrite (bool_decide_eq_false_2 _ Hr). fold cache_path. rewrite Hf. reflexivity.
Qed.


Variable self : Scraper.t.

(** X16: once a document has been fetched and stored, asking for the same
    URL again is answered from the cache: no request is sent, the world
    stays as it is, and the document is what [lxml] makes of the text read
    back from the cache file, which is the stored text with its line ends
    translated (a carriage return, with or without a line feed after it,
    is read as a line feed). *)
Theorem obtain_soup_second_from_cache (url : string) (w : world) (body : string) :
  let cache_path :=
    Cache._get_cache_path (Scraper.cache_dir self) (Cache._get_cache_key url) in
  Fs.exists_ (fs w) cache_path = false ->
  cache_path ∉ Fs.unwritable (fs w) ->
  cache_path ∉ Fs.unreadable (fs w) ->
  net w url = Response 200 body ->
  let w1 := snd (Scraper.obtain_soup self url w) in
  requests w1 = requests w ++ [url]
  /\ Scraper.obtain_soup self url w1
     = (Ok (parse Lxml
              (PyStr.universal_newlines (to_str (parse HtmlParser body)))),
        w1).
Proof.
  intros cache_path Hmiss Hw Hr Hnet.
  rewrite (obtain_soup_fetch self url w body Hmiss Hw Hnet). cbn [snd].
  split; [reflexivity|].
  unfold Scraper.obtain_soup, bind.
  rewrite (get_cached_soup_hit _ _ _
             (to_str (parse HtmlParser body))); [reflexivity| |exact Hr].
  cbn. apply lookup_insert_eq.
Qed.

(** X17: [process_url_batch] never raises, whatever happens to a URL: it
    returns [self.results], which still starts with the records it held
    before and has grown by one record for each URL at most; the set of
    processed URLs is unchanged. *)
Theorem process_url_batch_isolates (urls : list string) (w : world) :
  exists w',
    Scraper.process_url_batch self urls w = (Ok (results w'), w')
    /\ results w `prefix_of` results w'
    /\ length (results w') <= length (results w) + length urls
    /\ processed_urls w' = processed_urls w.
Proof.
  revert w. induction urls as [|url rest IH]; intros w.
  - exists w. cbn. split_and!; [reflexivity.. | lia | reflexivity].
  - cbn [Scraper.process_url_batch]. unfold bind at 1, try_except, bind.
    destruct (within_process_single_url self url w) as (_ & Hp & Hr & _).
    destruct (Scraper._process_single_url self url w) as [[[r|]|e] w1];
      cbn [snd] in Hp, Hr; cbn [ret].
    + destruct (IH (push_result w1 r)) as (w' & E & Hpre & Hlen & Hproc).
      exists w'. rewrite E. cbn in Hpre, Hlen, Hproc.
      rewrite Hr in Hpre, Hlen. rewrite length_app in Hlen. cbn in Hlen.
      split_and!; [reflexivity | | cbn; lia | congruence].
      etransitivity; [|exact Hpre]. now apply prefix_app_r.
    + destruct (IH w1) as (w' & E & Hpre & Hlen & Hproc).
      exists w'. rewrite E. rewrite Hr in Hpre, Hlen.
      split_and!; [reflexivity | exact Hpre | cbn; lia | congruence].
    + destruct (IH w1) as (w' & E & Hpre & Hlen & Hproc).
      exists w'. rewrite E. rewrite Hr in Hpre, Hlen.
      split_and!; [reflexivity | exact Hpre | cbn; lia | congruence].
Qed.

End CacheUse.

Lemma obtain_soup_second_from_cache_witness :
  let self := Fixture.scraper "both" in
  let w := Fixture.world_of Fs.empty [Fixture.good_url] in
  let w1 := snd (@Scraper.obtain_soup Fixture.hashlib Fixture.bs4 self
                   Fixture.good_url w) in
  requests w1 = requests w ++ [Fixture.good_url]
  /\ @Scraper.obtain_soup Fixture.hashlib Fixture.bs4 self Fixture.good_url w1
     = (Ok (@parse Fixture.bs4 Lxml
              (PyStr.universal_newlines
                 (@to_str Fixture.bs4
                    (@parse Fixture.bs4 HtmlParser
                       (Fixture.render Fixture.good_doc))))),
        w1).
Proof.
  apply (@obtain_soup_second_from_cache Fixture.hashlib Fixture.bs4
           (Fixture.scraper "both") Fixture.good_url
           (Fixture.world_of Fs.empty [Fixture.good_url])
           (Fixture.render Fixture.good_doc)).
  - vm_compute. reflexivity.
  - vm_compute. set_solver.
  - vm_compute. set_solver.
  - vm_compute. reflexivity.
Defined.

(** *** Clearing the cache *)

Lemma endswith_app (a b : string) : PyStr.endswith (a +:+ b) b = true.
Proof.
  induction a as [|c a IH].
  - destruct b; simpl; [reflexivity|]. now rewrite Ascii.eqb_refl, String.eqb_refl.
  - change (PyStr.endswith (String c (a +:+ b)) b = true). simpl.
    rewrite IH. apply orb_true_r.
Qed.

Lemma unlink_all_spec (f : Fs.t) (l : list path) :
  let f' := foldr (fun p f => match Fs.unlink f p with
                              | Ok f' => f'
                              | Raise _ => f
                              end) f l in
  Fs.dirs f' = Fs.dirs f
  /\ Fs.unwritable f' = Fs.unwritable f
  /\ Fs.unreadable f' = Fs.unreadable f
  /\ (forall p, p ∉ l -> Fs.files f' !! p = Fs.files f !! p)
  /\ (forall p, p ∈ l -> p ∉ Fs.unwritable f -> Fs.files f' !! p = None).
Proof.
  cbv zeta. induction l as [|q l (Hd & Hu & Hr & Hout & Hin)]; cbn [foldr].
  - split_and!; try reflexivity. intros p Hp. now apply elem_of_nil in Hp.
  - set (f1 := foldr _ f l) in *. unfold Fs.unlink.
    case_bool_decide as Hq.
    + split_and!; try assumption.
      * intros p Hp. apply Hout. intros Hl. apply Hp. now right.
      * intros p Hp Hw. apply elem_of_cons in Hp as [->|Hp]; [|now apply Hin].
        rewrite Hu in Hq. contradiction.
    + destruct (Fs.files f1 !! q) as [c|] eqn:Hfq; cbn.
      * split_and!; try assumption.
        -- intros p Hp. apply not_elem_of_cons in Hp as [Hpq Hp].
           rewrite lookup_delete_ne by congruence. now apply Hout.
        -- intros p Hp Hw. destruct (decide (p = q)) as [->|Hpq].
           ++ apply lookup_delete_eq.
           ++ rewrite lookup_delete_ne by congruence.
              apply elem_of_cons in Hp as [Hp|Hp]; [contradiction|]. now apply Hin.
      * split_and!; try assumption.
        -- intros p Hp. apply Hout. intros Hl. apply Hp. now right.
        -- intros p Hp Hw. apply elem_of_cons in Hp as [->|Hp]; [exact Hfq|].
           now apply Hin.
Qed.

Section ClearCache.
Context `{Hashlib} `{Bs4}.
Variable cache_dir : path.

Lemma cache_path_is_cache_file (key : string) :
  Cache.is_cache_file cache_dir (Cache._get_cache_path cache_dir key) = true.
Proof.
  unfold Cache.is_cache_file, Cache._get_cache_path.
  rewrite joinpath_nonempty by apply cache_file_nonempty.
  rewrite take_app_length, drop_app_length.
  rewrite bool_decide_eq_true_2 by reflexivity.
  apply endswith_app.
Qed.

(** X18: after [clear_cache], a URL whose cache file may be removed is no
    longer answered from the cache, and nothing but cache files has gone:
    every file that is not a [.cache] file directly in the cache directory,
    and every directory, is still there. *)
Theorem clear_cache_clears (url : string) (w : world) :
  let cache_path := Cache._get_cache_path cache_dir (Cache._get_cache_key url) in
  cache_path ∉ Fs.unwritable (fs w) ->
  exists w',
    Cache.clear_cache cache_dir w = (Ok tt, w')
    /\ Cache.get_cached_soup cache_dir url w' = (Ok None, w')
    /\ (forall p, Cache.is_cache_file cache_dir p = false ->
          Fs.files (fs w') !! p = Fs.files (fs w) !! p)
    /\ Fs.dirs (fs w') = Fs.dirs (fs w).
Proof.
  intros cache_path Hw. unfold Cache.clear_cache. eexists. split; [reflexivity|].
  destruct (unlink_all_spec (fs w) (Cache.glob_cache cache_dir (fs w)))
    as (Hd & Hu & Hr & Hout & Hin).
  cbv zeta in Hd, Hu, Hr, Hout, Hin.
  set (f' := foldr _ (fs w) _) in *.
  assert (Hgone : Fs.files f' !! cache_path = None).
  { destruct (Fs.files (fs w) !! cache_path) as [c|] eqn:Hc.
    - apply Hin; [|exact Hw]. unfold Cache.glob_cache.
      apply list_elem_of_filter. split; [apply cache_path_is_cache_file|].
      apply elem_of_elements, elem_of_dom. eauto.
    - rewrite Hout; [exact Hc|]. unfold Cache.glob_cache.
      rewrite list_elem_of_filter, elem_of_elements, elem_of_dom.
      intros [_ [c Hc']]. fold cache_path in Hc'. congruence. }
  split_and!.
  - unfold Cache.get_cached_soup, bind, fs_query, try_except, ret, Fs.read_text.
    fold cache_path.
    destruct (Fs.exists_ _ cache_path); [|reflexivity].
    cbn [fs set_fs]. rewrite Hgone.
    destruct (bool_decide _); reflexivity.
  - intros p Hp. cbn [fs set_fs]. apply Hout. unfold Cache.glob_cache.
    rewrite list_elem_of_filter. intros [Hp' _]. congruence.
  - exact Hd.
Qed.

End ClearCache.

Lemma clear_cache_clears_witness :
  let w := Fixture.world_of Fixture.cached_and_saved [] in
  exists w',
    Cache.clear_cache ["out"; "cache"] w = (Ok tt, w')
    /\ @Cache.get_cached_soup Fixture.hashlib Fixture.bs4 ["out"; "cache"]
         Fixture.good_url w' = (Ok None, w')
    /\ (forall p, Cache.is_cache_file ["out"; "cache"] p = false ->
          Fs.files (fs w') !! p = Fs.files (fs w) !! p)
    /\ Fs.dirs (fs w') = Fs.dirs (fs w).
Proof.
  apply (@clear_cache_clears Fixture.hashlib Fixture.bs4 ["out"; "cache"]
           Fixture.good_url (Fixture.world_of Fixture.cached_and_saved [])).
  vm_compute. set_solver.
Defined.

(** ** The index file *)

Lemma merge_index_nil (essays_data : list jobject) :
  Scraper.merge_index [] essays_data = essays_data.
Proof.
  unfold Scraper.merge_index. cbn [app Scraper.py_in existsb].
  induction essays_data as [|d l IH]; [reflexivity|].
  rewrite filter_cons. rewrite decide_True by reflexivity. now rewrite IH.
Qed.

Section Index.
Context `{Pathlib} `{Json}.
Variable self : Scraper.t.

(** X19: when there is no index file yet, or the one there does not
    decode, [save_essays_data_to_json] writes an index that holds exactly
    the records it is given, in their order. *)
Theorem save_index_fresh (essays_data : list PostData) (w : world) :
  let json_path :=
    Scraper.data_dir self // (Scraper.writer_name self +:+ ".json") in
  _validate_path (Scraper.output_dir self) json_path = Ok tt ->
  json_path ∉ Fs.unwritable (fs w) ->
  json_path ∉ Fs.dirs (fs w) ->
  (Fs.files (fs w) !! json_path = None
   \/ exists txt, Fs.read_text (fs w) json_path = Ok txt
                  /\ json_loads txt = JDecodeError) ->
  Scraper.save_essays_data_to_json self essays_data w
  = (Ok tt,
     set_fs w (Fs.with_file (fs w) json_path
                 (json_dumps (Scraper.to_dict <$> essays_data)))).
Proof.
  intros json_path Hv Hw Hd Hold.
  unfold Scraper.save_essays_data_to_json, try_except at 1, bind at 1, lift.
  fold json_path. rewrite Hv. unfold bind at 1, fs_query.
  destruct Hold as [Hnone|(txt & Hread & Hbad)].
  - rewrite (exists_false _ _ Hnone Hd). unfold bind, ret, fs_update.
    rewrite merge_index_nil, (write_text_ok _ _ _ Hw Hd). reflexivity.
  - assert (Hex : Fs.exists_ (fs w) json_path = true).
    { unfold Fs.exists_. unfold Fs.read_text in Hread.
      destruct (bool_decide (json_path ∈ Fs.unreadable (fs w))); [discriminate|].
      destruct (Fs.files (fs w) !! json_path); [|discriminate].
      rewrite bool_decide_eq_true_2 by eauto. reflexivity. }
    rewrite Hex. unfold bind, try_except, ret, fs_update. rewrite Hread, Hbad.
    rewrite merge_index_nil, (write_text_ok _ _ _ Hw Hd). reflexivity.
Qed.



End Index.

Lemma save_index_fresh_witness :
  let w := Fixture.world_of (Fixture.with_index "{{{") [] in
  @Scraper.save_essays_data_to_json Fixture.pathlib Fixture.json
    (Fixture.scraper "both") [Fixture.record_a] w
  = (Ok tt,
     set_fs w (Fs.with_file (fs w) Fixture.index_file
                 (Fixture.json_text [Fixture.entry_a]))).
Proof.
  apply (@save_index_fresh Fixture.pathlib Fixture.json (Fixture.scraper "both")
           [Fixture.record_a] (Fixture.world_of (Fixture.with_index "{{{") [])).
  - vm_compute. reflexivity.
  - vm_compute. set_solver.
  - vm_compute. set_solver.
  - right. exists "{{{". split; vm_compute; reflexivity.
Defined.


(** ** The constructor *)

Lemma rstrip_with_last (c : ascii) (s : string) :
  PyStr.endswith (PyStr.rstrip_with (Ascii.eqb c) s) (String c EmptyString) = false.
Proof.
  induction s as [|d s IH]; [reflexivity|]. cbn [PyStr.rstrip_with].
  destruct (PyStr.rstrip_with (Ascii.eqb c) s) as [|x r] eqn:E.
  - destruct (Ascii.eqb c d) eqn:Hcd; [reflexivity|].
    cbn. rewrite Ascii.eqb_sym, Hcd. reflexivity.
  - change (String.eqb (String d (String x r)) (String c EmptyString)
            || PyStr.endswith (String x r) (String c EmptyString) = false).
    rewrite IH. cbn. destruct (Ascii.eqb d c); reflexivity.
Qed.

Lemma mkdir_inv (f f' : Fs.t) (p : path) :
  Fs.mkdir f p = Ok f' -> f' = Fs.with_dir f p.
Proof. unfold Fs.mkdir. destruct (_ || _); congruence. Qed.

(** X21: a scraper that has been constructed has one of the three output
    modes and a base URL without a slash at its end; its output directory
    and the four directories below it exist, and it starts with no
    processed URL and no result. *)
Theorem init_establishes `{Pathlib} `{Urllib}
    (base_substack_url output_dir : string) (debug : bool)
    (output_mode : string) (w w' : world) (self : Scraper.t) :
  Scraper.__init__ base_substack_url output_dir debug output_mode w
  = (Ok self, w') ->
  Scraper.output_mode self ∈ Config.VALID_MODES
  /\ PyStr.endswith (Scraper.base_substack_url self) "/" = false
  /\ Scraper.output_dir self ∈ Fs.dirs (fs w')
  /\ Scraper.md_save_dir self ∈ Fs.dirs (fs w')
  /\ Scraper.html_save_dir self ∈ Fs.dirs (fs w')
  /\ Scraper.cache_dir self ∈ Fs.dirs (fs w')
  /\ Scraper.data_dir self ∈ Fs.dirs (fs w')
  /\ processed_urls w' = ∅ /\ results w' = [].
Proof.
  unfold Scraper.__init__.
  destruct (String.eqb base_substack_url ""); [discriminate|].
  destruct (String.eqb output_dir ""); [discriminate|].
  case_bool_decide as Hmode; [|discriminate]. cbn [negb].
  set (out := resolve _).
  unfold bind, try_except, fs_update, lift, ret, raise.
  destruct (Fs.mkdir (fs w) (out // "cache")) as [f1|] eqn:E1; [|discriminate].
  cbn [fs set_fs].
  destruct (Fs.mkdir f1 out) as [f2|] eqn:E2; [|discriminate]. cbn [fs set_fs].
  destruct (Fs.mkdir f2 (out // "substack_md_files")) as [f3|] eqn:E3;
    [|discriminate]. cbn [fs set_fs].
  destruct (Fs.mkdir f3 (out // "substack_html_pages")) as [f4|] eqn:E4;
    [|discriminate]. cbn [fs set_fs].
  destruct (Fs.mkdir f4 (out // "cache")) as [f5|] eqn:E5; [|discriminate].
  cbn [fs set_fs].
  destruct (Fs.mkdir f5 (out // "data")) as [f6|] eqn:E6; [|discriminate].
  cbn [fs set_fs].
  destruct (Url._extract_main_part base_substack_url) as [writer|]; [|discriminate].
  intros [= <- <-].
  apply mkdir_inv in E1, E2, E3, E4, E5, E6. subst f6 f5 f4 f3 f2 f1.
  unfold Scraper.md_save_dir, Scraper.html_save_dir, Scraper.cache_dir,
    Scraper.data_dir.
  cbn [Scraper.output_mode Scraper.base_substack_url Scraper.output_dir
       fs processed_urls results Fs.dirs Fs.with_dir].
  split_and!; [exact Hmode | apply rstrip_with_last | .. | reflexivity | reflexivity];
    repeat (apply elem_of_union;
            first [left; apply elem_of_singleton; reflexivity | right]).
Qed.

Lemma init_establishes_witness :
  exists self w',
    @Scraper.__init__ Fixture.pathlib Fixture.urllib
      "https://blog.example.com/" "out" false "both"
      (Fixture.world_of Fs.empty []) = (Ok self, w')
    /\ Scraper.output_mode self ∈ Config.VALID_MODES
    /\ PyStr.endswith (Scraper.base_substack_url self) "/" = false
    /\ Scraper.output_dir self ∈ Fs.dirs (fs w')
    /\ Scraper.md_save_dir self ∈ Fs.dirs (fs w')
    /\ Scraper.html_save_dir self ∈ Fs.dirs (fs w')
    /\ Scraper.cache_dir self ∈ Fs.dirs (fs w')
    /\ Scraper.data_dir self ∈ Fs.dirs (fs w')
    /\ processed_urls w' = ∅ /\ results w' = [].
Proof.
  eexists _, _. split; [vm_compute; reflexivity|].
  eapply (@init_establishes Fixture.pathlib Fixture.urllib
            "https://blog.example.com/" "out" false "both"
            (Fixture.world_of Fs.empty [])).
  vm_compute. reflexivity.
Defined.

(** ** Generating the listings *)

Section Generate.
Context `{Pathlib} `{Json} `{Templates}.

Lemma load_posts_reads_only (author : string) (out : path) (w : world) :
  snd (Generator.load_posts author out w) = w.
Proof.
  unfold Generator.load_posts, Generator.load_data, bind, fs_query, lift, ret, raise.
  destruct (List.find _ _) as [json_path|]; [|destruct (Generator.posts_of_index []); reflexivity].
  destruct (_validate_path out json_path); [|reflexivity].
  destruct (Fs.read_text (fs w) json_path) as [txt|]; [|reflexivity].
  destruct (json_loads txt) as [|data]; [reflexivity|].
  destruct (Generator.posts_of_index data); reflexivity.
Qed.

(** X22: [generate] loads the posts before it creates or writes anything:
    when loading fails, on an index that does not decode or holds dates
    that cannot be compared, the exception leaves as it is and the file
    system is untouched, so listings written earlier stay. *)
Theorem generate_fails_before_writing (author : string) (out : path)
    (w : world) (e : exn) :
  fst (Generator.load_posts author (resolve (resolve out)) w) = Raise e ->
  Generator.generate author out w = (Raise e, w).
Proof.
  intros Hload. unfold Generator.generate, Generator._generate_files, bind at 1.
  pose proof (load_posts_reads_only author (resolve (resolve out)) w) as Hw.
  destruct (Generator.load_posts author (resolve (resolve out)) w) as [[posts|e'] w1].
  - discriminate.
  - cbn in Hload, Hw. congruence.
Qed.

End Generate.

Lemma generate_fails_before_writing_witness :
  let w := Fixture.world_of (Fixture.with_index "{{{") [] in
  @Generator.generate Fixture.pathlib Fixture.json Fixture.templates
    "example" ["out"] w = (Raise ValueError, w).
Proof.
  apply (@generate_fails_before_writing Fixture.pathlib Fixture.json
           Fixture.templates "example" ["out"]
           (Fixture.world_of (Fixture.with_index "{{{") []) ValueError).
  vm_compute. reflexivity.
Defined.

(** ** Output modes and file names *)

Section Modes.
Context `{Hashlib} `{Bs4} `{Pathlib}.
Variable self : Scraper.t.

Lemma within_save_markdown_dir (post_data : PostData) :
  writes_within (fun p => Scraper.md_save_dir self `prefix_of` p)
    (Scraper.save_markdown self post_data).
Proof. unfold Scraper.save_markdown. auto 10 with frame. Qed.

Lemma within_save_html_dir (post_data : PostData) :
  writes_within (fun p => Scraper.html_save_dir self `prefix_of` p)
    (Scraper.save_html self post_data).
Proof. unfold Scraper.save_html. auto 10 with frame. Qed.

Lemma within_obtain_soup_cache (url : string) :
  writes_within (fun p => Scraper.cache_dir self `prefix_of` p)
    (Scraper.obtain_soup self url).
Proof.
  unfold Scraper.obtain_soup.
  apply within_bind; [apply within_get_cached_soup|].
  intros [cached|]; [auto with frame|].
  apply within_bind; [auto with frame|]. intros response.
  apply within_if; [auto with frame|].
  apply within_bind; [|auto with frame].
  apply within_save_cached_soup. unfold Cache._get_cache_path. auto with frame.
Qed.

Lemma within_process_single_url_mode (url : string) :
  writes_within
    (fun p =>
       Scraper.cache_dir self `prefix_of` p
       \/ (Scraper.output_mode self ∈ ["both"; "md"]
           /\ Scraper.md_save_dir self `prefix_of` p)
       \/ (Scraper.output_mode self ∈ ["both"; "html"]
           /\ Scraper.html_save_dir self `prefix_of` p))
    (Scraper._process_single_url self url).
Proof.
  set (P := fun p : path => _ \/ _ \/ _).
  assert (Hbody : writes_within P
    (try_except
       (soup <- Scraper.obtain_soup self url ;;
        post_data <- lift (Scraper.extract_post_data soup) ;;
        post_data <- Scraper.save_files self post_data ;;
        ret (Some post_data))
       (fun e => match e with
                 | NetworkError => ret None
                 | _ => raise e
                 end))).
  { apply within_try_except; [|intros e; destruct e; auto with frame].
    apply within_bind.
    { eapply within_weaken; [|apply within_obtain_soup_cache].
      intros p Hp. left. exact Hp. }
    intros soup. apply within_bind; [auto with frame|]. intros r.
    apply within_bind; [|auto with frame].
    unfold Scraper.save_files. apply within_bind.
    - case_bool_decide as Hmd; [|auto with frame].
      eapply within_weaken; [|apply within_save_markdown_dir].
      intros p Hp. right. left. auto.
    - intros r'. case_bool_decide as Hhtml; [|auto with frame].
      eapply within_weaken; [|apply within_save_html_dir].
      intros p Hp. right. right. auto. }
  intros w. unfold Scraper._process_single_url.
  case_bool_decide; [|apply Hbody].
  cbn. frame_same.
Qed.

(** X23: processing a URL creates or changes no file other than the log
    file, the files below the cache directory, the files below the
    Markdown directory when the output mode is [both] or [md], and the
    files below the HTML directory when it is [both] or [html]. *)
Theorem process_single_url_respects_mode (url : string) (w : world) (p : path) :
  p <> Scraper.log_file self ->
  ~ Scraper.cache_dir self `prefix_of` p ->
  ~ (Scraper.output_mode self ∈ ["both"; "md"]
     /\ Scraper.md_save_dir self `prefix_of` p) ->
  ~ (Scraper.output_mode self ∈ ["both"; "html"]
     /\ Scraper.html_save_dir self `prefix_of` p) ->
  Fs.files (fs (snd (Scraper._process_single_url self url w))) !! p
  = Fs.files (fs w) !! p.
Proof.
  intros _ Hc Hmd Hhtml.
  destruct (within_process_single_url_mode url w) as (_ & _ & _ & _ & _ & Hframe).
  apply Hframe. tauto.
Qed.

Lemma sanitize_app (a b : string) :
  Scraper.sanitize (a +:+ b) = Scraper.sanitize a +:+ Scraper.sanitize b.
Proof.
  unfold Scraper.sanitize. induction a as [|c a IH]; [reflexivity|].
  change (String (Scraper.replace_reserved c)
            (PyStr.map_chars Scraper.replace_reserved (a +:+ b))
          = String (Scraper.replace_reserved c)
              (PyStr.map_chars Scraper.replace_reserved a
               +:+ PyStr.map_chars Scraper.replace_reserved b)).
  now rewrite IH.
Qed.

Lemma joinpath_neq (a : path) (b : string) : b <> "" -> a // b <> a.
Proof.
  intros Hb E. rewrite joinpath_nonempty in E by exact Hb.
  apply (f_equal length) in E. rewrite length_app in E. simpl in E. lia.
Qed.

(** X24: two records of the same date whose titles differ in reserved
    characters only get the same file name: when both are saved, both carry
    the same link and the file holds the text of the second one alone. *)
Theorem save_markdown_same_name (r1 r2 : PostData) (w : world) :
  let author_dir := Scraper.md_save_dir self // Scraper.writer_name self in
  let filepath :=
    author_dir // Scraper.post_filename r1 Config.MARKDOWN_EXTENSION in
  date r1 = date r2 ->
  Scraper.sanitize (title r1) = Scraper.sanitize (title r2) ->
  author_dir ∉ Fs.unwritable (fs w) ->
  Fs.files (fs w) !! author_dir = None ->
  _validate_path (Scraper.output_dir self) author_dir = Ok tt ->
  filepath ∉ Fs.unwritable (fs w) ->
  filepath ∉ Fs.dirs (fs w) ->
  exists s1 s2 w1 w2,
    Scraper.save_markdown self r1 w = (Ok s1, w1)
    /\ Scraper.save_markdown self r2 w1 = (Ok s2, w2)
    /\ file_link s1 = file_link s2
    /\ Fs.files (fs w2) !! filepath = Some (Scraper.markdown_text r2).
Proof.
  intros author_dir filepath Hdate Htitle Hdu Hdf Hval Hfu Hfd.
  assert (Hname : Scraper.post_filename r2 Config.MARKDOWN_EXTENSION
                  = Scraper.post_filename r1 Config.MARKDOWN_EXTENSION).
  { unfold Scraper.post_filename. rewrite !sanitize_app, Hdate, Htitle. reflexivity. }
  assert (Hne : filepath <> author_dir)
    by apply joinpath_neq, post_filename_nonempty.
  eexists _, _, _, _. split.
  { apply save_markdown_ok; assumption. }
  split.
  { apply save_markdown_ok; rewrite ?Hname; fold author_dir; fold filepath;
      cbn [fs set_fs Fs.with_file Fs.with_dir Fs.files Fs.dirs Fs.unwritable];
      try assumption.
    - rewrite lookup_insert_ne by exact Hne. exact Hdf.
    - rewrite elem_of_union, elem_of_singleton. intros [E|E]; auto. }
  split.
  - cbn [file_link Scraper.set_file_link]. now rewrite Hname.
  - rewrite Hname. fold author_dir. fold filepath.
    cbn [fs set_fs Fs.with_file Fs.files]. apply lookup_insert_eq.
Qed.

End Modes.

Lemma save_markdown_same_name_witness :
  let self := Fixture.scraper "md" in
  exists s1 s2 w1 w2,
    @Scraper.save_markdown Fixture.pathlib self Fixture.slash_record
      (Fixture.world_of Fs.empty []) = (Ok s1, w1)
    /\ @Scraper.save_markdown Fixture.pathlib self Fixture.colon_record w1
       = (Ok s2, w2)
    /\ file_link s1 = file_link s2
    /\ Fs.files (fs w2)
         !! (Scraper.md_save_dir self // Scraper.writer_name self
             // Scraper.post_filename Fixture.slash_record Config.MARKDOWN_EXTENSION)
       = Some (Scraper.markdown_text Fixture.colon_record).
Proof.
  apply (@save_markdown_same_name Fixture.pathlib (Fixture.scraper "md")
           Fixture.slash_record Fixture.colon_record
           (Fixture.world_of Fs.empty [])).
  - reflexivity.
  - reflexivity.
  - apply not_elem_of_empty.
  - reflexivity.
  - reflexivity.
  - apply not_elem_of_empty.
  - apply not_elem_of_empty.
Defined.


Lemma process_single_url_respects_mode_witness :
  let self := Fixture.scraper "md" in
  let w := Fixture.world_of Fs.empty [Fixture.good_url] in
  let p := ["out"; "substack_html_pages"; "example"; "2024-01-01_Hello.html"] in
  Fs.files (fs (snd (@Scraper._process_single_url Fixture.hashlib Fixture.bs4
                       Fixture.pathlib self Fixture.good_url w))) !! p
  = Fs.files (fs w) !! p.
Proof.
  apply (@process_single_url_respects_mode Fixture.hashlib Fixture.bs4
           Fixture.pathlib (Fixture.scraper "md") Fixture.good_url
           (Fixture.world_of Fs.empty [Fixture.good_url])
           ["out"; "substack_html_pages"; "example"; "2024-01-01_Hello.html"]).
  - discriminate.
  - intros [k Hk]. discriminate.
  - intros [_ [k Hk]]. discriminate.
  - intros [Hm _]. revert Hm.
    change (Scraper.output_mode (Fixture.scraper "md")) with "md".
    rewrite !elem_of_cons, elem_of_nil. intros [E|[E|[]]]; discriminate.
Defined.
